(** * Code File Organizer: classification, placement and the organising walk

    A shallow embedding of [file_organizer.py] (class [FileOrganizer]) and
    the properties of its classification-and-placement engine.

    Conventions of the embedding.
    - File names, paths and decoded text are [string]s of ASCII characters;
      the POSIX flavour of [os.path] is embedded ([os.sep] is ["/"]).
    - The file system is a finite map from normalised absolute paths to
      nodes; a regular file carries its bytes and whether it can be opened
      and moved.
    - [hashlib.md5] is a parameter of the development.
    - Exceptions are explicit: a computation ends in [Done], in [Raised]
      (an exception left the method) or in [OutOfFuel] (the bound on the
      directory depth of the walk was too small). *)

From Stdlib Require Import ZArith Ascii String Lia.
From stdpp Require Import gmap strings list fin_maps pretty sorting.

Local Open Scope Z_scope.

(** ** Python string primitives *)

Module Py.

Definition is_upper (c : ascii) : bool :=
  let n := nat_of_ascii c in ((65 <=? n) && (n <=? 90))%nat.

(** [str.lower] on one ASCII character. *)
Definition lower_char (c : ascii) : ascii :=
  if is_upper c then ascii_of_nat (nat_of_ascii c + 32) else c.

(** [s.lower()] *)
Fixpoint lower (s : string) : string :=
  match s with
  | EmptyString => EmptyString
  | String c r => String (lower_char c) (lower r)
  end.

(** [s[n:]] *)
Fixpoint drop (n : nat) (s : string) : string :=
  match n, s with
  | O, _ => s
  | S _, EmptyString => EmptyString
  | S m, String _ r => drop m r
  end.

(** [s[:n]] *)
Fixpoint take (n : nat) (s : string) : string :=
  match n, s with
  | O, _ => EmptyString
  | S _, EmptyString => EmptyString
  | S m, String c r => String c (take m r)
  end.

(** Python slices clamp a negative bound that arises here to 0. *)
Definition slice_from (i : Z) (s : string) : string := drop (Z.to_nat i) s.
Definition slice_to (i : Z) (s : string) : string := take (Z.to_nat i) s.

(** [s.startswith(p)] *)
Fixpoint startswith (p s : string) : bool :=
  match p, s with
  | EmptyString, _ => true
  | String _ _, EmptyString => false
  | String a p', String b s' => if Ascii.eqb a b then startswith p' s' else false
  end.

(** [s.endswith(p)] *)
Definition endswith (p s : string) : bool :=
  (String.length p <=? String.length s)%nat
  && String.eqb (drop (String.length s - String.length p) s) p.

(** [p in s] for strings. *)
Fixpoint contains (p s : string) : bool :=
  startswith p s ||
  match s with
  | EmptyString => false
  | String _ r => contains p r
  end.

(** [s.rfind(c)] for a one-character [c]: the last index, or [-1]. *)
Fixpoint rfind (c : ascii) (s : string) : Z :=
  match s with
  | EmptyString => -1
  | String a r =>
      let i := rfind c r in
      if 0 <=? i then i + 1 else if Ascii.eqb a c then 0 else -1
  end.

(** [s.split(c)] for a one-character separator. *)
Fixpoint split (c : ascii) (s : string) : list string :=
  match s with
  | EmptyString => [EmptyString]
  | String a r =>
      if Ascii.eqb a c then EmptyString :: split c r
      else match split c r with
           | h :: t => String a h :: t
           | [] => [String a EmptyString]
           end
  end.

(** [sep.join(l)] *)
Fixpoint join_with (sep : string) (l : list string) : string :=
  match l with
  | [] => EmptyString
  | [x] => x
  | x :: t => x +:+ sep +:+ join_with sep t
  end.

(** The ASCII characters for which [str.isspace] holds. *)
Definition is_space (c : ascii) : bool :=
  let n := nat_of_ascii c in
  (((9 <=? n) && (n <=? 13)) || ((28 <=? n) && (n <=? 32)))%nat.

Fixpoint lstrip (s : string) : string :=
  match s with
  | EmptyString => EmptyString
  | String c r => if is_space c then lstrip r else s
  end.

Fixpoint rstrip (s : string) : string :=
  match s with
  | EmptyString => EmptyString
  | String c r =>
      match rstrip r with
      | EmptyString => if is_space c then EmptyString else String c EmptyString
      | r' => String c r'
      end
  end.

(** [s.strip()] *)
Definition strip (s : string) : string := rstrip (lstrip s).

(** [s in l] for a list of strings. *)
Definition in_list (s : string) (l : list string) : bool :=
  existsb (String.eqb s) l.

End Py.

(** ** [posixpath] *)

Module Path.

Definition sep : ascii := "/"%char.
Definition extsep : ascii := "."%char.

(** [os.path.basename]: [i = p.rfind(sep) + 1; return p[i:]] *)
Definition basename (p : string) : string :=
  let i := Py.rfind sep p + 1 in
  Py.slice_from i p.

Fixpoint all_sep (s : string) : bool :=
  match s with
  | EmptyString => true
  | String c r => Ascii.eqb c sep && all_sep r
  end.

Fixpoint rstrip_sep (s : string) : string :=
  match s with
  | EmptyString => EmptyString
  | String c r =>
      match rstrip_sep r with
      | EmptyString => if Ascii.eqb c sep then EmptyString else String c EmptyString
      | r' => String c r'
      end
  end.

(** [os.path.dirname] *)
Definition dirname (p : string) : string :=
  let i := Py.rfind sep p + 1 in
  let head := Py.slice_to i p in
  if negb (String.eqb head "") && negb (all_sep head)
  then rstrip_sep head else head.

Fixpoint has_non_dot (s : string) : bool :=
  match s with
  | EmptyString => false
  | String c r => negb (Ascii.eqb c extsep) || has_non_dot r
  end.

(** [os.path.splitext] ([genericpath._splitext]): the extension starts at
    the last dot of the last component, unless only dots precede it
    there. *)
Definition splitext (p : string) : string * string :=
  let sepIndex := Py.rfind sep p in
  let dotIndex := Py.rfind extsep p in
  if (sepIndex <? dotIndex)
     && has_non_dot (Py.slice_from (sepIndex + 1) (Py.slice_to dotIndex p))
  then (Py.slice_to dotIndex p, Py.slice_from dotIndex p)
  else (p, EmptyString).

(** One step of [os.path.join]'s loop. *)
Definition join2 (path b : string) : string :=
  if Py.startswith "/" b then b
  else if String.eqb path "" || Py.endswith "/" path then path +:+ b
  else path +:+ "/" +:+ b.

(** [os.path.join(a, *p)] *)
Definition join (a : string) (p : list string) : string := foldl join2 a p.

Definition normpath_step (initial_slashes : nat) (new_comps : list string)
    (comp : string) : list string :=
  if String.eqb comp "" || String.eqb comp "." then new_comps
  else if negb (String.eqb comp "..")
          || ((initial_slashes =? 0)%nat && bool_decide (new_comps = []))
          || match last new_comps with
             | Some l => String.eqb l ".."
             | None => false
             end
  then new_comps ++ [comp]
  else removelast new_comps.

(** [os.path.normpath] *)
Definition normpath (path : string) : string :=
  if String.eqb path "" then "."
  else
    let initial_slashes :=
      if Py.startswith "/" path then
        if Py.startswith "//" path && negb (Py.startswith "///" path)
        then 2%nat else 1%nat
      else 0%nat in
    let comps := foldl (normpath_step initial_slashes) [] (Py.split sep path) in
    let path' :=
      String.concat "" (replicate initial_slashes "/") +:+ Py.join_with "/" comps in
    if String.eqb path' "" then "." else path'.

Definition isabs (p : string) : bool := Py.startswith "/" p.

(** [os.path.abspath]; [cwd] is [os.getcwd()]. *)
Definition abspath (cwd path : string) : string :=
  if isabs path then normpath path else normpath (join cwd [path]).

Fixpoint commonprefix_len (a b : list string) : nat :=
  match a, b with
  | x :: a', y :: b' => if String.eqb x y then S (commonprefix_len a' b') else O
  | _, _ => O
  end.

Definition nonempty_comps (p : string) : list string :=
  filter (λ x, x ≠ EmptyString) (Py.split sep p).

(** [os.path.relpath(path, start)] for a non-empty [path]. *)
Definition relpath (cwd path start : string) : string :=
  let start_list := nonempty_comps (abspath cwd start) in
  let path_list := nonempty_comps (abspath cwd path) in
  let i := commonprefix_len start_list path_list in
  let rel_list :=
    replicate (length start_list - i) ".." ++ List.skipn i path_list in
  match rel_list with
  | [] => "."
  | x :: t => join x t
  end.

End Path.

(** ** The fragment of Python's [re] that the organizer uses *)

Module Re.

Inductive re : Type :=
| Eps                    (* the empty pattern *)
| Chr (c : ascii)        (* a literal character *)
| Word                   (* \w *)
| Space                  (* \s *)
| Dot                    (* .  : any character but a line feed *)
| Seq (r1 r2 : re)
| Alt (r1 r2 : re)       (* r1|r2 *)
| Opt (r : re)           (* r? *)
| Star (r : re)          (* r* *)
| Plus (r : re)          (* r+ *)
| Eol                    (* $  *)
| WordB.                 (* \b *)

(** A string literal as the sequence of its characters. *)
Fixpoint lit (s : string) : re :=
  match s with
  | EmptyString => Eps
  | String c r => Seq (Chr c) (lit r)
  end.

Definition is_word (c : ascii) : bool :=
  let n := nat_of_ascii c in
  (((48 <=? n) && (n <=? 57)) || ((65 <=? n) && (n <=? 90))
   || ((97 <=? n) && (n <=? 122)) || (n =? 95))%nat.

Definition nl : ascii := ascii_of_nat 10.

(** Equality of characters, under [re.IGNORECASE] when [ic] is set. *)
Definition chr_eq (ic : bool) (a b : ascii) : bool :=
  if ic then Ascii.eqb (Py.lower_char a) (Py.lower_char b) else Ascii.eqb a b.

Definition word_before (prev : option ascii) : bool :=
  match prev with Some c => is_word c | None => false end.

Definition word_after (s : string) : bool :=
  match s with String c _ => is_word c | EmptyString => false end.

(** [$] without [re.MULTILINE]: at the end of the string, or just before
    a line feed that ends the string. *)
Definition at_eol (s : string) : bool :=
  match s with
  | EmptyString => true
  | String c EmptyString => Ascii.eqb c nl
  | _ => false
  end.

Definition cont : Type := option ascii → string → bool.

(** Repetition: every round must consume a character, so [fuel] rounds,
    [fuel] the length of the remaining text, are all there can be. *)
Fixpoint star (step : option ascii → string → cont → bool) (fuel : nat)
    (prev : option ascii) (s : string) (k : cont) : bool :=
  k prev s ||
  match fuel with
  | O => false
  | S f =>
      step prev s (λ p' s',
        (String.length s' <? String.length s)%nat && star step f p' s' k)
  end.

(** Backtracking match of [r] at the head of [s]; [prev] is the character
    before [s] in the searched text, [k] decides on what follows. *)
Fixpoint m (ic : bool) (r : re) (prev : option ascii) (s : string)
    (k : cont) : bool :=
  match r with
  | Eps => k prev s
  | Chr c =>
      match s with
      | String a s' => chr_eq ic a c && k (Some a) s'
      | EmptyString => false
      end
  | Word =>
      match s with
      | String a s' => is_word a && k (Some a) s'
      | EmptyString => false
      end
  | Space =>
      match s with
      | String a s' => Py.is_space a && k (Some a) s'
      | EmptyString => false
      end
  | Dot =>
      match s with
      | String a s' => negb (Ascii.eqb a nl) && k (Some a) s'
      | EmptyString => false
      end
  | Seq r1 r2 => m ic r1 prev s (λ p' s', m ic r2 p' s' k)
  | Alt r1 r2 => m ic r1 prev s k || m ic r2 prev s k
  | Opt r1 => m ic r1 prev s k || k prev s
  | Star r1 => star (m ic r1) (String.length s) prev s k
  | Plus r1 =>
      m ic r1 prev s (λ p' s', star (m ic r1) (String.length s') p' s' k)
  | Eol => at_eol s && k prev s
  | WordB => xorb (word_before prev) (word_after s) && k prev s
  end.

Definition accept : cont := λ _ _, true.

Fixpoint search_from (ic : bool) (r : re) (prev : option ascii) (s : string)
    : bool :=
  m ic r prev s accept ||
  match s with
  | EmptyString => false
  | String c s' => search_from ic r (Some c) s'
  end.

(** The truth value of [re.search(r, s)], with [re.IGNORECASE] when [ic]. *)
Definition search (ic : bool) (r : re) (s : string) : bool :=
  search_from ic r None s.

End Re.

Import Re.

(** ** Configuration-file patterns *)

(** [\.\w+] *)
Definition dot_word : re := Seq (Chr ".") (Plus Word).

(** [config_patterns] of [is_config_file], in the order of the source. *)
Definition config_patterns : list re :=
  [ Seq (lit ".config") (Seq (Opt dot_word) Eol)   (* \.config(\.\w+)?$ *)
  ; Seq (lit ".conf") Eol                          (* \.conf$ *)
  ; Seq (lit ".ini") Eol                           (* \.ini$ *)
  ; Seq (lit ".env") (Seq (Opt dot_word) Eol)      (* \.env(\.\w+)?$ *)
  ; Seq (lit "config.") (Seq (Plus Word) Eol)      (* config\.\w+$ *)
  ; Seq (lit ".y") (Seq (Opt (Chr "a")) (Seq (lit "ml") Eol))  (* \.ya?ml$ *)
  ; Seq (lit ".toml") Eol                          (* \.toml$ *)
  ; Seq (lit "settings.") (Seq (Plus Word) Eol)    (* settings\.\w+$ *)
  ].

(** [FileOrganizer.is_config_file] *)
Definition is_config_file (filename : string) : bool :=
  existsb (λ pattern, Re.search true pattern filename) config_patterns.

Definition re_yaml : re := Seq (lit ".y") (Seq (Opt (Chr "a")) (Seq (lit "ml") Eol)).
Definition re_toml : re := Seq (lit ".toml") Eol.
Definition re_json : re := Seq (lit ".json") Eol.
Definition re_env : re := lit ".env".
Definition re_ini : re := Seq (lit ".ini") Eol.

(** [FileOrganizer.get_config_type] *)
Definition get_config_type (filename : string) : string :=
  if Re.search true re_yaml filename then "YAML"
  else if Re.search true re_toml filename then "TOML"
  else if Re.search true re_json filename then "JSON"
  else if Re.search true re_env filename then "Environment"
  else if Re.search true re_ini filename then "INI"
  else "General".

(** ** The file system *)

(** A regular file: its bytes, whether they decode as text (then the text
    is the bytes), whether [open] succeeds, whether [shutil.move] of the
    file succeeds. *)
Record fdata : Type := FData {
  f_bytes : string;
  f_text : bool;
  f_readable : bool;
  f_movable : bool;
}.

Inductive node : Type :=
| NFile (f : fdata)
| NDir.

Global Instance fdata_eq_dec : EqDecision fdata.
Proof. solve_decision. Defined.
Global Instance node_eq_dec : EqDecision node.
Proof. solve_decision. Defined.

Inductive exn : Type :=
| OSError             (* with IOError, FileNotFoundError, ... *)
| UnicodeDecodeError
| ValueError
| ShutilError
| TypeError.

Inductive outcome (A : Type) : Type :=
| Done (a : A)
| Raised (e : exn)
| OutOfFuel.
Arguments Done {A} a.
Arguments Raised {A} e.
Arguments OutOfFuel {A}.

Module FS.

Definition is_dir (fs : gmap string node) (p : string) : bool :=
  bool_decide (p = "/") ||
  match fs !! p with Some NDir => true | _ => false end.

Definition exists_ (fs : gmap string node) (p : string) : bool :=
  bool_decide (p = "/") || bool_decide (is_Some (fs !! p)).

(** [p[len(pre):]] when [p.startswith(pre)] *)
Fixpoint strip_prefix (pre p : string) : option string :=
  match pre, p with
  | EmptyString, _ => Some p
  | String a pre', String b p' =>
      if Ascii.eqb a b then strip_prefix pre' p' else None
  | String _ _, EmptyString => None
  end.

(** The names a directory can hold. *)
Definition valid_name (name : string) : bool :=
  negb (String.eqb name "") && negb (Py.contains "/" name)
  && negb (String.eqb name ".") && negb (String.eqb name "..").

Definition with_sep (d : string) : string :=
  if Py.endswith "/" d then d else d +:+ "/".

Definition entry_of (d : string) (kn : string * node) : option (string * node) :=
  match strip_prefix (with_sep d) kn.1 with
  | Some name => if valid_name name then Some (name, kn.2) else None
  | None => None
  end.

Definition is_dir_entry (e : string * node) : bool :=
  match e.2 with NDir => true | NFile _ => false end.

(** [os.scandir(top)] as [os.walk] uses it, for a normalised [top]: the
    names of the sub-directories and of the other entries; [None] when
    [top] is empty or not a directory (an [OSError] that [os.walk]
    swallows). *)
Definition scandir (fs : gmap string node) (top : string)
    : option (list string * list string) :=
  if negb (String.eqb top "") && is_dir fs top then
    let entries := omap (entry_of top) (map_to_list fs) in
    Some ((filter (λ e, is_dir_entry e = true) entries).*1,
          (filter (λ e, is_dir_entry e = false) entries).*1)
  else None.

(** The directories [os.makedirs] has to find or make: every proper
    prefix of the normalised path, shortest first, and the path. *)
Fixpoint prefixes_from (acc : string) (comps : list string) : list string :=
  match comps with
  | [] => []
  | c :: r => let acc' := Path.join2 acc c in acc' :: prefixes_from acc' r
  end.

Definition ancestors (p : string) : list string :=
  prefixes_from "/" (Path.nonempty_comps p).

Definition is_file (fs : gmap string node) (p : string) : bool :=
  match fs !! p with Some (NFile _) => true | _ => false end.

(** [os.makedirs(name, exist_ok=True)] on the resolved path [p]: an
    [OSError] when a regular file is in the way, else every missing
    directory is made. *)
Definition makedirs (fs : gmap string node) (p : string)
    : option (gmap string node) :=
  if existsb (is_file fs) (ancestors p) then None
  else Some (foldl (λ m q, if is_dir m q then m else <[q := NDir]> m)
                   fs (ancestors p)).

(** [shutil.move(src, dst)] of a regular file on the resolved paths:
    [None] stands for an exception ([src] is no movable file, the
    destination inside an existing directory [dst] is taken, or the
    parent of the destination is no directory). *)
Definition move (fs : gmap string node) (src dst : string)
    : option (gmap string node) :=
  match fs !! src with
  | Some (NFile f) =>
      if f_movable f then
        let real_dst :=
          if is_dir fs dst then Path.join dst [Path.basename src] else dst in
        if is_dir fs dst && exists_ fs real_dst then None
        else if is_dir fs (Path.dirname real_dst)
        then Some (<[real_dst := NFile f]> (delete src fs))
        else None
      else None
  | _ => None
  end.

End FS.

(** ** Run statistics, configuration, state *)

Record stats : Type := Stats {
  total_files : nat;
  organized_files : nat;
  skipped_files : nat;
  duplicate_files : option nat;       (* the key is absent until first set *)
  unknown_extensions : gset string;
}.

Inductive level : Type := DEBUG | INFO | WARNING | ERROR.

(** What a run does to the outside, in order. *)
Inductive event : Type :=
| Log (l : level) (msg : string)
| Makedirs (path : string)
| Move (src dst : string)
| OpenWrite (path : string).

Global Instance level_eq_dec : EqDecision level.
Proof. solve_decision. Defined.
Global Instance event_eq_dec : EqDecision event.
Proof. solve_decision. Defined.

(** The attributes of a [FileOrganizer] that a run does not change. *)
Record organizer : Type := Organizer {
  source_dir : string;
  target_dir : string;
  mappings : gmap string string;
  project_mode : bool;
  exclude_dirs : list string;
  exclude_files : list string;
  dry_run : bool;
}.

(** The mutable state of a run: the file system, [os.getcwd()],
    [self.stats], [self.duplicate_files] and the trace of effects. *)
Record world : Type := World {
  w_fs : gmap string node;
  w_cwd : string;
  w_stats : stats;
  w_duplicates : gmap string (list string);
  w_events : list event;
}.

(** [DEFAULT_MAPPINGS] *)
Definition DEFAULT_MAPPINGS : gmap string string :=
  list_to_map
    [ ("html", "Web/HTML"); ("htm", "Web/HTML"); ("css", "Web/CSS");
      ("scss", "Web/CSS"); ("sass", "Web/CSS"); ("less", "Web/CSS");
      ("js", "Web/JavaScript"); ("jsx", "Web/React"); ("ts", "Web/TypeScript");
      ("tsx", "Web/React"); ("php", "Web/PHP");
      ("py", "Python"); ("java", "Java"); ("c", "C"); ("cpp", "C++");
      ("cs", "CSharp"); ("go", "Go"); ("rs", "Rust"); ("rb", "Ruby");
      ("swift", "Swift"); ("kt", "Kotlin");
      ("json", "Data/JSON"); ("xml", "Data/XML"); ("yaml", "Data/YAML");
      ("yml", "Data/YAML"); ("csv", "Data/CSV"); ("xls", "Data/Excel");
      ("xlsx", "Data/Excel");
      ("md", "Documentation/Markdown"); ("txt", "Documentation/Text");
      ("pdf", "Documentation/PDF"); ("docx", "Documentation/Word");
      ("doc", "Documentation/Word");
      ("ini", "Config"); ("cfg", "Config"); ("conf", "Config");
      ("env", "Config"); ("toml", "Config");
      ("jpg", "Media/Images"); ("jpeg", "Media/Images"); ("png", "Media/Images");
      ("gif", "Media/Images"); ("svg", "Media/Images"); ("webp", "Media/Images");
      ("sh", "Scripts/Shell"); ("bash", "Scripts/Shell"); ("bat", "Scripts/Batch");
      ("ps1", "Scripts/PowerShell"); ("sql", "Database/SQL") ].

Definition DEFAULT_EXCLUDE_DIRS : list string :=
  [".git"; ".vscode"; "node_modules"; "venv"; "env"; "__pycache__"].

Definition DEFAULT_EXCLUDE_FILES : list string :=
  ["file_organizer.py"; "file_organizer_config.json"].

(** [x or default] for an optional dictionary or list argument. *)
Definition or_default {A} (empty : A → bool) (x : option A) (d : A) : A :=
  match x with
  | Some v => if empty v then d else v
  | None => d
  end.

(** [FileOrganizer.__init__]; [cwd] is [os.getcwd()]. *)
Definition init (cwd source : string) (target : option string)
    (maps : option (gmap string string)) (project : bool)
    (ex_dirs ex_files : option (list string)) (dry : bool) : organizer :=
  let src := Path.abspath cwd source in
  {| source_dir := src;
     target_dir :=
       match target with
       | Some t => if String.eqb t "" then src else Path.abspath cwd t
       | None => src
       end;
     mappings := or_default (λ m, bool_decide (m = ∅)) maps DEFAULT_MAPPINGS;
     project_mode := project;
     exclude_dirs := or_default (λ l, bool_decide (l = [])) ex_dirs DEFAULT_EXCLUDE_DIRS;
     exclude_files := or_default (λ l, bool_decide (l = [])) ex_files DEFAULT_EXCLUDE_FILES;
     dry_run := dry |}.

(** [self.stats] as [__init__] leaves it. *)
Definition stats0 : stats :=
  {| total_files := 0; organized_files := 0; skipped_files := 0;
     duplicate_files := None; unknown_extensions := ∅ |}.

Definition world0 (fs : gmap string node) (cwd : string) : world :=
  {| w_fs := fs; w_cwd := cwd; w_stats := stats0; w_duplicates := ∅;
     w_events := [] |}.

(** ** A state-and-exception monad *)

Definition M (St A : Type) : Type := St → outcome A * St.

Global Instance M_ret {St} : MRet (M St) := λ A a s, (Done a, s).

Global Instance M_bind {St} : MBind (M St) := λ A B f c s,
  match c s with
  | (Done a, s') => f a s'
  | (Raised e, s') => (Raised e, s')
  | (OutOfFuel, s') => (OutOfFuel, s')
  end.

Global Instance M_fmap {St} : FMap (M St) := λ A B f c,
  a ← c; mret (f a).

Definition raise {St A} (e : exn) : M St A := λ s, (Raised e, s).
Definition out_of_fuel {St A} : M St A := λ s, (OutOfFuel, s).
Definition gets {St A} (f : St → A) : M St A := λ s, (Done (f s), s).
Definition modify {St} (f : St → St) : M St unit := λ s, (Done tt, f s).

(** [try: c  except Exception as e: h e] *)
Definition try_except {St A} (c : M St A) (h : exn → M St A) : M St A := λ s,
  match c s with
  | (Raised e, s') => h e s'
  | r => r
  end.

(** [for x in l: f x] *)
Fixpoint for_each {St A} (f : A → M St unit) (l : list A) : M St unit :=
  match l with
  | [] => mret tt
  | x :: r => f x ;; for_each f r
  end.

(** ** [os.walk], top-down *)

Section Walk.
Context {St : Type} (fs_of : St → gmap string node).

(** [for root, dirs, files in os.walk(top): dirs[:] = body root dirs files]:
    a directory is listed when the walk reaches it, so it sees what the
    body did before; the body returns the sub-directories to descend
    into.  [fuel] bounds the depth of the descent. *)
Fixpoint os_walk (fuel : nat)
    (body : string → list string → list string → M St (list string))
    (top : string) : M St unit :=
  match fuel with
  | O => out_of_fuel
  | S n => λ s,
      match FS.scandir (fs_of s) top with
      | None => (Done tt, s)
      | Some (dirs, files) =>
          (dirs' ← body top dirs files;
           for_each (λ d, os_walk n body (Path.join top [d])) dirs') s
      end
  end.
End Walk.

(** ** The organizer *)

Definition incr_total (st : stats) : stats :=
  {| total_files := S (total_files st); organized_files := organized_files st;
     skipped_files := skipped_files st; duplicate_files := duplicate_files st;
     unknown_extensions := unknown_extensions st |}.

Definition incr_organized (st : stats) : stats :=
  {| total_files := total_files st; organized_files := S (organized_files st);
     skipped_files := skipped_files st; duplicate_files := duplicate_files st;
     unknown_extensions := unknown_extensions st |}.

Definition incr_skipped (st : stats) : stats :=
  {| total_files := total_files st; organized_files := organized_files st;
     skipped_files := S (skipped_files st); duplicate_files := duplicate_files st;
     unknown_extensions := unknown_extensions st |}.

(** [stats.setdefault("duplicate_files", 0); stats["duplicate_files"] += 1] *)
Definition incr_duplicate (st : stats) : stats :=
  {| total_files := total_files st; organized_files := organized_files st;
     skipped_files := skipped_files st;
     duplicate_files := Some (S (default 0%nat (duplicate_files st)));
     unknown_extensions := unknown_extensions st |}.

Definition add_unknown (ext : string) (st : stats) : stats :=
  {| total_files := total_files st; organized_files := organized_files st;
     skipped_files := skipped_files st; duplicate_files := duplicate_files st;
     unknown_extensions := {[ext]} ∪ unknown_extensions st |}.

Definition set_stats (f : stats → stats) (w : world) : world :=
  {| w_fs := w_fs w; w_cwd := w_cwd w; w_stats := f (w_stats w);
     w_duplicates := w_duplicates w; w_events := w_events w |}.

Definition set_fs (fs : gmap string node) (w : world) : world :=
  {| w_fs := fs; w_cwd := w_cwd w; w_stats := w_stats w;
     w_duplicates := w_duplicates w; w_events := w_events w |}.

Definition set_duplicates (d : gmap string (list string)) (w : world) : world :=
  {| w_fs := w_fs w; w_cwd := w_cwd w; w_stats := w_stats w;
     w_duplicates := d; w_events := w_events w |}.

Definition emit (e : event) (w : world) : world :=
  {| w_fs := w_fs w; w_cwd := w_cwd w; w_stats := w_stats w;
     w_duplicates := w_duplicates w; w_events := w_events w ++ [e] |}.

Definition log (l : level) (msg : string) : M world unit := modify (emit (Log l msg)).

(** The truth value of an [Optional[str]]. *)
Definition truthy (x : option string) : bool :=
  match x with
  | Some s => negb (String.eqb s "")
  | None => false
  end.

(** [FileOrganizer.should_exclude] *)
Definition should_exclude (o : organizer) (path : string) : bool :=
  let file_name := Path.basename path in
  if Py.in_list file_name (exclude_files o) then true
  else existsb (λ excluded_dir, Py.in_list excluded_dir (Py.split Path.sep path))
               (exclude_dirs o).

(** [os.path.relpath(os.path.dirname(file_path), self.source_dir)], with
    ["."] replaced by [""]; a [ValueError] when the directory part is
    empty. *)
Definition rel_parent (o : organizer) (file_path : string) : M world string :=
  let d := Path.dirname file_path in
  if String.eqb d "" then raise ValueError
  else
    cwd ← gets w_cwd;
    let rel_path := Path.relpath cwd d (source_dir o) in
    mret (if String.eqb rel_path "." then "" else rel_path).

(** The destination of a file of category [category]: the shared tail of
    [get_target_path] and of the content branch of
    [smart_categorize_file]. *)
Definition place (o : organizer) (file_path category : string) : M world string :=
  if project_mode o then
    rel_path ← rel_parent o file_path;
    let target_subdir := Path.join (target_dir o) [rel_path; category] in
    mret (Path.join target_subdir [Path.basename file_path])
  else
    let target_subdir := Path.join (target_dir o) [category] in
    mret (Path.join target_subdir [Path.basename file_path]).

(** The extension as [get_target_path] computes it:
    [ext = ext[1:].lower() if ext else ""]. *)
Definition extension (file_path : string) : string :=
  let ext := (Path.splitext file_path).2 in
  if String.eqb ext "" then "" else Py.lower (Py.drop 1 ext).

(** [FileOrganizer.get_target_path] *)
Definition get_target_path (o : organizer) (file_path : string)
    : M world (option string) :=
  let ext := extension file_path in
  if String.eqb ext "" then mret None
  else
    match mappings o !! ext with
    | Some category => Some <$> place o file_path category
    | None =>
        modify (set_stats (add_unknown ext));;
        mret None
    end.

(** ** Reading files *)

(** [open(path, 'rb')] and reading it all: the bytes, or an [OSError]. *)
Definition read_bytes (w : world) (path : string) : outcome string :=
  match w_fs w !! Path.abspath (w_cwd w) path with
  | Some (NFile f) => if f_readable f then Done (f_bytes f) else Raised OSError
  | _ => Raised OSError
  end.

(** Universal newlines: ["\r\n"] and a lone ["\r"] read as ["\n"]. *)
Fixpoint universal_newlines (s : string) : string :=
  match s with
  | EmptyString => EmptyString
  | String c r =>
      if Ascii.eqb c (ascii_of_nat 13) then
        match r with
        | String c' r' =>
            if Ascii.eqb c' Re.nl then universal_newlines r
            else String Re.nl (universal_newlines r)
        | EmptyString => String Re.nl EmptyString
        end
      else String c (universal_newlines r)
  end.

(** [open(path, 'r', encoding='utf-8')] followed by a read: the decoded
    text, an [OSError] from [open], or a [UnicodeDecodeError] from the
    read. *)
Definition read_text (w : world) (path : string) : outcome string :=
  match w_fs w !! Path.abspath (w_cwd w) path with
  | Some (NFile f) =>
      if f_readable f then
        if f_text f then Done (universal_newlines (f_bytes f))
        else Raised UnicodeDecodeError
      else Raised OSError
  | _ => Raised OSError
  end.

(** [f.readline()]: up to and with the first line feed. *)
Fixpoint readline (s : string) : string :=
  match s with
  | EmptyString => EmptyString
  | String c r =>
      if Ascii.eqb c Re.nl then String c EmptyString else String c (readline r)
  end.

(** [os.path.getsize] *)
Definition getsize (w : world) (path : string) : outcome Z :=
  match w_fs w !! Path.abspath (w_cwd w) path with
  | Some (NFile f) => Done (Z.of_nat (String.length (f_bytes f)))
  | Some NDir => Done 4096
  | None => if bool_decide (Path.abspath (w_cwd w) path = "/")
            then Done 4096 else Raised OSError
  end.

(** ** Content classification *)

Definition script_extensions : list string :=
  [".py"; ".js"; ".sh"; ".bash"; ".pl"; ".rb"].

(** The chain over the interpreter names in a shebang line. *)
Definition shebang_type (first_line : string) : option string :=
  if Py.contains "python" first_line then Some "Python/Scripts"
  else if Py.contains "node" first_line then Some "Web/JavaScript/Scripts"
  else if existsb (λ shell, Py.contains shell first_line) ["bash"; "sh"; "zsh"]
  then Some "Scripts/Shell"
  else if Py.contains "ruby" first_line then Some "Ruby/Scripts"
  else if Py.contains "perl" first_line then Some "Perl/Scripts"
  else None.

Definition spaces1 : re := Plus Space.

(** [<!DOCTYPE\s+html>|<html\b] *)
Definition re_html : re :=
  Alt (Seq (lit "<!DOCTYPE") (Seq spaces1 (lit "html>")))
      (Seq (lit "<html") WordB).

(** [@import\s+url|@media\b|\bbody\s*{] *)
Definition re_css : re :=
  Alt (Seq (lit "@import") (Seq spaces1 (lit "url")))
      (Alt (Seq (lit "@media") WordB)
           (Seq WordB (Seq (lit "body") (Seq (Star Space) (Chr "{"))))).

(** [import\s+.*\bfrom\b|\bexport\b.*\bclass\b|\bfunction\b] *)
Definition re_js : re :=
  Alt (Seq (lit "import") (Seq spaces1 (Seq (Star Dot)
         (Seq WordB (Seq (lit "from") WordB)))))
      (Alt (Seq WordB (Seq (lit "export") (Seq WordB (Seq (Star Dot)
              (Seq WordB (Seq (lit "class") WordB))))))
           (Seq WordB (Seq (lit "function") WordB))).

(** [SELECT\s+.*\bFROM\b|CREATE\s+TABLE|INSERT\s+INTO] *)
Definition re_sql : re :=
  Alt (Seq (lit "SELECT") (Seq spaces1 (Seq (Star Dot)
         (Seq WordB (Seq (lit "FROM") WordB)))))
      (Alt (Seq (lit "CREATE") (Seq spaces1 (lit "TABLE")))
           (Seq (lit "INSERT") (Seq spaces1 (lit "INTO")))).

(** The signature tests on [content = f.read(4096)]. *)
Definition signature_type (content : string) : option string :=
  if Re.search true re_html content then Some "Web/HTML"
  else if Re.search false re_css content then Some "Web/CSS"
  else if Re.search false re_js content then
    if Py.contains "React" content || Py.contains "jsx" content
    then Some "Web/React"
    else if Py.contains "interface " content || Py.contains ": string" content
    then Some "Web/TypeScript"
    else Some "Web/JavaScript"
  else if Re.search true re_sql content then Some "Database/SQL"
  else None.

(** The shebang pass of [detect_file_type_from_content]: [Done (Some t)]
    returns [t]; [Done None] falls through to the signature pass (also
    after a [UnicodeDecodeError], which the pass swallows); an [OSError]
    of [open] leaves the method. *)
Definition shebang_pass (w : world) (file_path : string) : outcome (option string) :=
  let ext := Py.lower (Path.splitext file_path).2 in
  if Py.in_list ext script_extensions then
    match read_text w file_path with
    | Done text =>
        let first_line := Py.strip (readline text) in
        if Py.startswith "#!" first_line
        then Done (shebang_type first_line) else Done None
    | Raised UnicodeDecodeError => Done None
    | Raised e => Raised e
    | OutOfFuel => OutOfFuel
    end
  else Done None.

(** The signature pass: every exception it can meet is swallowed. *)
Definition signature_pass (w : world) (file_path : string) : option string :=
  match read_text w file_path with
  | Done text => signature_type (Py.take 4096 text)
  | _ => None
  end.

(** [FileOrganizer.detect_file_type_from_content] *)
Definition detect_file_type_from_content (file_path : string)
    : M world (option string) := λ w,
  match shebang_pass w file_path with
  | Done (Some t) => (Done (Some t), w)
  | Done None => (Done (signature_pass w file_path), w)
  | Raised e => (Raised e, w)
  | OutOfFuel => (OutOfFuel, w)
  end.

(** [FileOrganizer.smart_categorize_file] *)
Definition smart_categorize_file (o : organizer) (file_path : string)
    : M world (option string) :=
  let filename := Path.basename file_path in
  if is_config_file filename then
    let target_subdir :=
      Path.join (target_dir o) ["Config"; get_config_type filename] in
    mret (Some (Path.join target_subdir [filename]))
  else
    file_size ← (λ w, (getsize w file_path, w));
    if file_size <? 500 * 1024 then
      try_except
        (file_type ← detect_file_type_from_content file_path;
         match file_type with
         | Some t => if String.eqb t "" then mret None
                     else Some <$> place o file_path t
         | None => mret None
         end)
        (λ e, match e with
              | OSError | UnicodeDecodeError =>
                  log DEBUG ("Could not analyze content of " +:+ file_path);;
                  mret None
              | _ => raise e
              end)
    else mret None.

(** ** Hashing, the duplicate scan, the organising walk *)

Section Organizer.

(** [hashlib.md5(data).hexdigest()] *)
Variable md5 : string → string.

(** [FileOrganizer.get_file_hash] *)
Definition get_file_hash (file_path : string) : M world string := λ w,
  match read_bytes w file_path with
  | Done b => (Done (md5 b), w)
  | Raised e => (Raised e, w)
  | OutOfFuel => (OutOfFuel, w)
  end.

(** [duplicate_map[file_hash].append(file_path)] on a
    [defaultdict(list)] *)
Definition dict_append (h p : string) (m : gmap string (list string))
    : gmap string (list string) :=
  <[h := default [] (m !! h) ++ [p]]> m.

(** The state of the scan: the world and the local [duplicate_map]. *)
Definition scan_state : Type := world * gmap string (list string).

Definition scan_file (o : organizer) (root filename : string) : M scan_state unit :=
  λ s,
    let file_path := Path.join root [filename] in
    if negb (should_exclude o file_path) then
      match get_file_hash file_path s.1 with
      | (Done file_hash, w) => (Done tt, (w, dict_append file_hash file_path s.2))
      | (Raised OSError, w) =>
          (Done tt, (emit (Log ERROR ("Error hashing file " +:+ file_path)) w, s.2))
      | (Raised e, w) => (Raised e, (w, s.2))
      | (OutOfFuel, w) => (OutOfFuel, (w, s.2))
      end
    else (Done tt, s).

(** [FileOrganizer.find_duplicate_files] *)
Definition find_duplicate_files (fuel : nat) (o : organizer)
    : M world (gmap string (list string)) := λ w,
  let w := emit (Log INFO "Scanning for duplicate files...") w in
  match os_walk (λ s : scan_state, w_fs s.1) fuel
          (λ root dirs files, for_each (scan_file o root) files;; mret dirs)
          (source_dir o) (w, ∅) with
  | (Done _, (w', duplicate_map)) =>
      (Done (filter (λ kv, 1 < length kv.2)%nat duplicate_map), w')
  | (Raised e, (w', _)) => (Raised e, w')
  | (OutOfFuel, (w', _)) => (OutOfFuel, w')
  end.

(** [os.makedirs(path, exist_ok=True)] *)
Definition makedirs (path : string) : M world unit := λ w,
  let w := emit (Makedirs path) w in
  if String.eqb path "" then (Raised OSError, w)
  else
    match FS.makedirs (w_fs w) (Path.abspath (w_cwd w) path) with
    | Some fs => (Done tt, set_fs fs w)
    | None => (Raised OSError, w)
    end.

(** [shutil.move(src, dst)] *)
Definition shutil_move (src dst : string) : M world unit := λ w,
  let w := emit (Move src dst) w in
  match FS.move (w_fs w) (Path.abspath (w_cwd w) src)
                (Path.abspath (w_cwd w) dst) with
  | Some fs => (Done tt, set_fs fs w)
  | None => (Raised ShutilError, w)
  end.

(** The duplicate check of the walk:
    [file_hash and file_hash in self.duplicate_files
     and len(self.duplicate_files[file_hash]) > 1] *)
Definition is_duplicate (w : world) (file_hash : option string) : bool :=
  truthy file_hash &&
  match w_duplicates w !! default "" file_hash with
  | Some l => bool_decide (1 < length l)%nat
  | None => false
  end.

(** Lines 200-205 of [organize_files]: smart categorisation first, the
    extension as the fall-back. *)
Definition classify (o : organizer) (file_path : string)
    : M world (option string) :=
  target_path ← smart_categorize_file o file_path;
  if truthy target_path then mret target_path
  else get_target_path o file_path.

(** Lines 185-219 of [organize_files]: count the file, then decide
    whether and where it is to be moved; [None] stands for [continue].
    The target directory is made on the way out. *)
Definition prepare_move (o : organizer) (root file : string)
    : M world (option string) :=
  modify (set_stats incr_total);;
  let file_path := Path.join root [file] in
  if should_exclude o file_path then
    log DEBUG ("Skipping excluded file: " +:+ file_path);;
    modify (set_stats incr_skipped);;
    mret None
  else
    file_hash ← (if negb (dry_run o) then Some <$> get_file_hash file_path
                 else mret None);
    dup ← gets (λ w, is_duplicate w file_hash);
    (if dup : bool then modify (set_stats incr_duplicate) else mret tt);;
    target_path ← classify o file_path;
    if negb (truthy target_path) then
      log DEBUG ("No mapping found for file: " +:+ file_path);;
      modify (set_stats incr_skipped);;
      mret None
    else
      let target_path := default "" target_path in
      if String.eqb (Path.normpath file_path) (Path.normpath target_path) then
        log DEBUG ("Source and destination are the same: " +:+ file_path);;
        modify (set_stats incr_skipped);;
        mret None
      else
        makedirs (Path.dirname target_path);;
        mret (Some target_path).

(** Lines 221-232 of [organize_files]: move the file or, in a dry run,
    say so. *)
Definition move_file (o : organizer) (file_path target_path : string)
    : M world unit :=
  if negb (dry_run o) then
    try_except
      (shutil_move file_path target_path;;
       log INFO ("Moved: " +:+ file_path +:+ " -> " +:+ target_path);;
       modify (set_stats incr_organized))
      (λ e,
       log ERROR ("Error moving " +:+ file_path);;
       modify (set_stats incr_skipped))
  else
    log INFO ("Would move: " +:+ file_path +:+ " -> " +:+ target_path);;
    modify (set_stats incr_organized).

(** The body of [for file in files:] in [organize_files]. *)
Definition organize_one (o : organizer) (root file : string) : M world unit :=
  target_path ← prepare_move o root file;
  match target_path with
  | Some target_path => move_file o (Path.join root [file]) target_path
  | None => mret tt
  end.

(** The body of the walk of [organize_files]: prune, then the files. *)
Definition organize_dir (o : organizer) (root : string)
    (dirs files : list string) : M world (list string) :=
  let dirs' := filter (λ d, should_exclude o (Path.join root [d]) = false) dirs in
  for_each (organize_one o root) files;;
  mret dirs'.

(** [FileOrganizer.organize_files] from the duplicate scan on (line 177),
    after its two opening log lines.  The call of
    [detect_project_structure] (line 174) is left out: it runs [git] and
    parses [package.json], touches no file and none of the counters, and
    an exception of its own ends the run before the work below starts.
    The timing is left out too. *)
Definition organize_files (fuel : nat) (o : organizer) : M world unit :=
  log INFO ("Starting file organization from " +:+ source_dir o +:+ " to "
            +:+ target_dir o);;
  log INFO ("Dry run: " +:+ (if dry_run o then "True" else "False"));;
  duplicates ← (if negb (dry_run o) then find_duplicate_files fuel o
                else mret ∅);
  modify (set_duplicates duplicates);;
  os_walk w_fs fuel (organize_dir o) (source_dir o).

(** [FileOrganizer.generate_report]: in a real run [open] makes the
    report file and [json.dump] then raises [TypeError] on the set of
    unknown extensions; the bytes written until then are left out. *)
Definition generate_report (o : organizer) (report_file : string) : M world unit :=
  if dry_run o then log INFO "Report generation skipped in dry run mode"
  else
    let report_path := Path.join (target_dir o) [report_file] in
    (λ w,
      let w := emit (OpenWrite report_path) w in
      let p := Path.abspath (w_cwd w) report_path in
      if FS.is_dir (w_fs w) (Path.dirname p) && negb (FS.is_dir (w_fs w) p)
      then (Raised TypeError,
            set_fs (<[p := NFile (FData "" true true true)]> (w_fs w)) w)
      else (Raised OSError, w)).

End Organizer.

(** ** Facts on strings *)

Module PyFacts.

Lemma sapp_cons (c : ascii) (s t : string) :
  String c s +:+ t = String c (s +:+ t).
Proof. reflexivity. Qed.

Lemma sapp_nil_l (s : string) : "" +:+ s = s.
Proof. reflexivity. Qed.

Lemma sapp_nil_r (s : string) : s +:+ "" = s.
Proof. induction s as [|c s IH]; [done | by rewrite sapp_cons, IH]. Qed.

Lemma sapp_assoc (a b c : string) : (a +:+ b) +:+ c = a +:+ (b +:+ c).
Proof. induction a as [|x a IH]; [done | by rewrite !sapp_cons, IH]. Qed.

Lemma slength_app (a b : string) :
  String.length (a +:+ b) = (String.length a + String.length b)%nat.
Proof. induction a as [|x a IH]; [done | rewrite sapp_cons; simpl; by rewrite IH]. Qed.

Lemma drop_app (a b : string) : Py.drop (String.length a) (a +:+ b) = b.
Proof. induction a as [|x a IH]; [by destruct b | by rewrite sapp_cons]. Qed.

Lemma take_app (a b : string) : Py.take (String.length a) (a +:+ b) = a.
Proof.
  induction a as [|x a IH]; [by destruct b | rewrite sapp_cons; simpl; by rewrite IH].
Qed.

Lemma take_drop (n : nat) (s : string) : Py.take n s +:+ Py.drop n s = s.
Proof.
  revert s; induction n as [|n IH]; intros [|c s]; try done.
  simpl. by rewrite sapp_cons, IH.
Qed.

Lemma rfind_bounds (c : ascii) (s : string) :
  -1 <= Py.rfind c s < Z.of_nat (String.length s).
Proof.
  induction s as [|a s IH]; simpl; [lia|].
  destruct (Z.leb_spec 0 (Py.rfind c s)); [lia|].
  destruct (Ascii.eqb a c); lia.
Qed.

Lemma rfind_app_found (c : ascii) (a b : string) :
  0 <= Py.rfind c b →
  Py.rfind c (a +:+ b) = Z.of_nat (String.length a) + Py.rfind c b.
Proof.
  intros Hb. induction a as [|x a IH]; rewrite ?sapp_cons, ?sapp_nil_l; [simpl; lia|].
  cbn [Py.rfind String.length]. rewrite IH.
  destruct (Z.leb_spec 0 (Z.of_nat (String.length a) + Py.rfind c b)); lia.
Qed.

Lemma rfind_app_missing (c : ascii) (a b : string) :
  Py.rfind c b = -1 → Py.rfind c (a +:+ b) = Py.rfind c a.
Proof.
  intros Hb. induction a as [|x a IH]; rewrite ?sapp_cons, ?sapp_nil_l; [done|].
  cbn [Py.rfind]. by rewrite IH.
Qed.

Lemma rfind_cons_hit (c : ascii) (b : string) :
  Py.rfind c b = -1 → Py.rfind c (String c b) = 0.
Proof. intros H. cbn [Py.rfind]. rewrite H. simpl. by rewrite Ascii.eqb_refl. Qed.

(** The last occurrence splits the string. *)
Lemma rfind_split (c : ascii) (s : string) :
  0 <= Py.rfind c s →
  ∃ h t, s = h +:+ String c t ∧ Py.rfind c t = -1
         ∧ Py.rfind c s = Z.of_nat (String.length h).
Proof.
  induction s as [|a s IH]; cbn [Py.rfind]; [lia|].
  destruct (Z.leb_spec 0 (Py.rfind c s)) as [Hs|Hs].
  - intros _. destruct (IH Hs) as (h & t & -> & Ht & Hl).
    exists (String a h), t. split_and!; [done..|]. simpl String.length. lia.
  - destruct (Ascii.eqb_spec a c) as [->|]; [|lia].
    intros _. exists "", s. split_and!; [done| |done].
    pose proof (rfind_bounds c s). lia.
Qed.

Lemma startswith_app (p s : string) : Py.startswith p (p +:+ s) = true.
Proof. induction p as [|a p IH]; simpl; [done|]. by rewrite Ascii.eqb_refl. Qed.

Lemma startswith_inv (p s : string) :
  Py.startswith p s = true → ∃ t, s = p +:+ t.
Proof.
  revert s; induction p as [|a p IH]; intros s; simpl; [by exists s|].
  destruct s as [|b s]; [done|].
  destruct (Ascii.eqb_spec a b) as [->|]; [|done].
  intros [t ->]%IH. by exists t.
Qed.

Lemma endswith_inv (p s : string) :
  Py.endswith p s = true → ∃ h, s = h +:+ p.
Proof.
  unfold Py.endswith. intros [_ H]%andb_true_iff.
  apply String.eqb_eq in H.
  exists (Py.take (String.length s - String.length p) s).
  rewrite <- H at 2. by rewrite take_drop.
Qed.

Lemma endswith_app (h p : string) : Py.endswith p (h +:+ p) = true.
Proof.
  unfold Py.endswith. rewrite slength_app. apply andb_true_iff. split.
  - apply Nat.leb_le. lia.
  - replace (String.length h + String.length p - String.length p)%nat
      with (String.length h) by lia.
    rewrite drop_app. apply String.eqb_refl.
Qed.



Lemma in_list_true (s : string) (l : list string) :
  Py.in_list s l = true ↔ s ∈ l.
Proof.
  unfold Py.in_list. rewrite existsb_exists. split.
  - intros (x & Hx & ->%String.eqb_eq). by apply list_elem_of_In.
  - intros H. exists s. split; [by apply list_elem_of_In | apply String.eqb_refl].
Qed.

End PyFacts.

(** ** Facts on paths *)

Module PathFacts.
Import PyFacts.

(** A string without a separator, as a directory entry's name is. *)
Definition no_sep (b : string) : Prop := Py.rfind Path.sep b = -1.

Lemma no_sep_startswith (b : string) : no_sep b → Py.startswith "/" b = false.
Proof.
  unfold no_sep. destruct b as [|c b]; [done|]. cbn [Py.rfind Py.startswith].
  destruct (Z.leb_spec 0 (Py.rfind Path.sep b)); [intros; lia|].
  unfold Path.sep. destruct (Ascii.eqb_spec c "/") as [->|Hc]; [done|].
  intros _. destruct (Ascii.eqb_spec "/" c) as [<-|]; done.
Qed.

Lemma basename_no_sep (b : string) : no_sep b → Path.basename b = b.
Proof. unfold no_sep, Path.basename, Py.slice_from. by intros ->. Qed.

Lemma basename_app_sep (h b : string) :
  no_sep b → Path.basename (h +:+ String Path.sep b) = b.
Proof.
  intros Hb. unfold Path.basename, Py.slice_from.
  rewrite rfind_app_found; rewrite (rfind_cons_hit _ _ Hb); [|done].
  replace (Z.to_nat (Z.of_nat (String.length h) + 0 + 1))
    with (String.length (h +:+ String Path.sep "")).
  - replace (h +:+ String Path.sep b) with ((h +:+ String Path.sep "") +:+ b).
    + apply drop_app.
    + by rewrite sapp_assoc.
  - rewrite slength_app. simpl. lia.
Qed.

(** A path is its last component, or a head, a separator and the last
    component. *)
Lemma basename_decomp (p : string) :
  no_sep (Path.basename p) ∧
  (p = Path.basename p ∨ ∃ h, p = h +:+ String Path.sep (Path.basename p)).
Proof.
  destruct (Z.leb_spec 0 (Py.rfind Path.sep p)) as [H|H].
  - destruct (rfind_split _ _ H) as (h & t & -> & Ht & _).
    rewrite (basename_app_sep h t Ht). split; [done|]. right. by exists h.
  - pose proof (rfind_bounds Path.sep p).
    assert (no_sep p) as Hp by (unfold no_sep; lia).
    rewrite (basename_no_sep p Hp). split; [done | by left].
Qed.

Lemma join2_cases (a b : string) :
  no_sep b → Path.join2 a b = b ∨ ∃ h, Path.join2 a b = h +:+ String Path.sep b.
Proof.
  intros Hb. unfold Path.join2. rewrite (no_sep_startswith b Hb).
  destruct (String.eqb_spec a "") as [->|Ha]; simpl; [by left|].
  destruct (Py.endswith "/" a) eqn:He.
  - destruct (endswith_inv _ _ He) as [h ->]. right. exists h.
    by rewrite sapp_assoc.
  - right. by exists a.
Qed.

Lemma basename_join2 (a b : string) :
  no_sep b → Path.basename (Path.join2 a b) = b.
Proof.
  intros Hb. destruct (join2_cases a b Hb) as [->|[h ->]].
  - by apply basename_no_sep.
  - by apply basename_app_sep.
Qed.

Lemma splitext_no_sep (b : string) :
  no_sep b →
  (Path.splitext b).2 =
    if (0 <=? Py.rfind Path.extsep b)
       && Path.has_non_dot (Py.slice_to (Py.rfind Path.extsep b) b)
    then Py.slice_from (Py.rfind Path.extsep b) b else "".
Proof.
  unfold no_sep, Path.splitext. intros ->.
  replace (-1 <? Py.rfind Path.extsep b) with (0 <=? Py.rfind Path.extsep b)
    by (destruct (Z.leb_spec 0 (Py.rfind Path.extsep b)),
          (Z.ltb_spec (-1) (Py.rfind Path.extsep b)); lia).
  by destruct (_ && _).
Qed.

Lemma take_add_app (h b : string) (n : nat) :
  Py.take (String.length h + n) (h +:+ b) = h +:+ Py.take n b.
Proof.
  induction h as [|x h IH]; [done|].
  rewrite !sapp_cons. simpl. by rewrite IH.
Qed.

Lemma drop_add_app (h b : string) (n : nat) :
  Py.drop (String.length h + n) (h +:+ b) = Py.drop n b.
Proof. induction h as [|x h IH]; [done | by rewrite sapp_cons]. Qed.

Lemma splitext_app_sep (h b : string) :
  no_sep b → (Path.splitext (h +:+ String Path.sep b)).2 = (Path.splitext b).2.
Proof.
  intros Hb. rewrite (splitext_no_sep b Hb). unfold Path.splitext.
  pose proof (rfind_bounds Path.extsep b) as Hd.
  set (p := h +:+ String Path.sep b).
  assert (Py.rfind Path.sep p = Z.of_nat (String.length h)) as Hsep.
  { unfold p. rewrite rfind_app_found; rewrite (rfind_cons_hit _ _ Hb); lia. }
  rewrite Hsep.
  destruct (Z.leb_spec 0 (Py.rfind Path.extsep b)) as [Hdot|Hdot].
  - assert (Py.rfind Path.extsep p
            = Z.of_nat (String.length (h +:+ String Path.sep "")) + Py.rfind Path.extsep b) as Hp.
    { unfold p. replace (h +:+ String Path.sep b)
        with ((h +:+ String Path.sep "") +:+ b) by by rewrite sapp_assoc.
      by apply rfind_app_found. }
    rewrite Hp. rewrite slength_app. simpl String.length.
    destruct (Z.ltb_spec (Z.of_nat (String.length h))
                (Z.of_nat (String.length h + 1) + Py.rfind Path.extsep b)); [|lia].
    unfold Py.slice_from, Py.slice_to. simpl andb.
    set (d := Z.to_nat (Py.rfind Path.extsep b)).
    replace (Z.to_nat (Z.of_nat (String.length h + 1) + Py.rfind Path.extsep b))
      with (String.length (h +:+ String Path.sep "") + d)%nat
      by (rewrite slength_app; simpl; lia).
    replace (Z.to_nat (Z.of_nat (String.length h) + 1))
      with (String.length (h +:+ String Path.sep "")) by (rewrite slength_app; simpl; lia).
    unfold p. replace (h +:+ String Path.sep b)
      with ((h +:+ String Path.sep "") +:+ b) by by rewrite sapp_assoc.
    rewrite take_add_app, drop_add_app, drop_app.
    by destruct (Path.has_non_dot (Py.take d b)).
  - assert (Py.rfind Path.extsep p <= Z.of_nat (String.length h)) as Hle.
    { unfold p. rewrite rfind_app_missing.
      - pose proof (rfind_bounds Path.extsep h). lia.
      - cbn [Py.rfind]. replace (Py.rfind Path.extsep b) with (-1) by lia.
        done. }
    destruct (Z.ltb_spec (Z.of_nat (String.length h)) (Py.rfind Path.extsep p));
      [lia | done].
Qed.

(** The extension is a matter of the last component only. *)
Lemma splitext_basename (p : string) :
  (Path.splitext p).2 = (Path.splitext (Path.basename p)).2.
Proof.
  destruct (basename_decomp p) as [Hb [Hp|[h Hp]]].
  - by rewrite <- Hp.
  - rewrite Hp at 1. by apply splitext_app_sep.
Qed.

Lemma join2_nonempty (a b : string) : a ≠ "" → Path.join2 a b ≠ "".
Proof.
  intros Ha. unfold Path.join2.
  destruct (Py.startswith "/" b) eqn:Hb.
  - by destruct b.
  - destruct a; [done|]. by destruct (_ || _).
Qed.

Lemma join_snoc (a : string) (l : list string) (b : string) :
  Path.join a (l ++ [b]) = Path.join2 (Path.join a l) b.
Proof. unfold Path.join. by rewrite foldl_app. Qed.

Lemma join_join (a : string) (l l' : list string) :
  Path.join (Path.join a l) l' = Path.join a (l ++ l').
Proof. unfold Path.join. by rewrite foldl_app. Qed.

End PathFacts.

(** ** Facts on the patterns *)

Module ReFacts.
Import PyFacts.

(** [y.endswith(x)], by recursion on [y]. *)
Fixpoint has_suffix (x y : string) : bool :=
  String.eqb y x ||
  match y with
  | EmptyString => false
  | String _ y' => has_suffix x y'
  end.

Lemma eqb_length (x y : string) :
  String.eqb x y = true → String.length x = String.length y.
Proof. by intros ->%String.eqb_eq. Qed.

Lemma has_suffix_endswith (x y : string) : has_suffix x y = Py.endswith x y.
Proof.
  induction y as [|c y IH]; cbn [has_suffix].
  - unfold Py.endswith. by destruct x.
  - rewrite IH. unfold Py.endswith. cbn [String.length].
    destruct (String.eqb_spec (String c y) x) as [<-|Hne].
    + cbn [String.length]. rewrite Nat.leb_refl, Nat.sub_diag. simpl.
      by rewrite Ascii.eqb_refl, String.eqb_refl.
    + rewrite orb_false_l.
      destruct (Nat.leb_spec (String.length x) (String.length y)) as [Hle|Hgt].
      * replace (String.length x <=? S (String.length y))%nat with true
          by (symmetry; apply Nat.leb_le; lia).
        replace (S (String.length y) - String.length x)%nat
          with (S (String.length y - String.length x)) by lia.
        done.
      * simpl andb.
        destruct (Nat.leb_spec (String.length x) (S (String.length y))) as [Hle|?];
          [|done].
        replace (S (String.length y) - String.length x)%nat with 0%nat by lia.
        cbn [Py.drop andb]. symmetry. by apply String.eqb_neq.
Qed.

Lemma lower_char_nl (c : ascii) :
  Ascii.eqb (Py.lower_char c) Re.nl = Ascii.eqb c Re.nl.
Proof.
  destruct c as [[] [] [] [] [] [] [] []]; reflexivity.
Qed.

Lemma at_eol_lower (s : string) :
  Re.at_eol s = String.eqb (Py.lower s) "" || String.eqb (Py.lower s) (String Re.nl "").
Proof.
  destruct s as [|c [|c' s]]; [done| |].
  - cbn [Re.at_eol Py.lower]. cbn [String.eqb]. rewrite lower_char_nl.
    by destruct (Ascii.eqb c Re.nl).
  - cbn [Re.at_eol Py.lower String.eqb]. by destruct (Ascii.eqb _ _).
Qed.

(** A lower-case literal followed by [$], at the head of [s]. *)
Lemma m_lit_eol (suf : string) (prev : option ascii) (s : string) :
  Py.lower suf = suf →
  Re.m true (Seq (lit suf) Eol) prev s accept
  = String.eqb (Py.lower s) suf
    || String.eqb (Py.lower s) (suf +:+ String Re.nl "").
Proof.
  revert prev s. induction suf as [|c suf IH]; intros prev s Hl.
  - cbn [lit Re.m]. unfold accept at 1. rewrite andb_true_r. apply at_eol_lower.
  - cbn [Py.lower] in Hl. injection Hl as Hc Hl.
    rewrite sapp_cons. cbn [lit]. cbn [Re.m] in *.
    destruct s as [|a s]; [done|].
    rewrite IH by done. cbn [Py.lower String.eqb].
    unfold chr_eq. rewrite Hc.
    by destruct (Ascii.eqb (Py.lower_char a) c).
Qed.

Lemma search_lit_eol (suf : string) (s : string) :
  Py.lower suf = suf →
  Re.search true (Seq (lit suf) Eol) s
  = Py.endswith suf (Py.lower s)
    || Py.endswith (suf +:+ String Re.nl "") (Py.lower s).
Proof.
  intros Hl. rewrite <- !has_suffix_endswith. unfold Re.search.
  generalize (@None ascii) as prev.
  induction s as [|a s IH]; intros prev; cbn [Re.search_from].
  - rewrite m_lit_eol by done. cbn [Py.lower has_suffix].
    by rewrite !orb_false_r.
  - rewrite m_lit_eol by done. rewrite IH.
    cbn [Py.lower has_suffix].
    repeat match goal with |- context [String.eqb ?x ?y] =>
      destruct (String.eqb x y) end; simpl; try done;
    by repeat match goal with |- context [has_suffix ?x ?y] =>
      destruct (has_suffix x y) end.
Qed.

Lemma m_lit_accept (needle : string) (prev : option ascii) (s : string) :
  Py.lower needle = needle →
  Re.m true (lit needle) prev s accept = Py.startswith needle (Py.lower s).
Proof.
  revert prev s. induction needle as [|c needle IH]; intros prev s Hl.
  - by destruct s.
  - cbn [Py.lower] in Hl. injection Hl as Hc Hl. cbn [lit Re.m].
    destruct s as [|a s]; [done|].
    specialize (IH (Some a) s Hl).
    cbn [Py.lower Py.startswith]. unfold chr_eq. rewrite Hc.
    rewrite (Ascii.eqb_sym c). destruct (Ascii.eqb _ c); [|done].
    simpl. destruct needle; [done|]. exact IH.
Qed.

Lemma search_lit (needle : string) (s : string) :
  Py.lower needle = needle →
  Re.search true (lit needle) s = Py.contains needle (Py.lower s).
Proof.
  intros Hl. unfold Re.search. generalize (@None ascii) as prev.
  induction s as [|a s IH]; intros prev; cbn [Re.search_from Py.lower Py.contains];
    rewrite m_lit_accept by done; [done|].
  by rewrite IH.
Qed.

Lemma search_alt (ic : bool) (r r1 r2 : re) (s : string) :
  (∀ prev t, Re.m ic r prev t accept
             = Re.m ic r1 prev t accept || Re.m ic r2 prev t accept) →
  Re.search ic r s = Re.search ic r1 s || Re.search ic r2 s.
Proof.
  intros H. unfold Re.search. generalize (@None ascii) as prev.
  induction s as [|a s IH]; intros prev; cbn [Re.search_from]; rewrite H.
  - by rewrite !orb_false_r.
  - rewrite IH.
    by destruct (Re.m ic r1 prev _ accept), (Re.m ic r2 prev _ accept),
         (Re.search_from ic r1 _ s), (Re.search_from ic r2 _ s).
Qed.

(** [\.ya?ml$] is [\.yaml$] or [\.yml$]. *)
Lemma m_yaml (prev : option ascii) (s : string) :
  Re.m true re_yaml prev s accept
  = Re.m true (Seq (lit ".yaml") Eol) prev s accept
    || Re.m true (Seq (lit ".yml") Eol) prev s accept.
Proof.
  unfold re_yaml. cbn [lit Re.m].
  destruct s as [|a1 [|a2 s]]; [done | by rewrite !andb_false_r|].
  destruct (chr_eq true a1 "."); [|done].
  destruct (chr_eq true a2 "y"); [|done].
  cbn [andb]. destruct s as [|a3 s]; [done|].
  destruct (chr_eq true a3 "a") eqn:Ha.
  - cbn [andb]. destruct (chr_eq true a3 "m") eqn:Hm; [|by rewrite orb_false_r].
    exfalso. unfold chr_eq in Ha, Hm.
    apply Ascii.eqb_eq in Ha, Hm. rewrite Ha in Hm. vm_compute in Hm.
    discriminate Hm.
  - done.
Qed.

Lemma search_yaml (s : string) :
  Re.search true re_yaml s
  = Re.search true (Seq (lit ".yaml") Eol) s
    || Re.search true (Seq (lit ".yml") Eol) s.
Proof. apply search_alt, m_yaml. Qed.

End ReFacts.

Import PyFacts PathFacts ReFacts.

(** ** Facts on the monad and the walk *)

Ltac munfold :=
  cbv [mbind M_bind mret M_ret fmap M_fmap modify gets log raise out_of_fuel
       try_except] in *.

Definition is_log (e : event) : Prop :=
  match e with Log _ _ => True | _ => False end.

(** [w'] comes from [w] by log lines and new unknown extensions only. *)
Record quiet (w w' : world) : Prop := Quiet {
  q_fs : w_fs w' = w_fs w;
  q_cwd : w_cwd w' = w_cwd w;
  q_dups : w_duplicates w' = w_duplicates w;
  q_total : total_files (w_stats w') = total_files (w_stats w);
  q_organized : organized_files (w_stats w') = organized_files (w_stats w);
  q_skipped : skipped_files (w_stats w') = skipped_files (w_stats w);
  q_duplicate : duplicate_files (w_stats w') = duplicate_files (w_stats w);
  q_events : ∃ l, w_events w' = w_events w ++ l ∧ Forall is_log l;
}.

Lemma quiet_refl (w : world) : quiet w w.
Proof. split; try done. exists []. by rewrite app_nil_r. Qed.

Lemma quiet_trans (w1 w2 w3 : world) : quiet w1 w2 → quiet w2 w3 → quiet w1 w3.
Proof.
  intros [] []. split; try congruence.
  destruct q_events0 as (l1 & E1 & F1), q_events1 as (l2 & E2 & F2).
  exists (l1 ++ l2). split; [by rewrite E2, E1, app_assoc | by apply Forall_app].
Qed.

Lemma quiet_log (w : world) (l : level) (msg : string) : quiet w (emit (Log l msg) w).
Proof. split; try done. exists [Log l msg]. split; [done|]. by repeat constructor. Qed.

Lemma quiet_unknown (w : world) (ext : string) : quiet w (set_stats (add_unknown ext) w).
Proof. split; try done. exists []. by rewrite app_nil_r. Qed.

Lemma rel_parent_state (o : organizer) (p : string) (w : world) :
  (rel_parent o p w).2 = w.
Proof. unfold rel_parent. destruct (String.eqb _ _); by munfold. Qed.

Lemma place_state (o : organizer) (p c : string) (w : world) :
  (place o p c w).2 = w.
Proof.
  unfold place. destruct (project_mode o); [|done].
  pose proof (rel_parent_state o p w) as H. munfold.
  by destruct (rel_parent o p w) as [[] ?]; simpl in *.
Qed.

Lemma smart_categorize_file_quiet (o : organizer) (p : string) (w : world) :
  quiet w (smart_categorize_file o p w).2.
Proof.
  unfold smart_categorize_file.
  destruct (is_config_file _); [apply quiet_refl|].
  munfold. destruct (getsize w p) as [sz| |]; simpl; try apply quiet_refl.
  destruct (sz <? _); [|apply quiet_refl].
  unfold detect_file_type_from_content.
  destruct (shebang_pass w p) as [[t|]|e|]; simpl.
  - destruct (String.eqb t ""); [apply quiet_refl|].
    pose proof (place_state o p t w) as H.
    destruct (place o p t w) as [[] ?]; simpl in *; subst; try apply quiet_refl.
    destruct e; try apply quiet_refl; apply quiet_log.
  - destruct (signature_pass w p) as [t|]; [|apply quiet_refl].
    destruct (String.eqb t ""); [apply quiet_refl|].
    pose proof (place_state o p t w) as H.
    destruct (place o p t w) as [[] ?]; simpl in *; subst; try apply quiet_refl.
    destruct e; try apply quiet_refl; apply quiet_log.
  - destruct e; try apply quiet_refl; apply quiet_log.
  - apply quiet_refl.
Qed.

Lemma get_target_path_quiet (o : organizer) (p : string) (w : world) :
  quiet w (get_target_path o p w).2.
Proof.
  unfold get_target_path. destruct (String.eqb _ _); [apply quiet_refl|].
  destruct (mappings o !! _).
  - pose proof (place_state o p s w) as H. munfold.
    destruct (place o p s w) as [[] ?]; simpl in *; subst; apply quiet_refl.
  - munfold. apply quiet_unknown.
Qed.

Section OrganizerFacts.
Variable md5 : string → string.

Lemma classify_quiet (o : organizer) (p : string) (w : world) :
  quiet w (classify o p w).2.
Proof.
  unfold classify. pose proof (smart_categorize_file_quiet o p w) as H.
  munfold. destruct (smart_categorize_file o p w) as [[t| |] w1]; simpl in *; try done.
  destruct (truthy t); [done|].
  eapply quiet_trans; [done | apply get_target_path_quiet].
Qed.

Lemma rel_parent_no_fuel (o : organizer) (p : string) (w : world) :
  (rel_parent o p w).1 ≠ OutOfFuel.
Proof. unfold rel_parent. destruct (String.eqb _ _); by munfold. Qed.

Lemma place_no_fuel (o : organizer) (p c : string) (w : world) :
  (place o p c w).1 ≠ OutOfFuel.
Proof.
  unfold place. destruct (project_mode o); [|done].
  pose proof (rel_parent_no_fuel o p w) as H. munfold.
  by destruct (rel_parent o p w) as [[] ?].
Qed.

Lemma read_text_no_fuel (w : world) (p : string) : read_text w p ≠ OutOfFuel.
Proof. unfold read_text. by repeat case_match. Qed.

Lemma getsize_no_fuel (w : world) (p : string) : getsize w p ≠ OutOfFuel.
Proof. unfold getsize. by repeat case_match. Qed.

Lemma shebang_pass_no_fuel (w : world) (p : string) : shebang_pass w p ≠ OutOfFuel.
Proof.
  unfold shebang_pass. pose proof (read_text_no_fuel w p).
  destruct (Py.in_list _ _); [|done].
  destruct (read_text w p) as [t|[]|]; try done. by destruct (Py.startswith _ _).
Qed.

Lemma smart_categorize_file_no_fuel (o : organizer) (p : string) (w : world) :
  (smart_categorize_file o p w).1 ≠ OutOfFuel.
Proof.
  unfold smart_categorize_file.
  destruct (is_config_file _); [done|].
  pose proof (getsize_no_fuel w p) as Hg.
  munfold. destruct (getsize w p) as [sz| |]; simpl; try done.
  destruct (_ <? _); [|done].
  unfold detect_file_type_from_content.
  pose proof (shebang_pass_no_fuel w p) as Hs.
  destruct (shebang_pass w p) as [[t|]|e|]; simpl; try done.
  - destruct (String.eqb t ""); [done|].
    pose proof (place_no_fuel o p t w) as H.
    destruct (place o p t w) as [[| e |] ?]; simpl in *; try done.
    by destruct e.
  - destruct (signature_pass w p) as [t|]; [|done].
    destruct (String.eqb t ""); [done|].
    pose proof (place_no_fuel o p t w) as H.
    destruct (place o p t w) as [[| e |] ?]; simpl in *; try done.
    by destruct e.
  - by destruct e.
Qed.

Lemma get_target_path_no_fuel (o : organizer) (p : string) (w : world) :
  (get_target_path o p w).1 ≠ OutOfFuel.
Proof.
  unfold get_target_path. destruct (String.eqb _ _); [done|].
  destruct (mappings o !! _) as [c|]; [|done].
  pose proof (place_no_fuel o p c w) as H. munfold.
  by destruct (place o p c w) as [[] ?].
Qed.

Lemma classify_no_fuel (o : organizer) (p : string) (w w' : world) :
  classify o p w ≠ (OutOfFuel, w').
Proof.
  unfold classify. pose proof (smart_categorize_file_no_fuel o p w) as H.
  munfold. destruct (smart_categorize_file o p w) as [[t| |] w1]; simpl in *; try done.
  destruct (truthy t); [done|].
  pose proof (get_target_path_no_fuel o p w1) as H'.
  by destruct (get_target_path o p w1) as [[] ?].
Qed.

(** The state after the duplicate check of a file that is not excluded:
    the hash of a real run may raise; a dry run has no hash. *)
Definition hashed (o : organizer) (p : string) (w0 : world) : outcome world :=
  if dry_run o then Done w0
  else
    match read_bytes w0 p with
    | Done b =>
        Done (if is_duplicate w0 (Some (md5 b))
              then set_stats incr_duplicate w0 else w0)
    | Raised e => Raised e
    | OutOfFuel => OutOfFuel
    end.

(** The ways out of [prepare_move]. *)
Inductive prepared (o : organizer) (root file : string) (w : world)
    : outcome (option string) → world → Prop :=
| P_excluded :
    should_exclude o (Path.join root [file]) = true →
    prepared o root file w (Done None)
      (set_stats incr_skipped
         (emit (Log DEBUG ("Skipping excluded file: " +:+ Path.join root [file]))
            (set_stats incr_total w)))
| P_hash_raised e :
    should_exclude o (Path.join root [file]) = false →
    hashed o (Path.join root [file]) (set_stats incr_total w) = Raised e →
    prepared o root file w (Raised e) (set_stats incr_total w)
| P_classify_raised w1 e w2 :
    should_exclude o (Path.join root [file]) = false →
    hashed o (Path.join root [file]) (set_stats incr_total w) = Done w1 →
    classify o (Path.join root [file]) w1 = (Raised e, w2) →
    prepared o root file w (Raised e) w2
| P_unclassified w1 t w2 :
    should_exclude o (Path.join root [file]) = false →
    hashed o (Path.join root [file]) (set_stats incr_total w) = Done w1 →
    classify o (Path.join root [file]) w1 = (Done t, w2) →
    truthy t = false →
    prepared o root file w (Done None)
      (set_stats incr_skipped
         (emit (Log DEBUG ("No mapping found for file: " +:+ Path.join root [file]))
            w2))
| P_same w1 t w2 :
    should_exclude o (Path.join root [file]) = false →
    hashed o (Path.join root [file]) (set_stats incr_total w) = Done w1 →
    classify o (Path.join root [file]) w1 = (Done (Some t), w2) →
    truthy (Some t) = true →
    Path.normpath (Path.join root [file]) = Path.normpath t →
    prepared o root file w (Done None)
      (set_stats incr_skipped
         (emit (Log DEBUG ("Source and destination are the same: "
                           +:+ Path.join root [file])) w2))
| P_makedirs_raised w1 t w2 :
    should_exclude o (Path.join root [file]) = false →
    hashed o (Path.join root [file]) (set_stats incr_total w) = Done w1 →
    classify o (Path.join root [file]) w1 = (Done (Some t), w2) →
    truthy (Some t) = true →
    Path.normpath (Path.join root [file]) ≠ Path.normpath t →
    (Path.dirname t = "" ∨
     FS.makedirs (w_fs w2) (Path.abspath (w_cwd w2) (Path.dirname t)) = None) →
    prepared o root file w (Raised OSError) (emit (Makedirs (Path.dirname t)) w2)
| P_ready w1 t w2 fs :
    should_exclude o (Path.join root [file]) = false →
    hashed o (Path.join root [file]) (set_stats incr_total w) = Done w1 →
    classify o (Path.join root [file]) w1 = (Done (Some t), w2) →
    truthy (Some t) = true →
    Path.normpath (Path.join root [file]) ≠ Path.normpath t →
    Path.dirname t ≠ "" →
    FS.makedirs (w_fs w2) (Path.abspath (w_cwd w2) (Path.dirname t)) = Some fs →
    prepared o root file w (Done (Some t))
      (set_fs fs (emit (Makedirs (Path.dirname t)) w2)).

(** [prepare_move] from the classification on. *)
Definition prepare_tail (o : organizer) (file_path : string)
    : M world (option string) :=
  target_path ← classify o file_path;
  if negb (truthy target_path) then
    log DEBUG ("No mapping found for file: " +:+ file_path);;
    modify (set_stats incr_skipped);;
    mret None
  else
    let target_path := default "" target_path in
    if String.eqb (Path.normpath file_path) (Path.normpath target_path) then
      log DEBUG ("Source and destination are the same: " +:+ file_path);;
      modify (set_stats incr_skipped);;
      mret None
    else
      makedirs (Path.dirname target_path);;
      mret (Some target_path).

Lemma prepare_tail_prepared (o : organizer) (root file : string) (w w1 : world) :
  should_exclude o (Path.join root [file]) = false →
  hashed o (Path.join root [file]) (set_stats incr_total w) = Done w1 →
  prepared o root file w (prepare_tail o (Path.join root [file]) w1).1
    (prepare_tail o (Path.join root [file]) w1).2.
Proof.
  intros Hex Hh. unfold prepare_tail. munfold.
  set (p := Path.join root [file]) in *.
  destruct (classify o p w1) as [[t| |] w2] eqn:Hc.
  - destruct (truthy t) eqn:Ht; cbn [negb].
    + destruct t as [t|]; [|done]. change (default "" (Some t)) with t.
      destruct (String.eqb_spec (Path.normpath p) (Path.normpath t)) as [Hn|Hn].
      { by eapply P_same. }
      unfold makedirs.
      destruct (String.eqb_spec (Path.dirname t) "") as [Hd|Hd].
      { cbn [fst snd]. eapply P_makedirs_raised; eauto. }
      cbn [w_fs w_cwd emit].
      destruct (FS.makedirs (w_fs w2) _) as [fs|] eqn:Hm; cbn [fst snd].
      { by eapply P_ready. }
      { eapply P_makedirs_raised; eauto. }
    + by eapply P_unclassified.
  - by eapply P_classify_raised.
  - by apply classify_no_fuel in Hc.
Qed.

Lemma prepare_move_prepared (o : organizer) (root file : string) (w : world) :
  prepared o root file w (prepare_move md5 o root file w).1
    (prepare_move md5 o root file w).2.
Proof.
  unfold prepare_move. munfold. cbn beta iota.
  destruct (should_exclude o _) eqn:Hex; [by apply P_excluded|].
  set (p := Path.join root [file]) in *.
  set (w0 := set_stats incr_total w).
  destruct (hashed o p w0) as [w1|e|] eqn:Hh.
  - pose proof (prepare_tail_prepared o root file w w1 Hex Hh) as T.
    unfold hashed in Hh. destruct (dry_run o) eqn:Hd; cbn [negb].
    + simplify_eq. exact T.
    + unfold get_file_hash. destruct (read_bytes w0 p) as [b| |]; [|done..].
      cbn beta iota. simplify_eq.
      destruct (is_duplicate w0 (Some (md5 b))); exact T.
  - pose proof Hh as Hh'. unfold hashed in Hh.
    destruct (dry_run o); [done|]. cbn [negb].
    unfold get_file_hash. destruct (read_bytes w0 p) as [b| |]; [done| |done].
    simplify_eq. by apply P_hash_raised.
  - unfold hashed, read_bytes in Hh. repeat case_match; simplify_eq.
Qed.

Lemma prepare_move_inv (o : organizer) (root file : string) (w : world) r w' :
  prepare_move md5 o root file w = (r, w') → prepared o root file w r w'.
Proof.
  intros H. pose proof (prepare_move_prepared o root file w) as P.
  by rewrite H in P.
Qed.

End OrganizerFacts.

(** ** Facts on loops and on the walk *)

Section Loops.
Context {St : Type}.

Lemma for_each_rel {A} (R : St → St → Prop) `{!Reflexive R, !Transitive R}
    (f : A → M St unit) :
  (∀ x s r s', f x s = (r, s') → R s s') →
  ∀ l s r s', for_each f l s = (r, s') → R s s'.
Proof.
  intros Hf. induction l as [|x l IH]; intros s r s' H; cbn [for_each] in H.
  - munfold. by simplify_eq.
  - munfold. destruct (f x s) as [[[]| |] s1] eqn:Hx.
    + etrans; [by eapply Hf | by eapply IH].
    + simplify_eq. by eapply Hf.
    + simplify_eq. by eapply Hf.
Qed.

Lemma for_each_done {A} (R : St → St → Prop) `{!Reflexive R, !Transitive R}
    (f : A → M St unit) :
  (∀ x s s', f x s = (Done tt, s') → R s s') →
  ∀ l s s', for_each f l s = (Done tt, s') → R s s'.
Proof.
  intros Hf. induction l as [|x l IH]; intros s s' H; cbn [for_each] in H.
  - munfold. by simplify_eq.
  - munfold. destruct (f x s) as [[[]| |] s1] eqn:Hx; [|done..].
    etrans; [by eapply Hf | by eapply IH].
Qed.

Context (fs_of : St → gmap string node).

Lemma os_walk_rel (R : St → St → Prop) `{!Reflexive R, !Transitive R}
    (body : string → list string → list string → M St (list string)) :
  (∀ root dirs files s r s', body root dirs files s = (r, s') → R s s') →
  ∀ fuel top s r s', os_walk fs_of fuel body top s = (r, s') → R s s'.
Proof.
  intros Hb. induction fuel as [|n IH]; intros top s r s' H; cbn [os_walk] in H.
  - munfold. by simplify_eq.
  - destruct (FS.scandir (fs_of s) top) as [[dirs files]|]. 2: { simplify_eq. reflexivity. }
    munfold. destruct (body top dirs files s) as [[dirs'| |] s1] eqn:Hx.
    + etrans; [by eapply Hb|].
      eapply (for_each_rel R); [|exact H].
      intros x s0 r0 s0' H0. exact (IH _ _ _ _ H0).
    + simplify_eq. by eapply Hb.
    + simplify_eq. by eapply Hb.
Qed.

Lemma os_walk_done (R : St → St → Prop) `{!Reflexive R, !Transitive R}
    (body : string → list string → list string → M St (list string)) :
  (∀ root dirs files s d s', body root dirs files s = (Done d, s') → R s s') →
  ∀ fuel top s s', os_walk fs_of fuel body top s = (Done tt, s') → R s s'.
Proof.
  intros Hb. induction fuel as [|n IH]; intros top s s' H; cbn [os_walk] in H.
  - munfold. by simplify_eq.
  - destruct (FS.scandir (fs_of s) top) as [[dirs files]|].
    2: { simplify_eq. reflexivity. }
    munfold. destruct (body top dirs files s) as [[dirs'| |] s1] eqn:Hx; [|done..].
    etrans; [by eapply Hb|].
    eapply (for_each_done R); [|exact H].
    intros x s0 s0' H0. exact (IH _ _ _ H0).
Qed.
End Loops.

(** ** Facts on the file system *)

(** The regular files of [m'] are those of [m], with the same data. *)
Definition same_files (m m' : gmap string node) : Prop :=
  ∀ k f, m' !! k = Some (NFile f) ↔ m !! k = Some (NFile f).

Global Instance same_files_refl : Reflexive same_files.
Proof. by intros m k f. Qed.

Global Instance same_files_trans : Transitive same_files.
Proof. intros m1 m2 m3 H1 H2 k f. etrans; [apply H2 | apply H1]. Qed.

Lemma same_files_is_file (m m' : gmap string node) (q : string) :
  same_files m m' → FS.is_file m' q = FS.is_file m q.
Proof.
  intros H. unfold FS.is_file.
  destruct (m' !! q) as [[f|]|] eqn:E', (m !! q) as [[g|]|] eqn:E; try done.
  - apply H in E'. congruence.
  - apply H in E'. congruence.
  - apply H in E. congruence.
  - apply H in E. congruence.
Qed.

Lemma insert_dir_same_files (m : gmap string node) (q : string) :
  FS.is_file m q = false → same_files m (<[q := NDir]> m).
Proof.
  intros Hq k f. destruct (decide (q = k)) as [->|Hne].
  - rewrite lookup_insert_eq. unfold FS.is_file in Hq.
    destruct (m !! k) as [[g|]|]; naive_solver.
  - by rewrite lookup_insert_ne.
Qed.

Lemma makedirs_fold_same_files (l : list string) (m : gmap string node) :
  existsb (FS.is_file m) l = false →
  same_files m (foldl (λ m q, if FS.is_dir m q then m else <[q := NDir]> m) m l).
Proof.
  revert m. induction l as [|q l IH]; intros m H; [done|].
  cbn [existsb foldl] in *. apply orb_false_iff in H as [Hq Hl].
  assert (same_files m (if FS.is_dir m q then m else <[q := NDir]> m)) as Hs.
  { destruct (FS.is_dir m q); [done | by apply insert_dir_same_files]. }
  etrans; [exact Hs|]. apply IH.
  rewrite <- Hl. clear -Hs. induction l as [|x l IH]; [done|]. cbn [existsb].
  by rewrite IH, (same_files_is_file _ _ x Hs).
Qed.

Lemma makedirs_same_files (fs fs' : gmap string node) (p : string) :
  FS.makedirs fs p = Some fs' → same_files fs fs'.
Proof.
  unfold FS.makedirs. destruct (existsb _ _) eqn:E; [done|].
  intros [= <-]. by apply makedirs_fold_same_files.
Qed.

(** ** The configuration subtype (C7) *)

(** [name.lower().endswith(suf)] *)
Definition ends_ci (suf name : string) : bool := Py.endswith suf (Py.lower name).

(** As [ends_ci], or with one final line feed after [suf]: where [suf$]
    matches under [re.IGNORECASE]. *)
Definition dollar_ci (suf name : string) : bool :=
  ends_ci suf name || ends_ci (suf +:+ String Re.nl "") name.

(** The subtype by the plain endings of the name, case ignored. *)
Definition config_type_by_ending (name : string) : string :=
  if ends_ci ".yaml" name || ends_ci ".yml" name then "YAML"
  else if ends_ci ".toml" name then "TOML"
  else if ends_ci ".json" name then "JSON"
  else if Py.contains ".env" (Py.lower name) then "Environment"
  else if ends_ci ".ini" name then "INI"
  else "General".

(** C7, as stated, fails on a name with a final line feed: ["a.ini\n"]
    has none of the endings and no [".env"], yet its subtype is INI. *)
Lemma get_config_type_final_newline :
  let name := "a.ini" +:+ String Re.nl "" in
  config_type_by_ending name = "General" ∧ get_config_type name = "INI".
Proof. split; vm_compute; reflexivity. Qed.

(** C7, amended: the subtype is decided by the first match in the order
    YAML ([.yaml] or [.yml] at the end), TOML ([.toml] at the end), JSON
    ([.json] at the end), Environment ([.env] anywhere), INI ([.ini] at the
    end), else General; letter case is ignored and "at the end" allows one
    final line feed after the ending. *)
Theorem get_config_type_order (name : string) :
  get_config_type name =
    if dollar_ci ".yaml" name || dollar_ci ".yml" name then "YAML"
    else if dollar_ci ".toml" name then "TOML"
    else if dollar_ci ".json" name then "JSON"
    else if Py.contains ".env" (Py.lower name) then "Environment"
    else if dollar_ci ".ini" name then "INI"
    else "General".
Proof.
  unfold get_config_type, dollar_ci, ends_ci.
  rewrite search_yaml. unfold re_toml, re_json, re_ini, re_env.
  rewrite !search_lit_eol by reflexivity.
  rewrite search_lit by reflexivity.
  reflexivity.
Qed.

Lemma join2_nonempty_r (a b : string) : b ≠ "" → Path.join2 a b ≠ "".
Proof.
  intros Hb. unfold Path.join2. destruct (Py.startswith "/" b); [done|].
  destruct (_ || _).
  - destruct a; [done | by rewrite sapp_cons].
  - destruct a; [by rewrite sapp_nil_l | by rewrite sapp_cons].
Qed.

Lemma truthy_Some (s : string) : s ≠ "" → truthy (Some s) = true.
Proof. intros H. cbn [truthy]. by apply negb_true_iff, String.eqb_neq. Qed.

(** ** Configuration files (C3) *)

(** C3: a file whose basename matches a configuration pattern is placed at
    target root / Config / subtype / basename, whatever the project mode,
    the directory of the file, its content and the mapping table: the smart
    categorisation returns this destination without reading the file, and
    it is the destination the walk uses. *)
Theorem config_file_destination (o : organizer) (file_path : string) (w : world) :
  is_config_file (Path.basename file_path) = true →
  let filename := Path.basename file_path in
  let dest := Path.join (target_dir o) ["Config"; get_config_type filename; filename] in
  smart_categorize_file o file_path w = (Done (Some dest), w)
  ∧ classify o file_path w = (Done (Some dest), w).
Proof.
  intros Hc. cbv zeta.
  set (dest := Path.join _ _).
  assert (smart_categorize_file o file_path w = (Done (Some dest), w)) as Hs.
  { unfold smart_categorize_file. rewrite Hc. reflexivity. }
  split; [exact Hs|].
  unfold classify. munfold. rewrite Hs.
  rewrite truthy_Some; [done|].
  unfold dest, Path.join. cbn [foldl].
  apply join2_nonempty, join2_nonempty, join2_nonempty_r. done.
Qed.

Definition config_fs : gmap string node :=
  {[ "/s/docs/config.json" :=
       NFile (FData "<html> SELECT a FROM b" true true true) ]}.

Lemma config_file_destination_witness :
  is_config_file (Path.basename "/s/docs/config.json") = true
  ∧ ∀ project : bool,
      classify (init "/" "/s" (Some "/t") None project None None false)
        "/s/docs/config.json" (world0 config_fs "/")
      = (Done (Some "/t/Config/JSON/config.json"), world0 config_fs "/").
Proof.
  split; [vm_compute; reflexivity|]. intros project.
  refine (proj2 (config_file_destination _ "/s/docs/config.json" _ _)).
  vm_compute; reflexivity.
Defined.

(** ** The extension mapper (C4) *)

(** The text after the last dot of a name, lower-cased; empty when the
    name has no dot. *)
Definition after_last_dot (name : string) : string :=
  let i := Py.rfind "." name in
  if 0 <=? i then Py.lower (Py.slice_from (i + 1) name) else "".

Definition dotfile_fs : gmap string node :=
  {[ "/s/.sql" := NFile (FData "x" true true true) ]}.

(** C4, as stated, fails on a name that is only a dot and an extension:
    the text after the last dot of [.sql] is a key of the table and neither
    the configuration nor the content classification claims the file, yet
    [get_target_path] returns no destination (and records nothing). *)
Lemma get_target_path_dotfile :
  let o := init "/" "/s" (Some "/t") None false None None true in
  let w := world0 dotfile_fs "/" in
  mappings o !! after_last_dot (Path.basename "/s/.sql") = Some "Database/SQL"
  ∧ smart_categorize_file o "/s/.sql" w = (Done None, w)
  ∧ get_target_path o "/s/.sql" w = (Done None, w).
Proof. split_and!; vm_compute; reflexivity. Qed.

(** The relative directory that project mode keeps:
    [relpath(dirname(file_path), source_dir)], with ["."] read as [""]. *)
Definition rel_dir (o : organizer) (cwd file_path : string) : string :=
  let rel_path := Path.relpath cwd (Path.dirname file_path) (source_dir o) in
  if String.eqb rel_path "." then "" else rel_path.

(** C4, amended: with the extension that [os.path.splitext] finds (the
    text after the last dot of the basename, dots that lead the basename
    not counted), lower-cased: an empty extension gives no destination and
    records nothing; an extension in the table gives target root, then in
    project mode the parent directory relative to the source root, then the
    category, then the basename; any other extension is recorded as unknown
    and gives no destination. *)
Theorem get_target_path_spec (o : organizer) (file_path : string) (w : world) :
  (project_mode o = true → Path.dirname file_path ≠ "") →
  let ext := extension file_path in
  get_target_path o file_path w =
    (if String.eqb ext "" then (Done None, w)
     else match mappings o !! ext with
          | Some category =>
              (Done (Some (Path.join (target_dir o)
                             ((if project_mode o
                               then [rel_dir o (w_cwd w) file_path] else [])
                              ++ [category; Path.basename file_path]))), w)
          | None => (Done None, set_stats (add_unknown ext) w)
          end)
  ∧ ∀ r w1, smart_categorize_file o file_path w = (Done r, w1) →
            truthy r = false →
            classify o file_path w = get_target_path o file_path w1.
Proof.
  intros Hd ext. split.
  - unfold get_target_path. fold ext.
    destruct (String.eqb ext ""); [done|].
    destruct (mappings o !! ext) as [category|]; [|done].
    unfold place, rel_parent. munfold.
    destruct (project_mode o); [|done].
    specialize (Hd eq_refl). apply String.eqb_neq in Hd. rewrite Hd. reflexivity.
  - intros r w1 Hs Hr. unfold classify. munfold. by rewrite Hs, Hr.
Qed.

Lemma get_target_path_spec_witness :
  let w := world0 ∅ "/" in
  get_target_path (init "/" "/s" (Some "/t") None true None None false)
    "/s/src/app.js" w = (Done (Some "/t/src/Web/JavaScript/app.js"), w)
  ∧ get_target_path (init "/" "/s" (Some "/t") None false None None false)
      "/s/src/app.js" w = (Done (Some "/t/Web/JavaScript/app.js"), w)
  ∧ get_target_path (init "/" "/s" (Some "/t") None false None None false)
      "/s/src/app.xyz" w = (Done None, set_stats (add_unknown "xyz") w).
Proof.
  intros w. split_and!.
  - rewrite (proj1 (get_target_path_spec _ "/s/src/app.js" w
                      ltac:(intros _; vm_compute; discriminate))).
    vm_compute; reflexivity.
  - rewrite (proj1 (get_target_path_spec _ "/s/src/app.js" w
                      ltac:(intros _; vm_compute; discriminate))).
    vm_compute; reflexivity.
  - rewrite (proj1 (get_target_path_spec _ "/s/src/app.xyz" w
                      ltac:(intros _; vm_compute; discriminate))).
    vm_compute; reflexivity.
Defined.

(** ** The shebang pass (C5) *)








(** ** One file of the walk *)

Definition is_move (e : event) : Prop :=
  match e with Move _ _ => True | _ => False end.

Definition is_write (e : event) : Prop :=
  match e with OpenWrite _ => True | _ => False end.

(** An event that is a log line or the making of a directory. *)
Definition is_log_or_makedirs (e : event) : Prop :=
  match e with Log _ _ | Makedirs _ => True | _ => False end.

(** What [prepare_move] leaves alone and what it counts. *)
Record prepared_effect (o : organizer) (w : world)
    (r : outcome (option string)) (w' : world) : Prop := PreparedEffect {
  pe_files : same_files (w_fs w) (w_fs w');
  pe_fs : (∀ t, r ≠ Done (Some t)) → w_fs w' = w_fs w;
  pe_cwd : w_cwd w' = w_cwd w;
  pe_dups : w_duplicates w' = w_duplicates w;
  pe_total : total_files (w_stats w') = S (total_files (w_stats w));
  pe_organized : organized_files (w_stats w') = organized_files (w_stats w);
  pe_skipped : skipped_files (w_stats w') =
               match r with
               | Done None => S (skipped_files (w_stats w))
               | _ => skipped_files (w_stats w)
               end;
  pe_dupstat : dry_run o = true →
               duplicate_files (w_stats w') = duplicate_files (w_stats w);
  pe_events : ∃ l, w_events w' = w_events w ++ l ∧ Forall is_log_or_makedirs l;
  pe_quiet : (∀ t, r ≠ Done (Some t)) → r ≠ Raised OSError →
             ∃ l, w_events w' = w_events w ++ l ∧ Forall is_log l;
}.

Section StepFacts.
Variable md5 : string → string.

Lemma hashed_frame (o : organizer) (p : string) (w0 w1 : world) :
  hashed md5 o p w0 = Done w1 →
  w_fs w1 = w_fs w0 ∧ w_cwd w1 = w_cwd w0 ∧ w_duplicates w1 = w_duplicates w0
  ∧ w_events w1 = w_events w0
  ∧ total_files (w_stats w1) = total_files (w_stats w0)
  ∧ organized_files (w_stats w1) = organized_files (w_stats w0)
  ∧ skipped_files (w_stats w1) = skipped_files (w_stats w0)
  ∧ unknown_extensions (w_stats w1) = unknown_extensions (w_stats w0)
  ∧ (dry_run o = true → w1 = w0).
Proof.
  unfold hashed. destruct (dry_run o).
  - intros [= <-]. by split_and!.
  - destruct (read_bytes w0 p); [|done..].
    destruct (is_duplicate _ _); intros [= <-]; by split_and!.
Qed.

Lemma log_events (l1 : list event) :
  Forall is_log l1 → Forall is_log_or_makedirs l1.
Proof. intros H. eapply Forall_impl; [exact H|]. by intros []. Qed.

Lemma prepared_has_effect (o : organizer) (root file : string) (w : world) r w' :
  prepared md5 o root file w r w' → prepared_effect o w r w'.
Proof.
  assert (∀ w1 r1 w2,
    hashed md5 o (Path.join root [file]) (set_stats incr_total w) = Done w1 →
    classify o (Path.join root [file]) w1 = (r1, w2) →
    w_fs w2 = w_fs w ∧ w_cwd w2 = w_cwd w ∧ w_duplicates w2 = w_duplicates w
    ∧ total_files (w_stats w2) = S (total_files (w_stats w))
    ∧ organized_files (w_stats w2) = organized_files (w_stats w)
    ∧ skipped_files (w_stats w2) = skipped_files (w_stats w)
    ∧ (dry_run o = true →
       duplicate_files (w_stats w2) = duplicate_files (w_stats w))
    ∧ ∃ l, w_events w2 = w_events w ++ l ∧ Forall is_log l) as Hpre.
  { intros w1 r1 w2 Hh Hc.
    apply hashed_frame in Hh as (F1 & F2 & F3 & F4 & F5 & F6 & F7 & F8 & F9).
    pose proof (classify_quiet o (Path.join root [file]) w1) as Q.
    rewrite Hc in Q. destruct Q as [Q1 Q2 Q3 Q4 Q5 Q6 Q7 (l & Q8 & Q9)].
    cbn in *. split_and!; try congruence.
    - intros Hdry. rewrite Q7. by rewrite (F9 Hdry).
    - exists l. split; [congruence | done]. }
  destruct 1 as [Hex|e Hex Hh|w1 e w2 Hex Hh Hc|w1 t w2 Hex Hh Hc Ht
                |w1 t w2 Hex Hh Hc Ht Hn|w1 t w2 Hex Hh Hc Ht Hn Hm
                |w1 t w2 fs Hex Hh Hc Ht Hn Hd Hm].
  - split; try done.
    + exists [Log DEBUG ("Skipping excluded file: " +:+ Path.join root [file])].
      split; [done | by repeat constructor].
    + intros _ _.
      exists [Log DEBUG ("Skipping excluded file: " +:+ Path.join root [file])].
      split; [done | by repeat constructor].
  - split; try done.
    + exists []. by rewrite app_nil_r.
    + intros _ _. exists []. by rewrite app_nil_r.
  - destruct (Hpre _ _ _ Hh Hc) as (E1 & E2 & E3 & E4 & E5 & E6 & E7 & l & E8 & E9).
    split; try done.
    + by rewrite E1.
    + exists l. split; [done | by apply log_events].
    + intros _ _. by exists l.
  - destruct (Hpre _ _ _ Hh Hc) as (E1 & E2 & E3 & E4 & E5 & E6 & E7 & l & E8 & E9).
    split; cbn; try done.
    + by rewrite E1.
    + by f_equal.
    + eexists (l ++ [_]). split; [by rewrite E8, app_assoc|].
      apply Forall_app. split; [by apply log_events | by repeat constructor].
    + intros _ _. eexists (l ++ [_]). split; [by rewrite E8, app_assoc|].
      apply Forall_app. split; [done | by repeat constructor].
  - destruct (Hpre _ _ _ Hh Hc) as (E1 & E2 & E3 & E4 & E5 & E6 & E7 & l & E8 & E9).
    split; cbn; try done.
    + by rewrite E1.
    + by f_equal.
    + eexists (l ++ [_]). split; [by rewrite E8, app_assoc|].
      apply Forall_app. split; [by apply log_events | by repeat constructor].
    + intros _ _. eexists (l ++ [_]). split; [by rewrite E8, app_assoc|].
      apply Forall_app. split; [done | by repeat constructor].
  - destruct (Hpre _ _ _ Hh Hc) as (E1 & E2 & E3 & E4 & E5 & E6 & E7 & l & E8 & E9).
    split; cbn; try done.
    + by rewrite E1.
    + eexists (l ++ [_]). split; [by rewrite E8, app_assoc|].
      apply Forall_app. split; [by apply log_events | by repeat constructor].
  - destruct (Hpre _ _ _ Hh Hc) as (E1 & E2 & E3 & E4 & E5 & E6 & E7 & l & E8 & E9).
    split; cbn; try done.
    + apply makedirs_same_files in Hm. by rewrite E1 in Hm.
    + intros H. by destruct (H t).
    + eexists (l ++ [_]). split; [by rewrite E8, app_assoc|].
      apply Forall_app. split; [by apply log_events | by repeat constructor].
    + intros H. by destruct (H t).
Qed.

Lemma prepare_move_effect (o : organizer) (root file : string) (w : world) r w' :
  prepare_move md5 o root file w = (r, w') → prepared_effect o w r w'.
Proof. intros H. eapply prepared_has_effect, prepare_move_inv, H. Qed.

(** The three ways of [move_file]. *)
Lemma move_file_dry (o : organizer) (p t : string) (w : world) :
  dry_run o = true →
  move_file o p t w =
    (Done tt, set_stats incr_organized
                (emit (Log INFO ("Would move: " +:+ p +:+ " -> " +:+ t)) w)).
Proof. intros H. unfold move_file. by rewrite H. Qed.

Lemma move_file_moved (o : organizer) (p t : string) (w : world) fs :
  dry_run o = false →
  FS.move (w_fs w) (Path.abspath (w_cwd w) p) (Path.abspath (w_cwd w) t) = Some fs →
  move_file o p t w =
    (Done tt, set_stats incr_organized
                (emit (Log INFO ("Moved: " +:+ p +:+ " -> " +:+ t))
                   (set_fs fs (emit (Move p t) w)))).
Proof.
  intros H Hm. unfold move_file, shutil_move. rewrite H. munfold.
  cbn [negb w_fs w_cwd emit]. by rewrite Hm.
Qed.

Lemma move_file_failed (o : organizer) (p t : string) (w : world) :
  dry_run o = false →
  FS.move (w_fs w) (Path.abspath (w_cwd w) p) (Path.abspath (w_cwd w) t) = None →
  move_file o p t w =
    (Done tt, set_stats incr_skipped
                (emit (Log ERROR ("Error moving " +:+ p)) (emit (Move p t) w))).
Proof.
  intros H Hm. unfold move_file, shutil_move. rewrite H. munfold.
  cbn [negb w_fs w_cwd emit]. by rewrite Hm.
Qed.

Lemma organize_one_unfold (o : organizer) (root file : string) (w : world) :
  organize_one md5 o root file w =
    match prepare_move md5 o root file w with
    | (Done (Some t), w1) => move_file o (Path.join root [file]) t w1
    | (Done None, w1) => (Done tt, w1)
    | (Raised e, w1) => (Raised e, w1)
    | (OutOfFuel, w1) => (OutOfFuel, w1)
    end.
Proof.
  unfold organize_one. munfold.
  by destruct (prepare_move md5 o root file w) as [[[t|]| |] w1].
Qed.

End StepFacts.

(** ** The balance of the counters (C9) *)

(** Every counted file is organised or skipped. *)
Definition balanced (st : stats) : Prop :=
  total_files st = (organized_files st + skipped_files st)%nat.

Section Balance.
Variable md5 : string → string.

(** One more file, organised or skipped. *)
Definition counts_one (w w' : world) : Prop :=
  total_files (w_stats w') = S (total_files (w_stats w))
  ∧ ((organized_files (w_stats w') = S (organized_files (w_stats w))
      ∧ skipped_files (w_stats w') = skipped_files (w_stats w))
     ∨ (organized_files (w_stats w') = organized_files (w_stats w)
        ∧ skipped_files (w_stats w') = S (skipped_files (w_stats w)))).

Lemma organize_one_counts (o : organizer) (root file : string) (w w' : world) :
  organize_one md5 o root file w = (Done tt, w') → counts_one w w'.
Proof.
  rewrite organize_one_unfold.
  destruct (prepare_move md5 o root file w) as [[[t|]| |] w1] eqn:Hp; [| |done..].
  - apply prepare_move_effect in Hp as [].
    destruct (dry_run o) eqn:Hd.
    + rewrite move_file_dry by done. intros [= <-]. unfold counts_one. cbn.
      split; [done|]. left. split; [by f_equal | done].
    + destruct (FS.move (w_fs w1) (Path.abspath (w_cwd w1) (Path.join root [file]))
                  (Path.abspath (w_cwd w1) t)) as [fs|] eqn:Hm.
      * erewrite move_file_moved by done. intros [= <-]. unfold counts_one. cbn.
        split; [done|]. left. split; [by f_equal | done].
      * rewrite move_file_failed by done. intros [= <-]. unfold counts_one. cbn.
        split; [done|]. right. split; [done | by f_equal].
  - apply prepare_move_effect in Hp as [].
    intros [= <-]. split; [done|]. by right.
Qed.

Definition keeps_balance (w w' : world) : Prop :=
  balanced (w_stats w) → balanced (w_stats w').

Global Instance keeps_balance_refl : Reflexive keeps_balance.
Proof. intros w H. exact H. Qed.

Global Instance keeps_balance_trans : Transitive keeps_balance.
Proof. intros w1 w2 w3 H1 H2 H. by apply H2, H1. Qed.

End Balance.

(** ** The duplicate scan leaves the run alone *)

(** [w'] is [w] with more log lines. *)
Record logged (w w' : world) : Prop := Logged {
  lg_fs : w_fs w' = w_fs w;
  lg_cwd : w_cwd w' = w_cwd w;
  lg_stats : w_stats w' = w_stats w;
  lg_dups : w_duplicates w' = w_duplicates w;
  lg_events : ∃ l, w_events w' = w_events w ++ l ∧ Forall is_log l;
}.

Global Instance logged_refl : Reflexive logged.
Proof. intros w. split; try done. exists []. by rewrite app_nil_r. Qed.

Global Instance logged_trans : Transitive logged.
Proof.
  intros w1 w2 w3 [] []. split; try congruence.
  destruct lg_events0 as (l1 & E1 & F1), lg_events1 as (l2 & E2 & F2).
  exists (l1 ++ l2). split; [by rewrite E2, E1, app_assoc | by apply Forall_app].
Qed.

Lemma logged_emit (w : world) (l : level) (msg : string) :
  logged w (emit (Log l msg) w).
Proof. split; try done. exists [Log l msg]. split; [done | by repeat constructor]. Qed.

Section ScanFacts.
Variable md5 : string → string.

Definition scan_logged (s s' : scan_state) : Prop := logged s.1 s'.1.

Global Instance scan_logged_refl : Reflexive scan_logged.
Proof. intros s. unfold scan_logged. reflexivity. Qed.

Global Instance scan_logged_trans : Transitive scan_logged.
Proof. intros s1 s2 s3. unfold scan_logged. apply logged_trans. Qed.

(** [scan_file] never raises: it appends the path to the group of its
    hash, or logs the failure to hash it, or passes an excluded file. *)
Lemma scan_file_cases (o : organizer) (root filename : string) (s : scan_state) :
  let p := Path.join root [filename] in
  scan_file md5 o root filename s =
    (Done tt,
     if should_exclude o p then s
     else match read_bytes s.1 p with
          | Done b => (s.1, dict_append (md5 b) p s.2)
          | _ => (emit (Log ERROR ("Error hashing file " +:+ p)) s.1, s.2)
          end).
Proof.
  intros p. unfold scan_file, get_file_hash. fold p.
  destruct (should_exclude o p); [done|]. cbn [negb].
  unfold read_bytes. destruct s as [w m]. cbn [fst snd].
  destruct (w_fs w !! _) as [[f|]|]; [|done..].
  by destruct (f_readable f).
Qed.

Lemma scan_file_logged (o : organizer) (root filename : string) (s : scan_state) r s' :
  scan_file md5 o root filename s = (r, s') → scan_logged s s'.
Proof.
  rewrite scan_file_cases. intros [= <- <-]. unfold scan_logged.
  destruct (should_exclude o _); [reflexivity|].
  destruct (read_bytes s.1 _); cbn [fst]; first [reflexivity | apply logged_emit].
Qed.

Lemma find_duplicate_files_logged (fuel : nat) (o : organizer) (w : world) r w' :
  find_duplicate_files md5 fuel o w = (r, w') → logged w w'.
Proof.
  unfold find_duplicate_files.
  set (w0 := emit (Log INFO "Scanning for duplicate files...") w).
  match goal with |- context [os_walk ?a ?b ?c ?d ?e] =>
    destruct (os_walk a b c d e) as [r1 [w1 m1]] eqn:Hw end.
  assert (scan_logged (w0, ∅) (w1, m1)) as Hl.
  { eapply (os_walk_rel _ scan_logged); [|exact Hw].
    intros root dirs files s r2 s2 Hb. munfold.
    destruct (for_each (scan_file md5 o root) files s) as [r3 s3] eqn:Hf.
    assert (scan_logged s s3) as H3.
    { eapply (for_each_rel scan_logged); [|exact Hf].
      intros x s4 r4 s4'. apply scan_file_logged. }
    destruct r3; by simplify_eq. }
  unfold scan_logged in Hl. cbn [fst] in Hl.
  intros H. assert (w' = w1) as -> by (destruct r1; by simplify_eq).
  etrans; [apply logged_emit | exact Hl].
Qed.

(** ** The balance of the counters (C9, continued) *)

Lemma organize_dir_keeps_balance (o : organizer) (root : string)
    (dirs files : list string) (w : world) d w' :
  organize_dir md5 o root dirs files w = (Done d, w') → keeps_balance w w'.
Proof.
  unfold organize_dir. munfold.
  destruct (for_each (organize_one md5 o root) files w) as [[[]| |] w1] eqn:Hf;
    [|done..].
  intros [= _ <-].
  eapply (for_each_done keeps_balance); [|exact Hf].
  intros x s s' Hx Hb. apply organize_one_counts in Hx as [Ht Hc].
  unfold balanced in *. lia.
Qed.

(** C9: a file that [organize_files] has processed to the end adds one to
    the total and one to exactly one of organised and skipped; so the
    total stays the sum of organised and skipped, after each such file and
    at the end of a run that returns; the duplicate counter plays no part
    in it. *)
Theorem organize_keeps_balance (o : organizer) :
  (∀ root file w w',
     organize_one md5 o root file w = (Done tt, w') →
     counts_one w w' ∧ (balanced (w_stats w) → balanced (w_stats w')))
  ∧ (∀ fuel w w',
       balanced (w_stats w) →
       organize_files md5 fuel o w = (Done tt, w') →
       balanced (w_stats w')).
Proof.
  split.
  - intros root file w w' H. pose proof (organize_one_counts md5 _ _ _ _ _ H) as Hc.
    split; [done|]. destruct Hc as [Ht Hc]. unfold balanced. lia.
  - intros fuel w w' Hb. unfold organize_files. munfold.
    set (w0 := emit _ (emit _ w)).
    destruct (dry_run o); cbn [negb].
    + intros Hw. eapply (os_walk_done w_fs keeps_balance) in Hw.
      * by apply Hw.
      * intros. by eapply organize_dir_keeps_balance.
    + destruct (find_duplicate_files md5 fuel o w0) as [[dups| |] w1] eqn:Hd;
        [|done..].
      apply find_duplicate_files_logged in Hd as [].
      intros Hw. eapply (os_walk_done w_fs keeps_balance) in Hw.
      * apply Hw. cbn. by rewrite lg_stats0.
      * intros. by eapply organize_dir_keeps_balance.
Qed.

(** ** A failed move (C8) *)


End ScanFacts.

(** ** Listing a directory *)

Lemma strip_prefix_Some (pre k name : string) :
  FS.strip_prefix pre k = Some name ↔ k = pre +:+ name.
Proof.
  revert k. induction pre as [|a pre IH]; intros k; cbn [FS.strip_prefix].
  - rewrite sapp_nil_l. split; congruence.
  - rewrite sapp_cons. destruct k as [|b k]; [split; congruence|].
    destruct (Ascii.eqb_spec a b) as [->|Hne].
    + rewrite IH. split; congruence.
    + split; congruence.
Qed.

Lemma elem_of_entries (fs : gmap string node) (top name : string) (n : node) :
  (name, n) ∈ omap (FS.entry_of top) (map_to_list fs)
  ↔ FS.valid_name name = true ∧ fs !! (FS.with_sep top +:+ name) = Some n.
Proof.
  rewrite list_elem_of_omap. split.
  - intros ([k n'] & Hin & He). unfold FS.entry_of in He. cbn [fst snd] in He.
    destruct (FS.strip_prefix _ k) as [nm|] eqn:Hs; [|done].
    destruct (FS.valid_name nm) eqn:Hv; [|done]. simplify_eq.
    apply strip_prefix_Some in Hs as ->. split; [done|].
    by apply elem_of_map_to_list in Hin.
  - intros [Hv Hl]. exists (FS.with_sep top +:+ name, n). split.
    + by apply elem_of_map_to_list.
    + unfold FS.entry_of. cbn [fst snd].
      assert (FS.strip_prefix (FS.with_sep top) (FS.with_sep top +:+ name) = Some name)
        as -> by by apply strip_prefix_Some.
      by rewrite Hv.
Qed.

Lemma sapp_inj_l (a b c : string) : a +:+ b = a +:+ c → b = c.
Proof. induction a as [|x a IH]; [done|]. rewrite !sapp_cons. naive_solver. Qed.

Lemma NoDup_entries (fs : gmap string node) (top : string) :
  NoDup (omap (FS.entry_of top) (map_to_list fs)).*1.
Proof.
  pose proof (NoDup_fst_map_to_list fs) as Hnd.
  assert (∀ k n, (k, n) ∈ map_to_list fs → (k, n) ∈ map_to_list fs) as Hsub by done.
  revert Hnd. generalize (map_to_list fs) as l. clear Hsub.
  induction l as [|[k n] l IH]; intros Hnd; [constructor|].
  cbn [omap list_omap]. apply NoDup_cons in Hnd as [Hk Hnd].
  specialize (IH Hnd). unfold FS.entry_of at 1. cbn [fst snd].
  destruct (FS.strip_prefix _ k) as [nm|] eqn:Hs; [|done].
  destruct (FS.valid_name nm); [|done].
  cbn [fmap list_fmap fst]. apply NoDup_cons. split; [|done].
  intros Hin. apply Hk. apply list_elem_of_fmap in Hin as ([nm' n'] & Hnm & Hin).
  cbn [fst] in Hnm. subst nm'.
  apply list_elem_of_omap in Hin as ([k' n''] & Hin & He).
  unfold FS.entry_of in He. cbn [fst snd] in He.
  destruct (FS.strip_prefix _ k') as [nm'|] eqn:Hs'; [|done].
  destruct (FS.valid_name nm'); [|done]. simplify_eq.
  apply strip_prefix_Some in Hs, Hs'. subst.
  apply list_elem_of_fmap. by exists (FS.with_sep top +:+ nm, n').
Qed.

(** What [scandir] returns: the valid names under [top], each once, the
    directories apart from the files. *)
Lemma scandir_spec (fs : gmap string node) (top : string) dirs files :
  FS.scandir fs top = Some (dirs, files) →
  top ≠ ""
  ∧ (∀ d, d ∈ dirs ↔
          FS.valid_name d = true ∧ fs !! (FS.with_sep top +:+ d) = Some NDir)
  ∧ (∀ f, f ∈ files ↔
          FS.valid_name f = true
          ∧ ∃ fd, fs !! (FS.with_sep top +:+ f) = Some (NFile fd))
  ∧ NoDup dirs ∧ NoDup files.
Proof.
  unfold FS.scandir. destruct (String.eqb_spec top "") as [->|Hne]; [done|].
  cbn [negb andb]. destruct (FS.is_dir fs top); [|done]. intros [= <- <-].
  set (entries := omap _ _).
  assert (∀ b (l : list (string * node)), NoDup l.*1 →
            NoDup (filter (λ e, FS.is_dir_entry e = b) l).*1) as Hf.
  { intros b l. induction l as [|e l IH]; [done|]. cbn [fmap list_fmap].
    intros [Hn Hl]%NoDup_cons. rewrite filter_cons.
    destruct (decide _); [|by apply IH].
    cbn [fmap list_fmap]. apply NoDup_cons. split; [|by apply IH].
    intros Hin. apply Hn. apply list_elem_of_fmap in Hin as (e' & -> & Hin).
    apply list_elem_of_filter in Hin as [_ Hin]. by apply list_elem_of_fmap_2. }
  split_and!; [done| | |apply Hf, NoDup_entries..].
  - intros d. rewrite list_elem_of_fmap. split.
    + intros ([nm n] & -> & Hin). apply list_elem_of_filter in Hin as [Hd Hin].
      apply elem_of_entries in Hin as [Hv Hl]. unfold FS.is_dir_entry in Hd.
      cbn [fst snd] in *. by destruct n.
    + intros [Hv Hl]. exists (d, NDir). split; [done|].
      apply list_elem_of_filter. split; [done|]. by apply elem_of_entries.
  - intros f. rewrite list_elem_of_fmap. split.
    + intros ([nm n] & -> & Hin). apply list_elem_of_filter in Hin as [Hd Hin].
      apply elem_of_entries in Hin as [Hv Hl]. unfold FS.is_dir_entry in Hd.
      cbn [fst snd] in *. destruct n as [fd|]; [|done]. eauto.
    + intros [Hv [fd Hl]]. exists (f, NFile fd). split; [done|].
      apply list_elem_of_filter. split; [done|]. by apply elem_of_entries.
Qed.

(** ** The depth of a tree bounds the walk *)

Lemma contains_sep_no_sep (s : string) :
  Py.contains "/" s = false → no_sep s.
Proof.
  unfold no_sep. induction s as [|c s IH]; [done|].
  cbn [Py.contains Py.startswith Py.rfind].
  intros [Hc Hs]%orb_false_iff. rewrite (IH Hs). cbn.
  unfold Path.sep. rewrite Ascii.eqb_sym.
  destruct (Ascii.eqb "/" c); [by destruct s | done].
Qed.

Lemma valid_name_facts (d : string) :
  FS.valid_name d = true →
  d ≠ "" ∧ no_sep d ∧ Py.startswith "/" d = false.
Proof.
  unfold FS.valid_name.
  intros [[[H1 H2]%andb_true_iff _]%andb_true_iff _]%andb_true_iff.
  apply negb_true_iff in H1, H2. apply String.eqb_neq in H1.
  pose proof (contains_sep_no_sep d H2) as Hn.
  split_and!; [done..|]. by apply no_sep_startswith.
Qed.

(** The path of an entry, as the walk builds it. *)
Lemma join_child (top d : string) :
  top ≠ "" → FS.valid_name d = true →
  Path.join top [d] = FS.with_sep top +:+ d.
Proof.
  intros Ht (_ & _ & Hs)%valid_name_facts.
  unfold Path.join, FS.with_sep. cbn [foldl]. unfold Path.join2. rewrite Hs.
  apply String.eqb_neq in Ht. rewrite Ht. cbn [orb].
  destruct (Py.endswith "/" top); [done|]. by rewrite sapp_assoc.
Qed.

Lemma endswith_sep_last (h d : string) :
  d ≠ "" → no_sep d → Py.endswith "/" (h +:+ d) = false.
Proof.
  intros Hd Hn. destruct (Py.endswith "/" (h +:+ d)) eqn:He; [|done].
  exfalso. apply endswith_inv in He as [x Hx].
  assert (Py.rfind Path.sep (h +:+ d) = Z.of_nat (String.length x)) as H1.
  { rewrite Hx. rewrite rfind_app_found; cbn; lia. }
  rewrite (rfind_app_missing _ _ _ Hn) in H1.
  pose proof (rfind_bounds Path.sep h) as Hb.
  assert (String.length (h +:+ d) = String.length (x +:+ "/")) as Hl by by rewrite Hx.
  rewrite !slength_app in Hl. destruct d; [done|]. simpl in Hl. lia.
Qed.

Lemma with_sep_child (top d : string) :
  FS.valid_name d = true →
  FS.with_sep (FS.with_sep top +:+ d) = FS.with_sep top +:+ d +:+ "/".
Proof.
  intros (Hd & Hn & _)%valid_name_facts. unfold FS.with_sep at 1.
  rewrite endswith_sep_last by done. by rewrite sapp_assoc.
Qed.

(** The keys of [fs] under [top]. *)
Definition under (fs : gmap string node) (top : string) : list (string * node) :=
  filter (λ kn, Py.startswith (FS.with_sep top) kn.1 = true) (map_to_list fs).

Lemma startswith_trans (a b s : string) :
  Py.startswith (a +:+ b) s = true → Py.startswith a s = true.
Proof.
  intros [t ->]%startswith_inv. rewrite sapp_assoc. apply startswith_app.
Qed.

Lemma startswith_longer (a b : string) :
  b ≠ "" → Py.startswith (a +:+ b) a = false.
Proof.
  intros Hb. destruct (Py.startswith (a +:+ b) a) eqn:E; [|done].
  apply startswith_inv in E as [t Ht].
  assert (String.length a = String.length ((a +:+ b) +:+ t)) as Hl by by rewrite <- Ht.
  rewrite !slength_app in Hl. destruct b; [done|]. simpl in Hl. lia.
Qed.

Lemma under_child_lt (fs : gmap string node) (top d : string) :
  FS.valid_name d = true → fs !! (FS.with_sep top +:+ d) = Some NDir →
  (length (under fs (FS.with_sep top +:+ d)) < length (under fs top))%nat.
Proof.
  intros Hv Hl. unfold under. rewrite (with_sep_child top d Hv).
  set (P := λ kn : string * node,
              Py.startswith (FS.with_sep top +:+ d +:+ "/") kn.1 = true).
  set (Q := λ kn : string * node, Py.startswith (FS.with_sep top) kn.1 = true).
  assert (filter P (map_to_list fs) = filter P (filter Q (map_to_list fs))) as ->.
  { rewrite list_filter_filter. apply list_filter_iff. intros [k n]. unfold P, Q.
    cbn [fst]. split; [|naive_solver]. intros H. split; [done|].
    by eapply startswith_trans. }
  apply (length_filter_lt _ _ (FS.with_sep top +:+ d, NDir)).
  - apply list_elem_of_filter. split.
    + unfold Q. cbn [fst]. apply startswith_app.
    + by apply elem_of_map_to_list.
  - unfold P. cbn [fst]. rewrite <- sapp_assoc.
    rewrite startswith_longer; [done | done].
Qed.

(** Whether [fuel] is enough for [os.walk] to reach every directory under
    [top]. *)
Fixpoint walk_ok (fuel : nat) (fs : gmap string node) (top : string) : bool :=
  match fuel with
  | O => false
  | S n =>
      match FS.scandir fs top with
      | None => true
      | Some (dirs, _) => forallb (λ d, walk_ok n fs (Path.join top [d])) dirs
      end
  end.

Lemma walk_ok_under (fuel : nat) (fs : gmap string node) (top : string) :
  (length (under fs top) < fuel)%nat → walk_ok fuel fs top = true.
Proof.
  revert top. induction fuel as [|n IH]; intros top Hlt; [lia|].
  cbn [walk_ok]. destruct (FS.scandir fs top) as [[dirs files]|] eqn:Hs; [|done].
  apply scandir_spec in Hs as (Ht & Hd & _).
  apply forallb_forall. intros d Hin%list_elem_of_In%Hd. destruct Hin as [Hv Hl].
  rewrite (join_child top d Ht Hv). apply IH.
  pose proof (under_child_lt fs top d Hv Hl). lia.
Qed.

(** More fuel than the tree has nodes is enough. *)
Lemma walk_ok_size (fuel : nat) (fs : gmap string node) (top : string) :
  (size fs < fuel)%nat → walk_ok fuel fs top = true.
Proof.
  intros H. apply walk_ok_under. unfold under.
  pose proof (length_filter
    (λ kn : string * node, Py.startswith (FS.with_sep top) kn.1 = true)
    (map_to_list fs)) as Hle.
  rewrite length_map_to_list in Hle. lia.
Qed.

(** ** The files of a walk *)

(** The file paths that [os.walk(top)] yields on an unchanging tree, in its
    order: the files of a directory, then those of its sub-directories. *)
Fixpoint walk_files (fuel : nat) (fs : gmap string node) (top : string)
    : list string :=
  match fuel with
  | O => []
  | S n =>
      match FS.scandir fs top with
      | None => []
      | Some (dirs, files) =>
          ((λ f, Path.join top [f]) <$> files)
          ++ (dirs ≫= λ d, walk_files n fs (Path.join top [d]))
      end
  end.

Lemma walk_files_prefix (fuel : nat) (fs : gmap string node) (top p : string) :
  p ∈ walk_files fuel fs top →
  ∃ r, p = FS.with_sep top +:+ r ∧ r ≠ "".
Proof.
  revert top p. induction fuel as [|n IH]; intros top p; cbn [walk_files].
  - by intros ?%elem_of_nil.
  - destruct (FS.scandir fs top) as [[dirs files]|] eqn:Hs; [|by intros ?%elem_of_nil].
    apply scandir_spec in Hs as (Ht & Hd & Hf & _).
    intros [Hin|Hin]%elem_of_app.
    + apply list_elem_of_fmap in Hin as (f & -> & [Hv _]%Hf).
      exists f. split; [by apply join_child|]. by apply valid_name_facts in Hv as [? _].
    + apply list_elem_of_bind in Hin as (d & Hin & [Hv _]%Hd).
      apply IH in Hin as (r & -> & Hr).
      rewrite (join_child top d Ht Hv), (with_sep_child top d Hv).
      exists (d +:+ "/" +:+ r). split; [by rewrite !sapp_assoc|].
      apply valid_name_facts in Hv as [Hne _]. by destruct d.
Qed.

Lemma no_sep_app_inv (a x : string) : ¬ no_sep (a +:+ "/" +:+ x).
Proof.
  unfold no_sep. pose proof (rfind_bounds Path.sep x).
  assert (0 <= Py.rfind Path.sep ("/" +:+ x)) as H0.
  { change ("/" +:+ x) with (String Path.sep x). cbn [Py.rfind].
    destruct (Z.leb_spec 0 (Py.rfind Path.sep x)); [lia|].
    by rewrite Ascii.eqb_refl. }
  rewrite rfind_app_found by done. lia.
Qed.

Lemma no_sep_cons (c : ascii) (a : string) :
  no_sep (String c a) → c ≠ Path.sep ∧ no_sep a.
Proof.
  unfold no_sep. cbn [Py.rfind]. pose proof (rfind_bounds Path.sep a).
  destruct (Z.leb_spec 0 (Py.rfind Path.sep a)); [lia|].
  destruct (Ascii.eqb_spec c Path.sep); [lia|]. split; [done | lia].
Qed.

Lemma no_sep_split_inj (a a' x y : string) :
  no_sep a → no_sep a' → a +:+ "/" +:+ x = a' +:+ "/" +:+ y → a = a'.
Proof.
  revert a'. induction a as [|c a IH]; intros [|c' a'] Ha Ha'; try done.
  - rewrite sapp_nil_l, sapp_cons. intros [= <- _].
    by apply no_sep_cons in Ha' as [? _].
  - rewrite sapp_nil_l, sapp_cons. intros [= -> _].
    by apply no_sep_cons in Ha as [? _].
  - rewrite !sapp_cons. intros [= -> H].
    apply no_sep_cons in Ha as [_ Ha], Ha' as [_ Ha']. f_equal. by apply IH.
Qed.

Lemma NoDup_walk_files (fuel : nat) (fs : gmap string node) (top : string) :
  NoDup (walk_files fuel fs top).
Proof.
  revert top. induction fuel as [|n IH]; intros top; cbn [walk_files];
    [constructor|].
  destruct (FS.scandir fs top) as [[dirs files]|] eqn:Hs; [|constructor].
  apply scandir_spec in Hs as (Ht & Hd & Hf & Hnd & Hnf).
  apply NoDup_app. split_and!.
  - apply NoDup_fmap_2_strong; [|done].
    intros f1 f2 [H1 _]%Hf [H2 _]%Hf.
    rewrite !join_child by done. apply sapp_inj_l.
  - intros p Hp Hq.
    apply list_elem_of_fmap in Hp as (f & -> & [Hv _]%Hf).
    apply list_elem_of_bind in Hq as (d & Hq & [Hvd _]%Hd).
    apply walk_files_prefix in Hq as (r & Hq & _).
    rewrite !join_child, (with_sep_child top d Hvd) in Hq by done.
    rewrite sapp_assoc in Hq. apply sapp_inj_l in Hq.
    apply valid_name_facts in Hv as (_ & Hv & _). rewrite Hq in Hv.
    rewrite ?sapp_assoc in Hv. by apply no_sep_app_inv in Hv.
  - apply NoDup_bind; [|by intros; apply IH|done].
    intros d1 d2 p [Hv1 _]%Hd [Hv2 _]%Hd H1 H2.
    apply walk_files_prefix in H1 as (r1 & -> & _).
    apply walk_files_prefix in H2 as (r2 & H2 & _).
    rewrite !join_child, !with_sep_child in H2 by done.
    rewrite !sapp_assoc in H2. apply sapp_inj_l in H2.
    apply valid_name_facts in Hv1 as (_ & Hn1 & _), Hv2 as (_ & Hn2 & _).
    by eapply no_sep_split_inj.
Qed.

(** ** The theorems of the walk at work *)

Definition balance_fs : gmap string node :=
  {[ "/s" := NDir;
     "/s/a.py" := NFile (FData "x = 1" true true true);
     "/s/notes" := NFile (FData "n" true true true) ]}.

Lemma organize_keeps_balance_witness :
  let o := init "/" "/s" None None false None None false in
  let r := organize_files (λ b, b) 4%nat o (world0 balance_fs "/") in
  r.1 = Done tt ∧ balanced (w_stats r.2).
Proof.
  intros o r. assert (r.1 = Done tt) as H by (vm_compute; reflexivity).
  split; [exact H|].
  apply (proj2 (organize_keeps_balance (λ b, b) o) 4%nat (world0 balance_fs "/")).
  - vm_compute. reflexivity.
  - rewrite <- H. fold r. by destruct r.
Defined.



(** ** The duplicate scan (C6) *)

Section Scan.
Variable md5 : string → string.

(** The hash under which the scan files a path: none for an excluded
    file and for one that cannot be read. *)
Definition hash_key (o : organizer) (w : world) (p : string) : option string :=
  if should_exclude o p then None
  else match read_bytes w p with
       | Done b => Some (md5 b)
       | _ => None
       end.

(** What the scan does with one path. *)
Definition scan_step (o : organizer) (s : scan_state) (p : string) : scan_state :=
  if should_exclude o p then s
  else match read_bytes s.1 p with
       | Done b => (s.1, dict_append (md5 b) p s.2)
       | _ => (emit (Log ERROR ("Error hashing file " +:+ p)) s.1, s.2)
       end.

Lemma read_bytes_ext (w w' : world) (p : string) :
  w_fs w' = w_fs w → w_cwd w' = w_cwd w → read_bytes w' p = read_bytes w p.
Proof. intros H1 H2. unfold read_bytes. by rewrite H1, H2. Qed.

Lemma scan_step_logged (o : organizer) (s : scan_state) (p : string) :
  logged s.1 (scan_step o s p).1.
Proof.
  unfold scan_step. destruct (should_exclude o p); [reflexivity|].
  destruct (read_bytes s.1 p); cbn [fst]; first [reflexivity | apply logged_emit].
Qed.

Lemma scan_fold_logged (o : organizer) (l : list string) (s : scan_state) :
  logged s.1 (foldl (scan_step o) s l).1.
Proof.
  revert s. induction l as [|p l IH]; intros s; [reflexivity|]. cbn [foldl].
  etrans; [apply scan_step_logged | apply IH].
Qed.

Lemma for_each_scan (o : organizer) (root : string) (files : list string)
    (s : scan_state) :
  for_each (scan_file md5 o root) files s
  = (Done tt, foldl (scan_step o) s ((λ f, Path.join root [f]) <$> files)).
Proof.
  revert s. induction files as [|f files IH]; intros s; [done|].
  cbn [for_each fmap list_fmap foldl]. munfold.
  rewrite scan_file_cases. cbn beta iota zeta. rewrite IH. done.
Qed.

Definition scan_body (o : organizer) (root : string)
    (dirs files : list string) : M scan_state (list string) :=
  for_each (scan_file md5 o root) files;; mret dirs.

Lemma scan_body_eq (o : organizer) (root : string) (dirs files : list string)
    (s : scan_state) :
  scan_body o root dirs files s
  = (Done dirs, foldl (scan_step o) s ((λ f, Path.join root [f]) <$> files)).
Proof. unfold scan_body. munfold. by rewrite for_each_scan. Qed.

(** With fuel enough, the walk of the scan is the fold of [scan_step]
    over the files of the tree. *)
Lemma scan_walk_exact (o : organizer) (fuel : nat) (top : string) (s : scan_state) :
  walk_ok fuel (w_fs s.1) top = true →
  os_walk (λ s : scan_state, w_fs s.1) fuel (scan_body o) top s
  = (Done tt, foldl (scan_step o) s (walk_files fuel (w_fs s.1) top)).
Proof.
  revert top s. induction fuel as [|n IH]; intros top s Hok; [done|].
  cbn [os_walk walk_ok walk_files] in *.
  destruct (FS.scandir (w_fs s.1) top) as [[dirs files]|]; [|done].
  unfold mbind at 1, M_bind at 1. rewrite scan_body_eq.
  rewrite foldl_app.
  set (s1 := foldl (scan_step o) s _).
  assert (w_fs s1.1 = w_fs s.1) as Hfs by apply scan_fold_logged.
  clearbody s1. revert s1 Hfs.
  induction dirs as [|d dirs IHd]; intros s1 Hfs; [done|].
  cbn [forallb] in Hok. apply andb_true_iff in Hok as [Hd Hds].
  cbn [for_each]. unfold mbind at 1, M_bind at 1. rewrite IH by by rewrite Hfs.
  rewrite bind_cons, foldl_app, Hfs.
  apply IHd; [done|]. etrans; [apply scan_fold_logged | done].
Qed.

Lemma hash_key_ext (o : organizer) (w w' : world) (p : string) :
  logged w w' → hash_key o w' p = hash_key o w p.
Proof.
  intros []. unfold hash_key. by rewrite (read_bytes_ext w w').
Qed.

Lemma lookup_dict_append (h h' p : string) (m : gmap string (list string)) :
  dict_append h' p m !! h =
    if decide (h' = h) then Some (default [] (m !! h) ++ [p]) else m !! h.
Proof.
  unfold dict_append. destruct (decide (h' = h)) as [->|Hne].
  - by rewrite lookup_insert_eq.
  - by rewrite lookup_insert_ne.
Qed.

Lemma scan_step_snd (o : organizer) (s : scan_state) (p : string) :
  (scan_step o s p).2 =
    match hash_key o s.1 p with
    | Some k => dict_append k p s.2
    | None => s.2
    end.
Proof.
  unfold scan_step, hash_key. destruct (should_exclude o p); [done|].
  by destruct (read_bytes s.1 p).
Qed.

(** The group of a hash after the fold: the paths filed under it, in
    the order of the walk, after those that were there. *)
Lemma scan_fold_groups (o : organizer) (l : list string) (s : scan_state)
    (h : string) :
  (foldl (scan_step o) s l).2 !! h =
    match filter (λ p, hash_key o s.1 p = Some h) l with
    | [] => s.2 !! h
    | g => Some (default [] (s.2 !! h) ++ g)
    end.
Proof.
  revert s. induction l as [|p l IH]; intros s; [done|].
  cbn [foldl]. rewrite IH. rewrite filter_cons.
  pose proof (scan_step_logged o s p) as Hl.
  assert (filter (λ q, hash_key o (scan_step o s p).1 q = Some h) l
          = filter (λ q, hash_key o s.1 q = Some h) l) as ->.
  { apply list_filter_iff. intros q. by rewrite (hash_key_ext o _ _ q Hl). }
  rewrite scan_step_snd.
  destruct (decide (hash_key o s.1 p = Some h)) as [Hk|Hk].
  - rewrite Hk. rewrite lookup_dict_append, decide_True by done.
    destruct (filter _ l); simpl; [done|]. by rewrite <- app_assoc.
  - destruct (hash_key o s.1 p) as [k|]; [|done].
    rewrite lookup_dict_append, decide_False by congruence. done.
Qed.

Lemma find_duplicate_files_exact (fuel : nat) (o : organizer) (w : world) :
  walk_ok fuel (w_fs w) (source_dir o) = true →
  let s := foldl (scan_step o)
             (emit (Log INFO "Scanning for duplicate files...") w, ∅)
             (walk_files fuel (w_fs w) (source_dir o)) in
  find_duplicate_files md5 fuel o w
  = (Done (filter (λ kv, 1 < length kv.2)%nat s.2), s.1).
Proof.
  intros Hok s. unfold find_duplicate_files.
  change (λ (root : string) (dirs files : list string),
            for_each (scan_file md5 o root) files ≫= λ _ : (), mret dirs)
    with (scan_body o).
  rewrite scan_walk_exact by done. cbn [fst snd w_fs emit]. fold s.
  by destruct s.
Qed.

End Scan.




Section ScanTheorem.
Variable md5 : string → string.



End ScanTheorem.

Definition twins_fs : gmap string node :=
  {[ "/s" := NDir;
     "/s/a.txt" := NFile (FData "same" true true true);
     "/s/d" := NDir;
     "/s/d/b.txt" := NFile (FData "same" true true true);
     "/s/c.txt" := NFile (FData "other" true true true);
     "/s/x.txt" := NFile (FData "same" true false true) ]}.


(** ** An excluded name in the source root (C10) *)

Lemma startswith_sep_cons (s : string) :
  Py.startswith "/" s = true → ∃ t, s = String Path.sep t.
Proof. intros [t ->]%startswith_inv. by exists t. Qed.


Lemma join2_abs (a b : string) :
  Py.startswith "/" a = true → Py.startswith "/" b = false →
  Py.startswith "/" (Path.join2 a b) = true.
Proof.
  intros [t ->]%startswith_sep_cons Hb. unfold Path.join2. rewrite Hb.
  by destruct (_ || _).
Qed.







Section ExcludedRoot.
Variable md5 : string → string.




End ExcludedRoot.




(** ** The dry run (C1) *)

(** The classification reads the files and the working directory only: a
    change [g] of the state that leaves both alone passes through it. *)
Section Commute.
Variable g : world → world.
Hypothesis g_fs : ∀ w, w_fs (g w) = w_fs w.
Hypothesis g_cwd : ∀ w, w_cwd (g w) = w_cwd w.
Hypothesis g_emit : ∀ e w, g (emit e w) = emit e (g w).
Hypothesis g_unknown :
  ∀ x w, g (set_stats (add_unknown x) w) = set_stats (add_unknown x) (g w).
Hypothesis g_skipped :
  ∀ w, g (set_stats incr_skipped w) = set_stats incr_skipped (g w).
Hypothesis g_set_fs : ∀ fs w, g (set_fs fs w) = set_fs fs (g w).











End Commute.

(** The same configuration with the dry-run flag set to [b]. *)
Definition with_dry_run (b : bool) (o : organizer) : organizer :=
  {| source_dir := source_dir o; target_dir := target_dir o;
     mappings := mappings o; project_mode := project_mode o;
     exclude_dirs := exclude_dirs o; exclude_files := exclude_files o;
     dry_run := b |}.

Lemma with_dry_run_same (o : organizer) : with_dry_run (dry_run o) o = o.
Proof. by destruct o. Qed.




(** What a dry run may do to the state: make directories, log, count;
    every file stays where and what it is, and the duplicate index and its
    counter stay as they are. *)
Record dry_frame (w w' : world) : Prop := DryFrame {
  df_sub : w_fs w ⊆ w_fs w';
  df_files : same_files (w_fs w) (w_fs w');
  df_cwd : w_cwd w' = w_cwd w;
  df_dups : w_duplicates w' = w_duplicates w;
  df_dupstat : duplicate_files (w_stats w') = duplicate_files (w_stats w);
  df_events : ∃ l, w_events w' = w_events w ++ l ∧ Forall is_log_or_makedirs l;
}.

Global Instance dry_frame_refl : Reflexive dry_frame.
Proof. intros w. split; try done. exists []. by rewrite app_nil_r. Qed.

Global Instance dry_frame_trans : Transitive dry_frame.
Proof.
  intros w1 w2 w3 [] []. split; try congruence.
  - by etrans.
  - by etrans.
  - destruct df_events0 as (l1 & E1 & F1), df_events1 as (l2 & E2 & F2).
    exists (l1 ++ l2). split; [by rewrite E2, E1, app_assoc | by apply Forall_app].
Qed.

Lemma logged_dry_frame (w w' : world) : logged w w' → dry_frame w w'.
Proof.
  intros [F C S D (l & E & A)]. split; try done.
  - by rewrite F.
  - by rewrite F.
  - by rewrite S.
  - exists l. split; [done|]. eapply Forall_impl; [exact A|]. by intros [].
Qed.

Section DryRun.
Variable md5 : string → string.

Lemma prepare_move_unfold (o : organizer) (root file : string) (w : world) :
  let p := Path.join root [file] in
  let w0 := set_stats incr_total w in
  prepare_move md5 o root file w =
    if should_exclude o p then
      (Done None,
       set_stats incr_skipped
         (emit (Log DEBUG ("Skipping excluded file: " +:+ p)) w0))
    else
      match hashed md5 o p w0 with
      | Done w1 => prepare_tail o p w1
      | Raised e => (Raised e, w0)
      | OutOfFuel => (OutOfFuel, w0)
      end.
Proof.
  intros p w0. unfold prepare_move, prepare_tail, hashed. fold p. munfold.
  cbn beta iota. fold w0.
  destruct (should_exclude o p); [done|].
  destruct (dry_run o); cbn [negb]; [done|].
  unfold get_file_hash.
  destruct (read_bytes w0 p) as [b| |]; [|done..].
  cbn beta iota. by destruct (is_duplicate w0 (Some (md5 b))).
Qed.




End DryRun.



Section TailSim.
Variable G : world → world.
Hypothesis G_fs : ∀ w, w_fs (G w) = w_fs w.
Hypothesis G_cwd : ∀ w, w_cwd (G w) = w_cwd w.
Hypothesis G_emit : ∀ e w, G (emit e w) = emit e (G w).
Hypothesis G_unknown :
  ∀ x w, G (set_stats (add_unknown x) w) = set_stats (add_unknown x) (G w).
Hypothesis G_skipped :
  ∀ w, G (set_stats incr_skipped w) = set_stats incr_skipped (G w).
Hypothesis G_set_fs : ∀ fs w, G (set_fs fs w) = set_fs fs (G w).
Hypothesis G_total : ∀ w, total_files (w_stats (G w)) = total_files (w_stats w).
Hypothesis G_organized :
  ∀ w, organized_files (w_stats (G w)) = organized_files (w_stats w).
Hypothesis G_skipped_files :
  ∀ w, skipped_files (w_stats (G w)) = skipped_files (w_stats w).
Hypothesis G_unknown_extensions :
  ∀ w, unknown_extensions (w_stats (G w)) = unknown_extensions (w_stats w).

End TailSim.

Section DryRunTheorem.
Variable md5 : string → string.



End DryRunTheorem.




(** ** A second run (C2) *)

Lemma place_standard (o : organizer) (p c : string) (w : world) :
  project_mode o = false →
  place o p c w
  = (Done (Path.join (Path.join (target_dir o) [c]) [Path.basename p]), w).
Proof. intros H. unfold place. by rewrite H. Qed.

Lemma basename_join_basename (x p : string) :
  Path.basename (Path.join x [Path.basename p]) = Path.basename p.
Proof. apply basename_join2, basename_decomp. Qed.

(** In standard mode the destination depends on the name of the file and
    on what is in it, not on where it lies. *)
Section StandardMode.
Variables (o : organizer) (p q : string) (w w2 : world) (fd : fdata).
Hypothesis standard : project_mode o = false.
Hypothesis same_name : Path.basename q = Path.basename p.
Hypothesis at_p : w_fs w !! Path.abspath (w_cwd w) p = Some (NFile fd).
Hypothesis at_q : w_fs w2 !! Path.abspath (w_cwd w2) q = Some (NFile fd).

Lemma splitext_same : (Path.splitext q).2 = (Path.splitext p).2.
Proof using same_name.
  by rewrite (splitext_basename q), (splitext_basename p), same_name.
Qed.

Lemma getsize_same : getsize w2 q = getsize w p.
Proof using at_p at_q. unfold getsize. by rewrite at_p, at_q. Qed.

Lemma read_text_same : read_text w2 q = read_text w p.
Proof using at_p at_q. unfold read_text. by rewrite at_p, at_q. Qed.

Lemma shebang_pass_same : shebang_pass w2 q = shebang_pass w p.
Proof using same_name at_p at_q.
  unfold shebang_pass. by rewrite splitext_same, read_text_same.
Qed.

Lemma signature_pass_same : signature_pass w2 q = signature_pass w p.
Proof using at_p at_q. unfold signature_pass. by rewrite read_text_same. Qed.

Lemma smart_categorize_file_same :
  (smart_categorize_file o q w2).1 = (smart_categorize_file o p w).1.
Proof using All.
  unfold smart_categorize_file. rewrite same_name.
  destruct (is_config_file _); [done|].
  munfold. rewrite getsize_same.
  destruct (getsize w p) as [sz| |]; cbn [fst snd]; try done.
  destruct (sz <? _); [|done].
  unfold detect_file_type_from_content. rewrite shebang_pass_same.
  destruct (shebang_pass w p) as [[t|]|e|]; cbn [fst snd].
  - destruct (String.eqb t ""); [done|].
    rewrite !place_standard by done. by rewrite same_name.
  - rewrite signature_pass_same.
    destruct (signature_pass w p) as [t|]; [|done].
    destruct (String.eqb t ""); [done|].
    rewrite !place_standard by done. by rewrite same_name.
  - by destruct e.
  - done.
Qed.

Lemma get_target_path_same (v v2 : world) :
  (get_target_path o q v2).1 = (get_target_path o p v).1.
Proof using standard same_name.
  unfold get_target_path, extension. rewrite splitext_same.
  destruct (String.eqb (Path.splitext p).2 ""); [done|].
  destruct (String.eqb _ _); [done|].
  destruct (mappings o !! _) as [c|]; [|done].
  munfold. rewrite !place_standard by done. by rewrite same_name.
Qed.

Lemma classify_same : (classify o q w2).1 = (classify o p w).1.
Proof using All.
  unfold classify. munfold. pose proof smart_categorize_file_same as H.
  destruct (smart_categorize_file o q w2) as [r2 v2],
           (smart_categorize_file o p w) as [r v]. cbn [fst] in H. subst r2.
  destruct r as [t| |]; try done.
  destruct (truthy t); [done|]. apply get_target_path_same.
Qed.
End StandardMode.

Lemma smart_categorize_file_basename (o : organizer) (p t : string) (w : world) :
  project_mode o = false →
  (smart_categorize_file o p w).1 = Done (Some t) →
  Path.basename t = Path.basename p.
Proof.
  intros Hs. unfold smart_categorize_file.
  destruct (is_config_file _).
  { munfold. intros [= <-]. apply basename_join_basename. }
  munfold. destruct (getsize w p) as [sz| |]; cbn [fst snd]; try done.
  destruct (sz <? _); [|done].
  unfold detect_file_type_from_content.
  destruct (shebang_pass w p) as [[c|]|e|]; cbn [fst snd].
  - destruct (String.eqb c ""); [done|].
    rewrite place_standard by done. intros [= <-]. apply basename_join_basename.
  - destruct (signature_pass w p) as [c|]; [|done].
    destruct (String.eqb c ""); [done|].
    rewrite place_standard by done. intros [= <-]. apply basename_join_basename.
  - by destruct e.
  - done.
Qed.

Lemma get_target_path_basename (o : organizer) (p t : string) (w : world) :
  project_mode o = false →
  (get_target_path o p w).1 = Done (Some t) →
  Path.basename t = Path.basename p.
Proof.
  intros Hs. unfold get_target_path.
  destruct (String.eqb _ _); [done|].
  destruct (mappings o !! _) as [c|]; [|done].
  munfold. rewrite place_standard by done. intros [= <-].
  apply basename_join_basename.
Qed.

Lemma classify_basename (o : organizer) (p t : string) (w : world) :
  project_mode o = false →
  (classify o p w).1 = Done (Some t) →
  Path.basename t = Path.basename p.
Proof.
  intros Hs. unfold classify. munfold.
  pose proof (smart_categorize_file_basename o p t w Hs) as H1.
  destruct (smart_categorize_file o p w) as [[r| |] v]; try done.
  destruct (truthy r) eqn:Hr.
  - cbn [fst] in *. intros [= ->]. by apply H1.
  - by apply get_target_path_basename.
Qed.

Section SecondRun.
Variable md5 : string → string.

(** C2, in standard mode: a file that the classification sends from [p]
    to [t], met again at [t] with what was in it, is sent to [t] again,
    so a step of the walk on it moves nothing and counts it as
    skipped. *)
Theorem second_run_skips (o : organizer) (p t : string) (w w1 : world)
    (fd : fdata) (root2 file2 : string) (w2 : world) :
  project_mode o = false →
  classify o p w = (Done (Some t), w1) →
  truthy (Some t) = true →
  w_fs w !! Path.abspath (w_cwd w) p = Some (NFile fd) →
  Path.join root2 [file2] = t →
  w_fs w2 !! Path.abspath (w_cwd w2) t = Some (NFile fd) →
  f_readable fd = true →
  (classify o t w2).1 = Done (Some t)
  ∧ ∃ w3, organize_one md5 o root2 file2 w2 = (Done tt, w3)
          ∧ w_fs w3 = w_fs w2
          ∧ organized_files (w_stats w3) = organized_files (w_stats w2)
          ∧ skipped_files (w_stats w3) = S (skipped_files (w_stats w2))
          ∧ ∃ l, w_events w3 = w_events w2 ++ l ∧ Forall is_log l.
Proof.
  intros Hs Hc Ht Hp Hj Hq Hr.
  assert (Path.basename t = Path.basename p) as Hb.
  { apply (classify_basename o p t w Hs). by rewrite Hc. }
  assert (∀ v, w_fs v = w_fs w2 → w_cwd v = w_cwd w2 →
               (classify o t v).1 = Done (Some t)) as Hfix.
  { intros v Hf Hw.
    rewrite (classify_same o p t w v fd Hs Hb Hp); [by rewrite Hc|].
    by rewrite Hf, Hw. }
  split; [by apply Hfix|].
  assert ((prepare_move md5 o root2 file2 w2).1 = Done None) as Hn.
  { rewrite prepare_move_unfold. cbv zeta. rewrite Hj.
    destruct (should_exclude o t); [done|].
    set (w0 := set_stats incr_total w2).
    assert (∃ v, hashed md5 o t w0 = Done v) as [v Hh].
    { unfold hashed. destruct (dry_run o); [by eexists|].
      unfold read_bytes. cbn [w_fs w_cwd set_stats w0]. rewrite Hq, Hr.
      by eexists. }
    rewrite Hh. apply hashed_frame in Hh as (F1 & F2 & _).
    specialize (Hfix v F1 F2). unfold prepare_tail. munfold.
    destruct (classify o t v) as [r v']. cbn [fst] in Hfix. subst r.
    rewrite Ht. cbn [negb]. change (default "" (Some t)) with t.
    by rewrite String.eqb_refl. }
  destruct (prepare_move md5 o root2 file2 w2) as [r w3] eqn:Hpm.
  cbn [fst] in Hn. subst r.
  exists w3. rewrite organize_one_unfold, Hpm.
  apply prepare_move_effect in Hpm as [_ Hfs _ _ _ Horg Hsk _ _ Hquiet].
  split_and!; [done | by apply Hfs | exact Horg | exact Hsk | by apply Hquiet].
Qed.
End SecondRun.

Definition first_fs : gmap string node :=
  {[ "/s" := NDir; "/s/a.py" := NFile (FData "x = 1" true true true) ]}.

Definition second_fs (project : bool) : gmap string node :=
  w_fs (organize_files (λ b, b) 4%nat
          (init "/" "/s" None None project None None false)
          (world0 first_fs "/")).2.

Lemma second_run_skips_witness :
  let o := init "/" "/s" None None false None None false in
  FS.is_file (second_fs false) "/s/Python/a.py" = true
  ∧ ∃ w3, organize_one (λ b, b) o "/s/Python" "a.py" (world0 (second_fs false) "/")
          = (Done tt, w3)
          ∧ w_fs w3 = second_fs false
          ∧ skipped_files (w_stats w3) = 1%nat.
Proof.
  intros o. split; [vm_compute; reflexivity|].
  destruct (second_run_skips (λ b, b) o "/s/a.py" "/s/Python/a.py"
              (world0 first_fs "/") (classify o "/s/a.py" (world0 first_fs "/")).2
              (FData "x = 1" true true true) "/s/Python" "a.py"
              (world0 (second_fs false) "/"))
    as (_ & w3 & H1 & H2 & _ & H4 & _);
    try (vm_compute; reflexivity).
  exists w3. split_and!; [exact H1 | exact H2 | exact H4].
Defined.

(** C2, in project mode: the second run moves the file that the first run
    has put into its category, into the same category below it. *)
Lemma project_mode_second_run_moves :
  let o := init "/" "/s" None None true None None false in
  let r := organize_files (λ b, b) 6%nat o (world0 (second_fs true) "/") in
  r.1 = Done tt
  ∧ FS.is_file (second_fs true) "/s/Python/a.py" = true
  ∧ FS.is_file (w_fs r.2) "/s/Python/a.py" = false
  ∧ FS.is_file (w_fs r.2) "/s/Python/Python/a.py" = true
  ∧ organized_files (w_stats r.2) = 1%nat
  ∧ Move "/s/Python/a.py" "/s/Python/Python/a.py" ∈ w_events r.2.
Proof.
  vm_compute. split_and!; try reflexivity.
  apply list_elem_of_In. vm_compute. tauto.
Qed.

(** ** What holds of every run, however it ends *)

Section EveryRun.
Variable md5 : string → string.

(** A relation that the log lines, the duplicate index and every step of
    the walk respect holds between the start and the end of a run. *)
Lemma organize_files_rel (o : organizer) (R : world → world → Prop)
    `{!Reflexive R, !Transitive R} :
  (∀ w w', logged w w' → R w w') →
  (∀ d w, R w (set_duplicates d w)) →
  (∀ root file w r w', organize_one md5 o root file w = (r, w') → R w w') →
  ∀ fuel w r w', organize_files md5 fuel o w = (r, w') → R w w'.
Proof.
  intros Hlog Hdup Hstep fuel w r w'. unfold organize_files. munfold.
  set (w0 := emit _ (emit _ w)).
  assert (logged w w0) as L0 by (etrans; apply logged_emit).
  assert (∀ d w1, R w w1 → os_walk w_fs fuel (organize_dir md5 o) (source_dir o)
                             (set_duplicates d w1) = (r, w') → R w w') as Hwalk.
  { intros d w1 H1 Hw. etrans; [exact H1|]. etrans; [apply (Hdup d)|].
    eapply (os_walk_rel w_fs R); [|exact Hw].
    intros root dirs files s r1 s'. unfold organize_dir. munfold.
    destruct (for_each (organize_one md5 o root) files s) as [r2 s2] eqn:Hf.
    assert (R s s2) as H2.
    { eapply (for_each_rel R); [|exact Hf]. intros x. apply Hstep. }
    destruct r2 as [[]| |]; by intros [= <- <-]. }
  destruct (dry_run o); cbn [negb].
  - apply Hwalk. by apply Hlog.
  - destruct (find_duplicate_files md5 fuel o w0) as [rd w1] eqn:Hd.
    apply find_duplicate_files_logged in Hd.
    assert (R w w1) as H1 by (apply Hlog; by etrans).
    destruct rd as [d| |]; [by apply Hwalk|by intros [= <- <-]..].
Qed.

(** *** The moves of a run *)

(** A move that a run may try: in a real run, of a file that is not
    excluded, to a destination that is not empty and is another path. *)
Definition move_ok (o : organizer) (e : event) : Prop :=
  match e with
  | Move p t =>
      dry_run o = false ∧ should_exclude o p = false
      ∧ t ≠ "" ∧ Path.normpath p ≠ Path.normpath t
  | OpenWrite _ => False
  | _ => True
  end.

Definition moves_ok (o : organizer) (w w' : world) : Prop :=
  ∃ l, w_events w' = w_events w ++ l ∧ Forall (move_ok o) l.

Global Instance moves_ok_refl (o : organizer) : Reflexive (moves_ok o).
Proof. intros w. exists []. by rewrite app_nil_r. Qed.

Global Instance moves_ok_trans (o : organizer) : Transitive (moves_ok o).
Proof.
  intros w1 w2 w3 (l1 & E1 & F1) (l2 & E2 & F2).
  exists (l1 ++ l2). split; [by rewrite E2, E1, app_assoc | by apply Forall_app].
Qed.

Lemma quiet_moves_ok (o : organizer) (l : list event) :
  Forall is_log_or_makedirs l → Forall (move_ok o) l.
Proof. intros H. eapply Forall_impl; [exact H|]. by intros []. Qed.

Lemma truthy_nonempty (t : string) : truthy (Some t) = true → t ≠ "".
Proof. cbn. by intros H%negb_true_iff%String.eqb_neq. Qed.

Lemma organize_one_moves_ok (o : organizer) (root file : string) (w : world) r w' :
  organize_one md5 o root file w = (r, w') → moves_ok o w w'.
Proof.
  rewrite organize_one_unfold.
  destruct (prepare_move md5 o root file w) as [r1 w1] eqn:Hp.
  pose proof (prepare_move_effect md5 _ _ _ _ _ _ Hp)
    as [_ _ _ _ _ _ _ _ (l & El & Fl) _].
  assert (moves_ok o w w1) as M1 by (exists l; split; [done | by apply quiet_moves_ok]).
  destruct r1 as [[t|]| |]; try (intros [= <- <-]; exact M1).
  apply prepare_move_inv in Hp. inversion Hp as [| | | | |
    |w2 t' w3 fs Hex Hh Hc Ht Hn Hd Hm]; subst.
  set (p := Path.join root [file]) in *.
  intros Hmv. etrans; [exact M1|].
  destruct (dry_run o) eqn:Hdry.
  - rewrite move_file_dry in Hmv by done. simplify_eq.
    eexists [_]. split; [done | by repeat constructor].
  - match type of Hmv with move_file _ _ _ ?v = _ => set (w4 := v) in * end.
    destruct (FS.move (w_fs w4) (Path.abspath (w_cwd w4) p)
                (Path.abspath (w_cwd w4) t)) as [fs'|] eqn:Hfm.
    + erewrite move_file_moved in Hmv by done. simplify_eq.
      eexists [_; _]. split; [cbn; by rewrite <- app_assoc|].
      repeat constructor; try done. by apply truthy_nonempty.
    + rewrite move_file_failed in Hmv by done. simplify_eq.
      eexists [_; _]. split; [cbn; by rewrite <- app_assoc|].
      repeat constructor; try done. by apply truthy_nonempty.
Qed.

Lemma run_moves_ok (o : organizer) (fuel : nat) (w : world) r w' :
  organize_files md5 fuel o w = (r, w') → moves_ok o w w'.
Proof.
  intros H. eapply (organize_files_rel o (moves_ok o)); [| | |exact H].
  - intros v v' [_ _ _ _ (l & E & F)]. exists l. split; [done|].
    eapply Forall_impl; [exact F|]. by intros [].
  - intros d v. exists []. by rewrite app_nil_r.
  - intros root file v r1 v'. apply organize_one_moves_ok.
Qed.


(** *** The files of a run *)

(** Every file of [fs'] is a file of [fs], maybe at another path, and
    every directory of [fs] is one of [fs']. *)
Definition from_before (fs fs' : gmap string node) : Prop :=
  (∀ k f, fs' !! k = Some (NFile f) → ∃ k', fs !! k' = Some (NFile f))
  ∧ (∀ k, fs !! k = Some NDir → fs' !! k = Some NDir).

Global Instance from_before_refl : Reflexive from_before.
Proof. intros fs. split; eauto. Qed.

Global Instance from_before_trans : Transitive from_before.
Proof.
  intros a b c [H1 D1] [H2 D2]. split.
  - intros k f Hk. apply H2 in Hk as [k' Hk']. by apply H1 in Hk'.
  - intros k Hk. by apply D2, D1.
Qed.



Definition files_from_before (w w' : world) : Prop :=
  from_before (w_fs w) (w_fs w').

Global Instance files_from_before_refl : Reflexive files_from_before.
Proof. intros w. unfold files_from_before. reflexivity. Qed.

Global Instance files_from_before_trans : Transitive files_from_before.
Proof. intros a b c. unfold files_from_before. apply from_before_trans. Qed.


End EveryRun.



(** ** The counters of a run that an exception ends *)

Section Outcomes.
Context {St : Type}.
Variables R Q : St → St → Prop.
Context `{!Reflexive R, !Transitive R}.
Hypothesis RQ : ∀ a b c, R a b → Q b c → Q a c.

(** [Q] from the start to the end of what an exception has ended, [R]
    else. *)
Definition by_outcome {A} (s : St) (x : outcome A * St) : Prop :=
  match x.1 with
  | Raised _ => Q s x.2
  | _ => R s x.2
  end.

Lemma for_each_by_outcome {A} (f : A → M St unit) :
  (∀ x s, by_outcome s (f x s)) →
  ∀ l s, by_outcome s (for_each f l s).
Proof using RQ Reflexive0 Transitive0.
  intros Hf. induction l as [|x l IH]; intros s; cbn [for_each].
  - unfold by_outcome. cbn. reflexivity.
  - munfold. pose proof (Hf x s) as Hx. unfold by_outcome in *.
    destruct (f x s) as [[[]|e|] s1]; cbn [fst snd] in *; try done.
    specialize (IH s1). destruct (for_each f l s1) as [[[]|e|] s2];
      cbn [fst snd] in *; eauto.
Qed.

Context (fs_of : St → gmap string node).

Lemma os_walk_by_outcome
    (body : string → list string → list string → M St (list string)) :
  (∀ root dirs files s, by_outcome s (body root dirs files s)) →
  ∀ fuel top s, by_outcome s (os_walk fs_of fuel body top s).
Proof using RQ Reflexive0 Transitive0.
  intros Hb. induction fuel as [|n IH]; intros top s; cbn [os_walk].
  - unfold by_outcome. cbn. reflexivity.
  - destruct (FS.scandir (fs_of s) top) as [[dirs files]|].
    2: { unfold by_outcome. cbn. reflexivity. }
    munfold. pose proof (Hb top dirs files s) as Hx. unfold by_outcome in Hx.
    destruct (body top dirs files s) as [[dirs'|e|] s1]; cbn [fst snd] in *;
      try done.
    pose proof (for_each_by_outcome
                  (λ d, os_walk fs_of n body (Path.join top [d]))
                  (λ x s0, IH _ s0) dirs' s1) as Hw.
    unfold by_outcome in *.
    destruct (for_each _ dirs' s1) as [[[]|e|] s2]; cbn [fst snd] in *; eauto.
Qed.
End Outcomes.

(** One more file counted in the total than in organised and skipped
    together ([n] is 1), or as many ([n] is 0). *)
Definition counted (n : nat) (w w' : world) : Prop :=
  (total_files (w_stats w') + organized_files (w_stats w) + skipped_files (w_stats w)
   = n + total_files (w_stats w) + organized_files (w_stats w')
     + skipped_files (w_stats w'))%nat.

Global Instance counted_refl : Reflexive (counted 0).
Proof. intros w. unfold counted. lia. Qed.

Global Instance counted_trans : Transitive (counted 0).
Proof. intros a b c. unfold counted. lia. Qed.

Lemma counted_then (a b c : world) : counted 0 a b → counted 1 b c → counted 1 a c.
Proof. unfold counted. lia. Qed.

Section AbortedRun.
Variable md5 : string → string.

Lemma move_file_counted (o : organizer) (p t : string) (w : world) :
  ∃ w', move_file o p t w = (Done tt, w')
        ∧ (total_files (w_stats w') = total_files (w_stats w))
        ∧ (organized_files (w_stats w') + skipped_files (w_stats w')
           = S (organized_files (w_stats w) + skipped_files (w_stats w)))%nat.
Proof.
  destruct (dry_run o) eqn:Hdry.
  - rewrite move_file_dry by done. eexists. split; [done|]. cbn. lia.
  - destruct (FS.move (w_fs (emit (Move p t) w))
                (Path.abspath (w_cwd (emit (Move p t) w)) p)
                (Path.abspath (w_cwd (emit (Move p t) w)) t)) as [fs|] eqn:Hm.
    + erewrite move_file_moved by done. eexists. split; [done|]. cbn. lia.
    + rewrite move_file_failed by done. eexists. split; [done|]. cbn. lia.
Qed.

Lemma organize_one_by_outcome (o : organizer) (root file : string) (w : world) :
  by_outcome (counted 0) (counted 1) w (organize_one md5 o root file w).
Proof.
  rewrite organize_one_unfold.
  destruct (prepare_move md5 o root file w) as [r1 w1] eqn:Hp.
  pose proof (prepare_move_effect md5 _ _ _ _ _ _ Hp)
    as [_ _ _ _ Ht Ho Hs _ _ _].
  apply prepare_move_inv in Hp. unfold by_outcome, counted.
  destruct r1 as [[t|]|e|]; cbn [fst snd].
  - destruct (move_file_counted o (Path.join root [file]) t w1) as (w' & -> & E1 & E2).
    cbn [fst snd]. lia.
  - lia.
  - lia.
  - inversion Hp.
Qed.

Lemma scan_file_by_outcome (o : organizer) (root file : string) (s : scan_state) :
  by_outcome scan_logged (λ _ _, False) s (scan_file md5 o root file s).
Proof.
  unfold by_outcome. pose proof (scan_file_logged md5 o root file s) as H.
  rewrite scan_file_cases in *. cbn [fst snd]. by eapply H.
Qed.

(** The duplicate scan ends with an index or, in the model, when the fuel
    is used up: no exception leaves it. *)
Lemma find_duplicate_files_no_raise (fuel : nat) (o : organizer) (w : world) e w' :
  find_duplicate_files md5 fuel o w ≠ (Raised e, w').
Proof.
  unfold find_duplicate_files.
  set (w0 := emit (Log INFO "Scanning for duplicate files...") w).
  assert (∀ (root : string) (dirs files : list string) (s : scan_state),
            by_outcome scan_logged (λ _ _, False) s
              ((for_each (scan_file md5 o root) files ≫= λ _, mret dirs) s
               : outcome (list string) * scan_state))
    as Hbody.
  { intros root dirs files s. munfold.
    pose proof (for_each_by_outcome scan_logged (λ _ _, False) (λ a b c _ F, F)
                  (scan_file md5 o root) (scan_file_by_outcome o root) files s)
      as Hf.
    unfold by_outcome in *.
    by destruct (for_each (scan_file md5 o root) files s) as [[[]| |] s1]. }
  pose proof (os_walk_by_outcome scan_logged (λ _ _, False)
                (λ a b c _ F, F) (λ s : scan_state, w_fs s.1) _ Hbody
                fuel (source_dir o) (w0, ∅)) as H.
  unfold by_outcome in H.
  match goal with |- context [os_walk ?a ?b ?c ?d ?e] =>
    destruct (os_walk a b c d e) as [[| |] [w1 m1]]; try done end.
Qed.

(** When an exception of the scan or of the walk ends a run of
    [organize_files] that has started with the total equal to organised
    plus skipped, the total is one more than organised plus skipped: the
    file at which the run has stopped is counted as seen and as nothing
    else.  A run that is not ended by an exception keeps the total equal
    to the sum. *)
Theorem aborted_run_counts (o : organizer) (fuel : nat) (w : world) r w' :
  organize_files md5 fuel o w = (r, w') →
  balanced (w_stats w) →
  match r with
  | Raised _ =>
      total_files (w_stats w')
      = S (organized_files (w_stats w') + skipped_files (w_stats w'))
  | _ => balanced (w_stats w')
  end.
Proof.
  intros H Hb.
  assert (by_outcome (counted 0) (counted 1) w (r, w')) as Hc.
  { rewrite <- H. unfold organize_files. munfold.
    set (w0 := emit _ (emit _ w)).
    assert (∀ d w1, w_stats w1 = w_stats w →
      by_outcome (counted 0) (counted 1) w
        (os_walk w_fs fuel (organize_dir md5 o) (source_dir o)
           (set_duplicates d w1))) as Hwalk.
    { intros d w1 Hst.
      assert (∀ root dirs files s,
                by_outcome (counted 0) (counted 1) s
                  (organize_dir md5 o root dirs files s)) as Hbody.
      { intros root dirs files s. unfold organize_dir. munfold.
        pose proof (for_each_by_outcome (counted 0) (counted 1) counted_then
                      (organize_one md5 o root) (organize_one_by_outcome o root)
                      files s) as Hf.
        unfold by_outcome in *.
        by destruct (for_each (organize_one md5 o root) files s) as [[[]| |] s1]. }
      pose proof (os_walk_by_outcome (counted 0) (counted 1) counted_then w_fs
                    (organize_dir md5 o) Hbody fuel (source_dir o)
                    (set_duplicates d w1)) as Hw.
      unfold by_outcome, counted in *. cbn [w_stats set_duplicates] in Hw.
      rewrite Hst in Hw. exact Hw. }
    destruct (dry_run o); cbn [negb].
    - by apply Hwalk.
    - destruct (find_duplicate_files md5 fuel o w0) as [rd w1] eqn:Hd.
      pose proof (find_duplicate_files_logged md5 _ _ _ _ _ Hd) as [_ _ Hst _ _].
      destruct rd as [d|e|].
      + by apply Hwalk.
      + by apply find_duplicate_files_no_raise in Hd.
      + unfold by_outcome, counted. cbn [fst snd]. rewrite Hst. cbn. lia. }
  unfold by_outcome, counted, balanced in *. cbn [fst snd] in Hc.
  destruct r; lia.
Qed.
End AbortedRun.

Definition unreadable_fs : gmap string node :=
  {[ "/s" := NDir;
     "/s/a.py" := NFile (FData "x = 1" true true true);
     "/s/b.py" := NFile (FData "y" true false true);
     "/s/c.py" := NFile (FData "z" true true true) ]}.

Lemma aborted_run_counts_witness :
  let o := init "/" "/s" None None false None None false in
  let r := organize_files (λ b, b) 5%nat o (world0 unreadable_fs "/") in
  r.1 = Raised OSError
  ∧ total_files (w_stats r.2)
    = S (organized_files (w_stats r.2) + skipped_files (w_stats r.2)).
Proof.
  intros o r. assert (r.1 = Raised OSError) as Hr by (vm_compute; reflexivity).
  split; [exact Hr|].
  pose proof (aborted_run_counts (λ b, b) o 5%nat (world0 unreadable_fs "/")
                r.1 r.2 (surjective_pairing _)) as H.
  rewrite Hr in H. apply H. vm_compute. reflexivity.
Defined.

(** ** The groups of the duplicate index *)

Section Groups.
Variable md5 : string → string.

Lemma find_duplicate_files_index (o : organizer) (w : world) (fuel : nat) :
  (size (w_fs w) < fuel)%nat →
  ∃ index w',
    find_duplicate_files md5 fuel o w = (Done index, w')
    ∧ ∀ h l, index !! h = Some l ↔
             l = filter (λ p, hash_key md5 o w p = Some h)
                   (walk_files fuel (w_fs w) (source_dir o))
             ∧ (2 ≤ length l)%nat.
Proof.
  intros Hfuel. set (files := walk_files fuel (w_fs w) (source_dir o)).
  pose proof (find_duplicate_files_exact md5 fuel o w
                (walk_ok_size _ _ _ Hfuel)) as Hx.
  cbv zeta in Hx. fold files in Hx.
  set (w0 := emit (Log INFO "Scanning for duplicate files...") w) in *.
  set (s := foldl (scan_step md5 o) (w0, ∅) files) in *.
  eexists _, _. split; [exact Hx|].
  intros h l. rewrite map_lookup_filter_Some. cbn [snd].
  unfold s. rewrite scan_fold_groups. cbn [fst snd].
  rewrite lookup_empty.
  assert (filter (λ p, hash_key md5 o w0 p = Some h) files
          = filter (λ p, hash_key md5 o w p = Some h) files) as ->.
  { apply list_filter_iff. intros q.
    by rewrite (hash_key_ext md5 o w w0) by apply logged_emit. }
  destruct (filter _ files) as [|x g] eqn:E.
  - split; [by intros [? _] | intros [-> ?]; cbn in *; lia].
  - cbn [default app]. split.
    + intros [[= <-] ?]. split; [done | lia].
    + intros [-> ?]. split; [done | lia].
Qed.

(** With fuel for the whole tree, the index that [find_duplicate_files]
    returns is a partition of duplicates: a group lists no path twice;
    each of its members lies below the source directory, is not excluded,
    and can be read, and the hash of its bytes is the key of the group; no
    path is in two groups. *)
Theorem duplicate_groups_partition (o : organizer) (w : world) (fuel : nat) :
  (size (w_fs w) < fuel)%nat →
  ∃ index w',
    find_duplicate_files md5 fuel o w = (Done index, w')
    ∧ (∀ h l, index !! h = Some l →
              NoDup l ∧ (2 ≤ length l)%nat
              ∧ ∀ p, p ∈ l →
                     (∃ r, p = FS.with_sep (source_dir o) +:+ r ∧ r ≠ "")
                     ∧ should_exclude o p = false
                     ∧ ∃ b, read_bytes w p = Done b ∧ md5 b = h)
    ∧ (∀ h h' l l' p, index !! h = Some l → index !! h' = Some l' →
                      p ∈ l → p ∈ l' → h = h').
Proof.
  intros Hfuel.
  destruct (find_duplicate_files_index o w fuel Hfuel) as (index & w' & Hx & Hg).
  assert (∀ h l p, index !! h = Some l → p ∈ l →
                   p ∈ walk_files fuel (w_fs w) (source_dir o)
                   ∧ hash_key md5 o w p = Some h) as Hmem.
  { intros h l p [-> _]%Hg [Hk Hp]%list_elem_of_filter. done. }
  exists index, w'. split; [exact Hx|]. split.
  - intros h l Hl. pose proof Hl as [-> H2]%Hg. split_and!; [|done|].
    + apply NoDup_filter, NoDup_walk_files.
    + intros p Hp. destruct (Hmem h _ p Hl Hp) as [Hw Hk]. split_and!.
      * by eapply walk_files_prefix.
      * unfold hash_key in Hk. by destruct (should_exclude o p).
      * unfold hash_key in Hk. destruct (should_exclude o p); [done|].
        destruct (read_bytes w p) as [b| |]; [|done..].
        exists b. split; [done | congruence].
  - intros h h' l l' p Hl Hl' Hp Hp'.
    destruct (Hmem h l p Hl Hp) as [_ Hk], (Hmem h' l' p Hl' Hp') as [_ Hk'].
    congruence.
Qed.
End Groups.

Lemma duplicate_groups_partition_witness :
  let o := init "/" "/s" None None false None None false in
  ∃ index w',
    find_duplicate_files (λ b, b) 7 o (world0 twins_fs "/") = (Done index, w')
    ∧ ∀ h l, index !! h = Some l → NoDup l ∧ (2 ≤ length l)%nat.
Proof.
  intros o.
  destruct (duplicate_groups_partition (λ b, b) o (world0 twins_fs "/") 7
              ltac:(vm_compute; lia))
    as (index & w' & Hx & Hg & _).
  exists index, w'. split; [exact Hx|].
  intros h l Hl. destruct (Hg h l Hl) as (H1 & H2 & _). by split.
Defined.

(** ** Extensions, mapping keys and configuration names *)

Lemma lower_char_idem (c : ascii) : Py.lower_char (Py.lower_char c) = Py.lower_char c.
Proof. destruct c as [[] [] [] [] [] [] [] []]; reflexivity. Qed.

Lemma lower_idem (s : string) : Py.lower (Py.lower s) = Py.lower s.
Proof.
  induction s as [|c s IH]; [done|]. cbn [Py.lower].
  by rewrite lower_char_idem, IH.
Qed.

Lemma lower_app (a b : string) : Py.lower (a +:+ b) = Py.lower a +:+ Py.lower b.
Proof.
  induction a as [|c a IH]; [by rewrite !sapp_nil_l|].
  rewrite sapp_cons. cbn [Py.lower]. by rewrite IH, sapp_cons.
Qed.

Lemma extension_lower (p : string) : Py.lower (extension p) = extension p.
Proof.
  unfold extension. destruct (String.eqb _ _); [done|]. apply lower_idem.
Qed.

(** A non-empty extension is what follows the last dot of the name, in
    lower case. *)
Lemma extension_decomp (p : string) :
  extension p ≠ "" →
  ∃ h t, Path.basename p = h +:+ String "." t ∧ extension p = Py.lower t.
Proof.
  unfold extension. rewrite splitext_basename.
  destruct (basename_decomp p) as [Hb _]. revert Hb.
  generalize (Path.basename p) as b. intros b Hb. unfold no_sep in Hb.
  unfold Path.splitext. rewrite Hb.
  destruct (_ && _) eqn:Hc; cbn [snd]; [|done].
  apply andb_true_iff in Hc as [Hd _]. apply Z.ltb_lt in Hd.
  destruct (rfind_split Path.extsep b ltac:(lia)) as (h & t & Hs & _ & Hl).
  rewrite Hl. unfold Py.slice_from. rewrite Nat2Z.id.
  subst b. rewrite drop_app.
  change (String.eqb (String Path.extsep t) "") with false. cbn iota.
  intros _. by exists h, t.
Qed.

Lemma extension_ends_ci (p e : string) :
  extension p = e → e ≠ "" → ends_ci (String "." e) (Path.basename p) = true.
Proof.
  intros He Hne. destruct (extension_decomp p) as (h & t & Hb & Ht); [congruence|].
  unfold ends_ci. rewrite Hb, lower_app. cbn [Py.lower].
  change (Py.lower_char ".") with "."%char.
  rewrite <- Ht, He. apply endswith_app.
Qed.

(** The organizer with another mapping table. *)
Definition with_mappings (m : gmap string string) (o : organizer) : organizer :=
  {| source_dir := source_dir o; target_dir := target_dir o;
     mappings := m; project_mode := project_mode o;
     exclude_dirs := exclude_dirs o; exclude_files := exclude_files o;
     dry_run := dry_run o |}.

(** [get_target_path] looks the extension up in lower case: an entry of the
    mapping table whose key has an upper-case letter is never used, and the
    table without it gives every file the same destination and the same
    record of unknown extensions. *)
Theorem upper_case_mapping_key_is_dead (o : organizer) (k : string)
    (file_path : string) (w : world) :
  Py.lower k ≠ k →
  get_target_path (with_mappings (delete k (mappings o)) o) file_path w
  = get_target_path o file_path w.
Proof.
  intros Hk. unfold get_target_path.
  destruct (String.eqb _ _); [done|].
  cbn [mappings with_mappings].
  rewrite lookup_delete_ne; [done|].
  intros ->. by apply Hk, extension_lower.
Qed.

Lemma upper_case_mapping_key_is_dead_witness :
  let o := init "/" "/s" None (Some {[ "PY" := "Snakes"; "py" := "Python" ]})
             false None None false in
  get_target_path o "/s/A.PY" (world0 ∅ "/")
  = (Done (Some "/s/Python/A.PY"), world0 ∅ "/").
Proof.
  intros o.
  rewrite <- (upper_case_mapping_key_is_dead o "PY" "/s/A.PY" (world0 ∅ "/"))
    by (vm_compute; discriminate).
  vm_compute. reflexivity.
Defined.

(** *** The extensions that the configuration names take over *)

Lemma m_lit_mono (ic : bool) (x : string) (prev : option ascii) (s : string)
    (k1 k2 : cont) :
  (∀ p t, k1 p t = true → k2 p t = true) →
  Re.m ic (lit x) prev s k1 = true → Re.m ic (lit x) prev s k2 = true.
Proof.
  intros Hk. revert prev s. induction x as [|c x IH]; intros prev s; cbn [lit Re.m].
  - apply Hk.
  - destruct s as [|a s]; [done|].
    intros [H1 H2]%andb_true_iff. rewrite H1. cbn [andb]. by apply IH.
Qed.

Lemma search_from_mono (ic : bool) (r1 r2 : re) :
  (∀ prev s, Re.m ic r1 prev s accept = true → Re.m ic r2 prev s accept = true) →
  ∀ prev s, Re.search_from ic r1 prev s = true → Re.search_from ic r2 prev s = true.
Proof.
  intros H prev s. revert prev. induction s as [|c s IH]; intros prev;
    cbn [Re.search_from].
  - rewrite !orb_false_r. apply H.
  - intros [H1|H1]%orb_true_iff; apply orb_true_iff; [left; by apply H|right; by apply IH].
Qed.

(** [x(\.\w+)?$] matches where [x$] does. *)
Lemma search_opt_eol (x s : string) :
  Re.search true (Seq (lit x) Eol) s = true →
  Re.search true (Seq (lit x) (Seq (Opt dot_word) Eol)) s = true.
Proof.
  unfold Re.search. apply search_from_mono. intros prev t. cbn [Re.m].
  apply m_lit_mono. intros p u H. apply orb_true_iff. by right.
Qed.

Lemma ends_ci_search (suf name : string) :
  Py.lower suf = suf → ends_ci suf name = true →
  Re.search true (Seq (lit suf) Eol) name = true.
Proof.
  intros Hl He. rewrite search_lit_eol by done.
  unfold ends_ci in He. by rewrite He.
Qed.

(** The extensions whose files [is_config_file] takes before the mapping
    table is looked at. *)
Definition config_extensions : list string :=
  ["yaml"; "yml"; "toml"; "ini"; "conf"; "env"].

Lemma config_extension_is_config_file (p : string) :
  Py.in_list (extension p) config_extensions = true →
  is_config_file (Path.basename p) = true.
Proof.
  intros Hin%in_list_true. unfold is_config_file.
  cbn [existsb config_patterns].
  assert (∀ e, extension p = e → e ≠ "" → Py.lower (String "." e) = String "." e →
               Re.search true (Seq (lit (String "." e)) Eol) (Path.basename p) = true)
    as Hs.
  { intros e He Hne Hl. apply ends_ci_search; [done|]. by apply extension_ends_ci. }
  unfold config_extensions in Hin.
  repeat (apply elem_of_cons in Hin as [Hin|Hin]); [..|by apply elem_of_nil in Hin].
  - (* yaml *)
    change (Seq (lit ".y") (Seq (Opt (Chr "a")) (Seq (lit "ml") Eol))) with re_yaml.
    rewrite search_yaml, (Hs "yaml" Hin) by done. by rewrite !orb_true_r.
  - change (Seq (lit ".y") (Seq (Opt (Chr "a")) (Seq (lit "ml") Eol))) with re_yaml.
    rewrite search_yaml, (Hs "yml" Hin) by done. by rewrite !orb_true_r.
  - rewrite (Hs "toml" Hin) by done. by rewrite !orb_true_r.
  - rewrite (Hs "ini" Hin) by done. by rewrite !orb_true_r.
  - rewrite (Hs "conf" Hin) by done. by rewrite !orb_true_r.
  - rewrite (search_opt_eol ".env"); [by rewrite !orb_true_r|]. by apply Hs.
Qed.

(** A file with the extension yaml, yml, toml, ini, conf or env, in any
    letter case, is placed as a configuration file,
    [target/Config/<subtype>/name], in either mode and whatever the mapping
    table says of the extension: its entry there is never used. *)
Theorem config_extension_beats_mapping (o : organizer) (file_path : string)
    (w : world) :
  Py.in_list (extension file_path) config_extensions = true →
  classify o file_path w
  = (Done (Some (Path.join (target_dir o)
                   ["Config"; get_config_type (Path.basename file_path);
                    Path.basename file_path])), w).
Proof.
  intros Hin. pose proof (config_extension_is_config_file _ Hin) as Hc.
  unfold classify, smart_categorize_file. munfold. rewrite Hc.
  rewrite join_join. cbn [app].
  assert (Path.basename file_path ≠ "") as Hb.
  { destruct (extension_decomp file_path) as (h & t & -> & _).
    - intros He. rewrite He in Hin. discriminate.
    - by destruct h. }
  assert (truthy (Some (Path.join (target_dir o)
            ["Config"; get_config_type (Path.basename file_path);
             Path.basename file_path])) = true) as ->; [|done].
  cbn [truthy]. apply negb_true_iff, String.eqb_neq.
  change [_; _; Path.basename file_path]
    with (["Config"; get_config_type (Path.basename file_path)]
          ++ [Path.basename file_path]).
  rewrite join_snoc. by apply join2_nonempty_r.
Qed.

Lemma config_extension_beats_mapping_witness :
  let o := init "/" "/s" None None true None None false in
  mappings o !! "yml" = Some "Data/YAML"
  ∧ classify o "/s/sub/Build.YML" (world0 ∅ "/")
    = (Done (Some "/s/Config/YAML/Build.YML"), world0 ∅ "/").
Proof.
  intros o. split; [vm_compute; reflexivity|].
  rewrite (config_extension_beats_mapping o "/s/sub/Build.YML" (world0 ∅ "/"))
    by (vm_compute; reflexivity).
  vm_compute. reflexivity.
Defined.

(** *** Two files of one name *)

(** In standard mode the destination is a matter of the name and the
    content: two files at different places with the same name and the same
    content are sent to one and the same destination, so that in a real run
    the move of the second meets the first. *)
Theorem standard_mode_same_destination (o : organizer) (p q : string)
    (w : world) (fd : fdata) :
  project_mode o = false →
  Path.basename q = Path.basename p →
  w_fs w !! Path.abspath (w_cwd w) p = Some (NFile fd) →
  w_fs w !! Path.abspath (w_cwd w) q = Some (NFile fd) →
  (classify o q w).1 = (classify o p w).1
  ∧ ∀ t, (classify o p w).1 = Done (Some t) →
         Path.basename t = Path.basename p.
Proof.
  intros Hs Hb Hp Hq. split.
  - by apply (classify_same o p q w w fd).
  - intros t. by apply classify_basename.
Qed.

Definition namesakes_fs : gmap string node :=
  {[ "/s" := NDir; "/s/x" := NDir; "/s/y" := NDir;
     "/s/x/a.py" := NFile (FData "v = 1" true true true);
     "/s/y/a.py" := NFile (FData "v = 1" true true true) ]}.

Lemma standard_mode_same_destination_witness :
  let o := init "/" "/s" None None false None None false in
  let w := world0 namesakes_fs "/" in
  (classify o "/s/y/a.py" w).1 = Done (Some "/s/Python/a.py")
  ∧ (classify o "/s/x/a.py" w).1 = Done (Some "/s/Python/a.py").
Proof.
  intros o w.
  destruct (standard_mode_same_destination o "/s/x/a.py" "/s/y/a.py" w
              (FData "v = 1" true true true)) as [H _];
    try (vm_compute; reflexivity).
  rewrite H. split; vm_compute; reflexivity.
Defined.

(** ** A file that cannot be read *)

Lemma read_bytes_raises (w : world) (p : string) :
  (∀ b, read_bytes w p ≠ Done b) → read_bytes w p = Raised OSError.
Proof.
  unfold read_bytes. destruct (w_fs w !! _) as [[f|]|]; [|done..].
  destruct (f_readable f); [|done]. intros H. by destruct (H (f_bytes f)).
Qed.

Section Unreadable.
Variable md5 : string → string.

(** What the duplicate scan puts up with ends the walk of a real run: at a
    file that is not excluded and cannot be read, [scan_file] logs the
    failure and goes on, while the walk, which hashes the file outside any
    [try], stops with the [OSError] once it has counted the file as seen;
    the files after it in the directory are not looked at. *)
Theorem unreadable_file_ends_real_run (o : organizer) (root file : string)
    (rest : list string) (w : world) (s : scan_state) :
  dry_run o = false →
  should_exclude o (Path.join root [file]) = false →
  (∀ b, read_bytes w (Path.join root [file]) ≠ Done b) →
  w_fs s.1 = w_fs w → w_cwd s.1 = w_cwd w →
  for_each (organize_one md5 o root) (file :: rest) w
  = (Raised OSError, set_stats incr_total w)
  ∧ scan_file md5 o root file s
    = (Done tt,
       (emit (Log ERROR ("Error hashing file " +:+ Path.join root [file])) s.1,
        s.2)).
Proof.
  intros Hdry Hex Hr Hfs Hcwd. apply read_bytes_raises in Hr. split.
  - cbn [for_each]. munfold.
    rewrite organize_one_unfold, prepare_move_unfold. cbv zeta.
    rewrite Hex. unfold hashed. rewrite Hdry.
    rewrite (read_bytes_ext w (set_stats incr_total w)) by done.
    by rewrite Hr.
  - rewrite scan_file_cases. cbv zeta. rewrite Hex.
    rewrite (read_bytes_ext w s.1) by done. by rewrite Hr.
Qed.
End Unreadable.

Lemma unreadable_file_ends_real_run_witness :
  let o := init "/" "/s" None None false None None false in
  let w := world0 unreadable_fs "/" in
  for_each (organize_one (λ b, b) o "/s") ["b.py"; "c.py"] w
  = (Raised OSError, set_stats incr_total w)
  ∧ (scan_file (λ b, b) o "/s" "b.py" (w, ∅)).1 = Done tt.
Proof.
  intros o w.
  destruct (unreadable_file_ends_real_run (λ b, b) o "/s" "b.py" ["c.py"] w (w, ∅))
    as [H1 H2]; try (vm_compute; reflexivity).
  - intros b. vm_compute. discriminate.
  - split; [exact H1|]. by rewrite H2.
Defined.

(** ** The constructor *)

Lemma normpath_abs (p : string) :
  Py.startswith "/" p = true → Py.startswith "/" (Path.normpath p) = true.
Proof.
  intros Hp. unfold Path.normpath. rewrite Hp.
  destruct p as [|c p]; [done|]. cbn [String.eqb].
  destruct (_ && _); cbn [replicate String.concat].
  - rewrite !sapp_nil_l || idtac. by cbn.
  - by cbn.
Qed.

Lemma abspath_abs (cwd p : string) :
  Path.isabs cwd = true → Path.isabs (Path.abspath cwd p) = true.
Proof.
  intros Hc. unfold Path.abspath, Path.isabs in *.
  destruct (Py.startswith "/" p) eqn:Hp.
  - by apply normpath_abs.
  - apply normpath_abs. unfold Path.join. cbn [foldl]. by apply join2_abs.
Qed.

(** [__init__] makes both directories absolute when the working directory
    is; a target that is absent or empty is the source; and an exclusion
    list or a mapping table that is absent or empty is replaced by the
    default one, so that neither can be set to empty. *)
Theorem init_defaults (cwd source : string) (target : option string)
    (maps : option (gmap string string)) (project : bool)
    (ex_dirs ex_files : option (list string)) (dry : bool) :
  Path.isabs cwd = true →
  let o := init cwd source target maps project ex_dirs ex_files dry in
  Path.isabs (source_dir o) = true
  ∧ Path.isabs (target_dir o) = true
  ∧ (target = None ∨ target = Some "" → target_dir o = source_dir o)
  ∧ (ex_dirs = None ∨ ex_dirs = Some [] → exclude_dirs o = DEFAULT_EXCLUDE_DIRS)
  ∧ (ex_files = None ∨ ex_files = Some [] → exclude_files o = DEFAULT_EXCLUDE_FILES)
  ∧ (maps = None ∨ maps = Some ∅ → mappings o = DEFAULT_MAPPINGS).
Proof.
  intros Hc o. unfold o, init. cbn [source_dir target_dir exclude_dirs
    exclude_files mappings]. split_and!.
  - by apply abspath_abs.
  - destruct target as [t|]; [|by apply abspath_abs].
    destruct (String.eqb t ""); by apply abspath_abs.
  - by intros [->| ->].
  - by intros [->| ->].
  - by intros [->| ->].
  - intros [->| ->]; [done|]. unfold or_default. by rewrite bool_decide_eq_true_2.
Qed.

Lemma init_defaults_witness :
  let o := init "/home/u" "proj" (Some "") None false (Some []) None false in
  source_dir o = "/home/u/proj" ∧ target_dir o = "/home/u/proj"
  ∧ exclude_dirs o = DEFAULT_EXCLUDE_DIRS.
Proof.
  intros o.
  destruct (init_defaults "/home/u" "proj" (Some "") None false (Some []) None false
              eq_refl) as (_ & _ & H3 & H4 & _).
  split_and!.
  - vm_compute. reflexivity.
  - etrans; [apply H3; by right|]. vm_compute. reflexivity.
  - apply H4. by right.
Defined.

(** ** The command line *)

(** The namespace that [parser.parse_args()] returns. *)
Record args : Type := Args {
  a_source_dir : option string;        (* absent: [os.getcwd()] *)
  a_target_dir : option string;
  a_project_mode : bool;
  a_dry_run : bool;
  a_save_config : bool;
  a_load_config : bool;
  a_config_file : string;
  a_report : bool;
  a_report_file : string;
  a_no_smart : bool;
  a_no_duplicates : bool;
  a_exclude_dir : option (list string);
  a_exclude_file : option (list string);
  a_verbose : bool;
}.

Definition MAIN_EXCLUDE_FILES : list string :=
  ["file_organizer.py"; "file_organizer_config.json"; "organize.py"].

(** The organizer that [main] makes (lines 537-559); [loaded] is what
    [FileOrganizer.load_config] has returned, when it is called. *)
Definition main_organizer (cwd : string) (a : args) (loaded : option organizer)
    : organizer :=
  let source := default cwd (a_source_dir a) in
  if a_load_config a then
    match loaded with
    | Some organizer => organizer
    | None =>
        init cwd source (a_target_dir a) None (a_project_mode a) None None
          (a_dry_run a)
    end
  else
    let exclude_dirs := DEFAULT_EXCLUDE_DIRS ++ default [] (a_exclude_dir a) in
    let exclude_files := MAIN_EXCLUDE_FILES ++ default [] (a_exclude_file a) in
    init cwd source (a_target_dir a) None (a_project_mode a)
      (Some exclude_dirs) (Some exclude_files) (a_dry_run a).

(** The order of [sorted] on strings. *)
Definition str_le (x y : string) : Prop := Is_true (String.leb x y).

Global Instance str_le_dec (x y : string) : Decision (str_le x y).
Proof. unfold str_le. apply _. Defined.

(** [FileOrganizer.print_stats]; the lines on the project type, which only
    [detect_project_structure] sets, and on the execution time are left
    out. *)
Definition print_stats : M world unit :=
  st ← gets w_stats;
  log INFO (String Re.nl "--- File Organization Statistics ---");;
  log INFO ("Total files scanned: " +:+ pretty (total_files st));;
  log INFO ("Files organized: " +:+ pretty (organized_files st));;
  log INFO ("Files skipped: " +:+ pretty (skipped_files st));;
  match duplicate_files st with
  | Some n => log INFO ("Duplicate files found: " +:+ pretty n)
  | None => mret tt
  end;;
  (if bool_decide (unknown_extensions st = ∅) then mret tt
   else log INFO ("Unknown extensions: "
                  +:+ Py.join_with ", "
                        (merge_sort str_le (elements (unknown_extensions st)))));;
  log INFO "----------------------------------".

(** The [try] block of [main] (lines 574-590) and what follows it: the exit
    status of the process.  The text of the exception in the error line and
    the traceback at debug level are left out. *)
Definition main_execute (md5 : string → string) (fuel : nat) (a : args)
    (o : organizer) : M world Z := λ w,
  match (organize_files md5 fuel o;;
         print_stats;;
         if a_report a && negb (a_dry_run a)
         then generate_report o (a_report_file a)
         else mret tt) w with
  | (Done _, w') =>
      (Done 0, emit (Log INFO "Organization completed successfully") w')
  | (Raised e, w') =>
      (Done 1, emit (Log ERROR "An error occurred during organization: ") w')
  | (OutOfFuel, w') => (OutOfFuel, w')
  end.

Lemma print_stats_logged (w : world) :
  ∃ w', print_stats w = (Done tt, w') ∧ logged w w'.
Proof.
  unfold print_stats. munfold.
  destruct (duplicate_files (w_stats w)), (bool_decide _);
    (eexists; split; [reflexivity|]);
    repeat (etrans; [|apply logged_emit]); reflexivity.
Qed.

Section Main.
Variable md5 : string → string.

(** Asked for a report in a real run, [main] never ends with status 0:
    [generate_report] raises while it writes the statistics, whose
    unknown extensions are a set, and the handler of [main] turns that
    into status 1.  So a run that has organised everything ends as a
    failure, with the counters of the organisation as they were and the
    report file opened for writing. *)
Theorem report_ends_in_failure (fuel : nat) (a : args) (o : organizer)
    (w : world) r w' :
  a_report a = true → a_dry_run a = false → dry_run o = false →
  main_execute md5 fuel a o w = (r, w') →
  r ≠ Done 0
  ∧ ∀ w1, organize_files md5 fuel o w = (Done tt, w1) →
          r = Done 1
          ∧ w_stats w' = w_stats w1
          ∧ OpenWrite (Path.join (target_dir o) [a_report_file a]) ∈ w_events w'.
Proof.
  intros Hrep Hdry Ho. unfold main_execute. munfold. rewrite Hrep, Hdry.
  cbn [andb negb].
  destruct (organize_files md5 fuel o w) as [[[]|e|] w1] eqn:Hrun.
  - destruct (print_stats_logged w1) as (w2 & -> & [F C S D (l & E & A)]).
    unfold generate_report. rewrite Ho.
    destruct (_ && _); intros [= <- <-]; (split; [done|]);
      intros ? [= <-]; (split_and!; [done..|]); cbn;
      rewrite ?elem_of_app, ?list_elem_of_singleton; eauto.
  - intros [= <- <-]. split; [done|]. intros ? [=].
  - intros [= <- <-]. split; [done|]. intros ? [=].
Qed.

(** A move of a run is of a file that is not excluded. *)
Definition moves_from (o : organizer) (w w' : world) : Prop :=
  ∃ l, w_events w' = w_events w ++ l
       ∧ ∀ p t, Move p t ∈ l → should_exclude o p = false.

Lemma moves_from_logged (o : organizer) (w1 w2 w3 : world) :
  moves_from o w1 w2 →
  (∃ l, w_events w3 = w_events w2 ++ l ∧ ∀ p t, Move p t ∉ l) →
  moves_from o w1 w3.
Proof.
  intros (l1 & E1 & F1) (l2 & E2 & F2). exists (l1 ++ l2).
  split; [by rewrite E2, E1, app_assoc|].
  intros p t [H|H]%elem_of_app; [by eapply F1 | by destruct (F2 p t)].
Qed.

Lemma main_execute_moves (fuel : nat) (a : args) (o : organizer) (w : world) r w' :
  main_execute md5 fuel a o w = (r, w') → moves_from o w w'.
Proof.
  unfold main_execute. munfold.
  destruct (organize_files md5 fuel o w) as [r1 w1] eqn:Hrun.
  assert (moves_from o w w1) as M1.
  { apply run_moves_ok in Hrun as (l & E & F). exists l. split; [done|].
    intros p t Hp. rewrite Forall_forall in F.
    by apply F in Hp as (_ & ? & _). }
  assert (∀ e v, (∀ p t, e ≠ Move p t) → moves_from o w v →
                 moves_from o w (emit e v)) as Hemit.
  { intros e v He Hv. eapply moves_from_logged; [exact Hv|].
    exists [e]. split; [done|]. intros p t Hin%list_elem_of_singleton.
    by destruct (He p t). }
  destruct r1 as [[]|e|]; [|intros [= <- <-]; by apply Hemit
                           |by intros [= <- <-]].
  destruct (print_stats_logged w1) as (w2 & -> & [F C S D (l & E & A)]).
  assert (moves_from o w w2) as M2.
  { eapply moves_from_logged; [exact M1|]. exists l. split; [done|].
    intros p t Hp. rewrite Forall_forall in A. by apply A in Hp. }
  destruct (_ && _).
  - unfold generate_report. destruct (dry_run o).
    + munfold. intros [= <- <-]. by repeat apply Hemit.
    + destruct (_ && _); intros [= <- <-]; apply Hemit; try done.
      * eapply moves_from_logged; [exact M2|].
        eexists [_]. split; [done|]. by intros p t ?%list_elem_of_singleton.
      * by apply Hemit.
  - intros [= <- <-]. by apply Hemit.
Qed.

(** A run started from the command line without [--load-config] never
    tries to move a file named file_organizer.py,
    file_organizer_config.json or organize.py or named by
    [--exclude-file], nor a file that has a component of its path among
    the default excluded directories and those of [--exclude-dir]: the
    options add to the defaults and take none away. *)
Theorem main_never_moves_excluded (fuel : nat) (cwd : string) (a : args)
    (loaded : option organizer) (w : world) r w' :
  a_load_config a = false →
  main_execute md5 fuel a (main_organizer cwd a loaded) w = (r, w') →
  ∃ l, w_events w' = w_events w ++ l
       ∧ ∀ p t, Move p t ∈ l →
                (Path.basename p
                 ∉ (MAIN_EXCLUDE_FILES ++ default [] (a_exclude_file a)))
                ∧ ∀ d, d ∈ DEFAULT_EXCLUDE_DIRS ++ default [] (a_exclude_dir a) →
                       d ∉ Py.split Path.sep p.
Proof.
  intros Hload (l & E & F)%main_execute_moves.
  exists l. split; [done|]. intros p t Hp. specialize (F p t Hp).
  unfold main_organizer in F. rewrite Hload in F.
  unfold should_exclude in F. cbn [init exclude_files exclude_dirs or_default] in F.
  change (bool_decide (MAIN_EXCLUDE_FILES ++ default [] (a_exclude_file a) = []))
    with false in F.
  change (bool_decide (DEFAULT_EXCLUDE_DIRS ++ default [] (a_exclude_dir a) = []))
    with false in F.
  cbn iota in F.
  destruct (Py.in_list (Path.basename p) _) eqn:Hf; [done|]. split.
  - intros Hin%in_list_true. congruence.
  - intros d Hd Hin. apply not_true_iff_false in F. apply F.
    apply existsb_exists. exists d. split; [by apply list_elem_of_In|].
    by apply in_list_true.
Qed.
End Main.

Definition report_args : args :=
  Args (Some "/s") None false false false false "file_organizer_config.json"
       true "organization_report.json" false false None (Some ["notes.py"]) false.

Definition main_fs : gmap string node :=
  {[ "/s" := NDir;
     "/s/a.py" := NFile (FData "x = 1" true true true);
     "/s/notes.py" := NFile (FData "n = 0" true true true);
     "/s/organize.py" := NFile (FData "o = 0" true true true) ]}.

Lemma report_ends_in_failure_witness :
  let o := main_organizer "/" report_args None in
  let r := main_execute (λ b, b) 5%nat report_args o (world0 main_fs "/") in
  r.1 = Done 1
  ∧ organized_files (w_stats r.2) = 1%nat
  ∧ FS.is_file (w_fs r.2) "/s/Python/a.py" = true.
Proof.
  intros o r.
  destruct (report_ends_in_failure (λ b, b) 5%nat report_args o (world0 main_fs "/")
              r.1 r.2 eq_refl eq_refl eq_refl (surjective_pairing _)) as [_ H].
  destruct (H (organize_files (λ b, b) 5%nat o (world0 main_fs "/")).2)
    as (H1 & H2 & _).
  - vm_compute. reflexivity.
  - split_and!; [exact H1 | rewrite H2 | ]; vm_compute; reflexivity.
Defined.

Lemma main_never_moves_excluded_witness :
  let r := main_execute (λ b, b) 5%nat report_args
             (main_organizer "/" report_args None) (world0 main_fs "/") in
  Move "/s/a.py" "/s/Python/a.py" ∈ w_events r.2
  ∧ ∀ t, (Move "/s/notes.py" t ∉ w_events r.2)
         ∧ (Move "/s/organize.py" t ∉ w_events r.2).
Proof.
  intros r.
  destruct (main_never_moves_excluded (λ b, b) 5%nat "/" report_args None
              (world0 main_fs "/") r.1 r.2 eq_refl (surjective_pairing _))
    as (l & E & F).
  split.
  - apply list_elem_of_In. vm_compute. tauto.
  - assert (l = w_events r.2) as <- by (symmetry; exact E).
    intros t. split; intros [Hb _]%F; apply Hb, list_elem_of_In;
      vm_compute; tauto.
Defined.

(** ** The shells of the shebang pass *)

Lemma contains_startswith (b s : string) :
  Py.startswith b s = true → Py.contains b s = true.
Proof. intros H. destruct s; cbn [Py.contains]; by rewrite H. Qed.

Lemma contains_skip (b a u : string) :
  Py.contains b u = true → Py.contains b (a +:+ u) = true.
Proof.
  intros H. induction a as [|c a IH]; [by rewrite sapp_nil_l|].
  rewrite sapp_cons. cbn [Py.contains]. rewrite IH. apply orb_true_r.
Qed.

Lemma contains_decomp (b s u v : string) :
  s = u +:+ b +:+ v → Py.contains b s = true.
Proof. intros ->. apply contains_skip, contains_startswith, startswith_app. Qed.

Lemma contains_needle_suffix (a b s : string) :
  Py.contains (a +:+ b) s = true → Py.contains b s = true.
Proof.
  assert (Py.startswith (a +:+ b) s = true → Py.contains b s = true) as Hs.
  { intros [t Ht]%startswith_inv. apply (contains_decomp b s a t).
    by rewrite Ht, sapp_assoc. }
  revert Hs. induction s as [|c s IH]; intros Hs.
  - intros H. apply Hs. cbn [Py.contains] in H. by rewrite orb_false_r in H.
  - cbn [Py.contains]. intros [H|H]%orb_true_iff; [exact (Hs H)|].
    rewrite IH; [apply orb_true_r| |done].
    intros [t Ht]%startswith_inv. apply (contains_decomp b s a t).
    by rewrite Ht, sapp_assoc.
Qed.

(** The shell test of the shebang pass, any of bash, sh and zsh in the
    line, is the test for sh alone, the other two names containing it; so
    every shebang line with the letters sh in it, and neither python nor
    node, is a shell script to the organizer, a ruby or perl line with them
    too. *)
Theorem shebang_shell_test (line : string) :
  existsb (λ shell, Py.contains shell line) ["bash"; "sh"; "zsh"]
  = Py.contains "sh" line
  ∧ shebang_type line =
      if Py.contains "python" line then Some "Python/Scripts"
      else if Py.contains "node" line then Some "Web/JavaScript/Scripts"
      else if Py.contains "sh" line then Some "Scripts/Shell"
      else if Py.contains "ruby" line then Some "Ruby/Scripts"
      else if Py.contains "perl" line then Some "Perl/Scripts"
      else None.
Proof.
  assert (existsb (λ shell, Py.contains shell line) ["bash"; "sh"; "zsh"]
          = Py.contains "sh" line) as H.
  { cbn [existsb]. rewrite orb_false_r.
    pose proof (contains_needle_suffix "ba" "sh" line) as H1.
    pose proof (contains_needle_suffix "z" "sh" line) as H2.
    change ("ba" +:+ "sh") with "bash" in H1. change ("z" +:+ "sh") with "zsh" in H2.
    destruct (Py.contains "bash" line), (Py.contains "zsh" line),
             (Py.contains "sh" line); try done.
    - by specialize (H1 eq_refl).
    - by specialize (H1 eq_refl).
    - by specialize (H2 eq_refl). }
  split; [exact H|]. unfold shebang_type. by rewrite H.
Qed.

(** ** The exceptions of a step *)








Section Placed.
Variables (o : organizer) (p : string) (w : world) (f : fdata).
Hypothesis has_parent : project_mode o = true → Path.dirname p ≠ "".
Hypothesis is_there : w_fs w !! Path.abspath (w_cwd w) p = Some (NFile f).




End Placed.

Section StepExceptions.
Variable md5 : string → string.

End StepExceptions.


